(** * The fast_pattern keyword of the detection engine

    A shallow embedding of detect-fast-pattern.c (the third document of
    src/src/util-affinity.c): the registration lists of keywords and
    sigmatch lists that get fast pattern support, and
    [DetectFastPatternSetup], which configures the previous content
    context for a [fast_pattern] modifier.  The cpu affinity code of
    util-affinity.c itself (the first document) follows it: the table of
    thread families, the reading of cpu lists and the choice of the next
    cpu of a family.

    C [int]s are [Z] with the 32-bit wrap-around written out, the
    [flags] word is a [Z] handled with [Z.land] and [Z.lor], a sigmatch
    list (a doubly linked list in C) is a Rocq list whose last element is
    the tail, and the in-place updates through [pm->ctx] are updates of
    the list element the pointer designates. *)

From Stdlib Require Import ZArith Lia Bool Ascii String.
From stdpp Require Import base tactics option list functions gmap.

Local Open Scope Z_scope.

(** ** C integers *)

Module CInt.

Definition INT_MAX : Z := 2147483647.
Definition INT_MIN : Z := -2147483648.
Definition LONG_MAX : Z := 9223372036854775807.
Definition LONG_MIN : Z := -9223372036854775808.

(** Conversion to [int]: the value modulo 2^32, read as signed. *)
Definition to_int (z : Z) : Z := (z + 2147483648) mod 4294967296 - 2147483648.

(** [a + b] on [int]s, wrapping around as the machine addition does. *)
Definition int_add (a b : Z) : Z := to_int (a + b).

(** Conversion to [uint16_t], as in [cd->fp_chop_offset = offset]. *)
Definition to_uint16 (z : Z) : Z := z mod 65536.

End CInt.

(** ** The data model: detect.h and detect-content.h

    Neither header is part of the sources; the declarations below are the
    ones the code of detect-fast-pattern.c reads and writes. *)

(** Modelled from the spec: the enumeration [DETECT_SM_LIST_*] of detect.h
    is not part of the sources.  The sigmatch lists of a signature, one
    per buffer context; the seven the spec supports are the payload, URI,
    HTTP client body, HTTP header, HTTP raw header, HTTP method and HTTP
    cookie lists. *)
Inductive SMList : Type :=
| DETECT_SM_LIST_MATCH
| DETECT_SM_LIST_PMATCH
| DETECT_SM_LIST_UMATCH
| DETECT_SM_LIST_AMATCH
| DETECT_SM_LIST_DMATCH
| DETECT_SM_LIST_TMATCH
| DETECT_SM_LIST_HCBDMATCH
| DETECT_SM_LIST_HHDMATCH
| DETECT_SM_LIST_HRHDMATCH
| DETECT_SM_LIST_HMDMATCH
| DETECT_SM_LIST_HCDMATCH.

#[global] Instance SMList_eq_dec : EqDecision SMList.
Proof. solve_decision. Defined.

(** Modelled from the spec: the enumeration of keyword types of detect.h
    ([sm->type]) is not part of the sources.  The seven content bearing
    keyword types are the ones the code names; [DETECT_KEYWORD n] stands
    for the keywords detect-fast-pattern.c never names (pcre, byte_test,
    ...). *)
Inductive SigMatchType : Type :=
| DETECT_CONTENT
| DETECT_URICONTENT
| DETECT_AL_HTTP_CLIENT_BODY
| DETECT_AL_HTTP_HEADER
| DETECT_AL_HTTP_RAW_HEADER
| DETECT_AL_HTTP_METHOD
| DETECT_AL_HTTP_COOKIE
| DETECT_FAST_PATTERN
| DETECT_KEYWORD (n : nat).

#[global] Instance SigMatchType_eq_dec : EqDecision SigMatchType.
Proof. solve_decision. Defined.

(** Modelled from the spec: detect-content.h, which defines the
    [DETECT_CONTENT_*] masks of [DetectContentData.flags], is not part of
    the sources; the spec's FastPatternFlags is a bitset, so each mask is
    one bit of its own. *)
Definition DETECT_CONTENT_NOCASE : Z := 1.
Definition DETECT_CONTENT_DISTANCE : Z := 2.
Definition DETECT_CONTENT_WITHIN : Z := 4.
Definition DETECT_CONTENT_OFFSET : Z := 8.
Definition DETECT_CONTENT_DEPTH : Z := 16.
Definition DETECT_CONTENT_FAST_PATTERN : Z := 32.
Definition DETECT_CONTENT_FAST_PATTERN_ONLY : Z := 64.
Definition DETECT_CONTENT_FAST_PATTERN_CHOP : Z := 128.
Definition DETECT_CONTENT_NEGATED : Z := 256.

(** [cd->flags & mask], as a C condition. *)
Definition flag_set (flags mask : Z) : bool := negb (Z.land flags mask =? 0).

(** Modelled from the spec: the structure [DetectContentData] of
    detect-content.h is not part of the sources.  The fields are the ones
    fast_pattern reads and writes; by the spec a pattern has 0..65535
    bytes and a chop offset and length of at most 65535, so
    [content_len], [fp_chop_offset] and [fp_chop_len] are [uint16_t]. *)
Record DetectContentData : Type := mkContent {
  content : list Byte.byte;
  content_len : Z;
  flags : Z;
  fp_chop_offset : Z;
  fp_chop_len : Z
}.

Definition set_flags (cd : DetectContentData) (f : Z) : DetectContentData :=
  mkContent (content cd) (content_len cd) f (fp_chop_offset cd) (fp_chop_len cd).

Definition set_chop (cd : DetectContentData) (o l : Z) : DetectContentData :=
  mkContent (content cd) (content_len cd) (flags cd) o l.

(** Modelled from the spec: the structure [SigMatch] of detect.h is not
    part of the sources.  A keyword node: [idx] is its position in
    declaration order; [ctx] is read only for content bearing keywords,
    whose context is a [DetectContentData]. *)
Record SigMatch : Type := mkSigMatch {
  idx : Z;
  type : SigMatchType;
  ctx : DetectContentData
}.

Definition set_ctx (sm : SigMatch) (cd : DetectContentData) : SigMatch :=
  mkSigMatch (idx sm) (type sm) cd.

(** Modelled from the spec: the structure [Signature] of detect.h is not
    part of the sources.  The array of sigmatch lists, ordered sequences
    of keyword nodes: [sm_lists s l] is the list from [s->sm_lists[l]]
    (head) to [s->sm_lists_tail[l]] (last); [sm_cnt] counts the keywords
    added so far and numbers the next one. *)
Record Signature : Type := mkSignature {
  sm_lists : SMList -> list SigMatch;
  sm_cnt : Z
}.

(** [s->sm_lists_tail[l]]; [None] is NULL. *)
Definition sm_lists_tail (s : Signature) (l : SMList) : option SigMatch :=
  list.last (sm_lists s l).

(** A [SigMatch *] into the signature: the list and the position in it. *)
Definition SMRef : Type := SMList * nat.

Definition deref (s : Signature) (r : SMRef) : option SigMatch :=
  sm_lists s (fst r) !! snd r.

(** A write to a field of the content data [pm->ctx] points to. *)
Definition store_ctx (s : Signature) (r : SMRef) (cd : DetectContentData) : Signature :=
  mkSignature
    (<[fst r := alter (fun sm => set_ctx sm cd) (snd r) (sm_lists s (fst r))]> (sm_lists s))
    (sm_cnt s).

(** A lookup result after the write: the same node, with the data
    written when it is the node written to. *)
Definition written (pm : SMRef) (cd : DetectContentData)
    (x : option (SMRef * SigMatch)) : option (SMRef * SigMatch) :=
  (fun p : SMRef * SigMatch =>
     (p.1, if decide (p.1 = pm) then set_ctx p.2 cd else p.2)) <$> x.

(** ** Looking up the keyword a modifier applies to

    [SigMatchGetLastSM] and [SigMatchGetLastSMFromLists] live in
    detect-parse.c, which is not part of the sources.  The spec has a
    [fast_pattern] directive apply to the content keyword declared before
    it; the call in [DetectFastPatternSetup] passes the number of variadic
    arguments and then (keyword type, list tail) pairs, so the lookup
    reads [args / 2] pairs, takes from each list the keyword of the given
    type nearest to the tail and returns the one declared last (the
    highest [idx]). *)

(** Modelled from the spec: [SigMatchGetLastSM] (detect-parse.c) is not
    part of the sources.  From the tail backwards over [prev]: the last
    node of type [t], with its position counted from [i]. *)
Fixpoint SigMatchGetLastSM_from (i : nat) (l : list SigMatch) (t : SigMatchType)
  : option (nat * SigMatch) :=
  match l with
  | [] => None
  | sm :: l' =>
      match SigMatchGetLastSM_from (S i) l' t with
      | Some r => Some r
      | None => if decide (type sm = t) then Some (i, sm) else None
      end
  end.

(** Modelled from the spec: [SigMatchGetLastSM] (detect-parse.c) is not
    part of the sources.  The last keyword of type [t] of the list whose
    tail is handed over. *)
Definition SigMatchGetLastSM (l : list SigMatch) (t : SigMatchType)
  : option (nat * SigMatch) :=
  SigMatchGetLastSM_from 0 l t.

(** Modelled from the spec: part of [SigMatchGetLastSMFromLists]
    (detect-parse.c), which is not part of the sources.  The keyword
    declared later of the candidate so far and the one newly found. *)
Definition sm_newer (sm_last : option (SMRef * SigMatch)) (l : SMList)
    (sm_new : option (nat * SigMatch)) : option (SMRef * SigMatch) :=
  match sm_new with
  | None => sm_last
  | Some (i, new) =>
      match sm_last with
      | None => Some ((l, i), new)
      | Some (_, old) => if idx new >? idx old then Some ((l, i), new) else sm_last
      end
  end.

(** Modelled from the spec: part of [SigMatchGetLastSMFromLists]
    (detect-parse.c), which is not part of the sources.  The loop over
    the (keyword type, list) pairs. *)
Fixpoint last_sm_of_pairs (s : Signature) (pairs : list (SigMatchType * SMList))
    (sm_last : option (SMRef * SigMatch)) : option (SMRef * SigMatch) :=
  match pairs with
  | [] => sm_last
  | (t, l) :: rest =>
      last_sm_of_pairs s rest (sm_newer sm_last l (SigMatchGetLastSM (sm_lists s l) t))
  end.

(** Modelled from the spec: [SigMatchGetLastSMFromLists] (detect-parse.c)
    is not part of the sources.  Of the [args] variadic arguments, two
    per pair, the most recently declared keyword of the pairs' types in
    the pairs' lists; [None] is NULL. *)
Definition SigMatchGetLastSMFromLists (s : Signature) (args : nat)
    (pairs : list (SigMatchType * SMList)) : option (SMRef * SigMatch) :=
  last_sm_of_pairs s (firstn (args / 2) pairs) None.

(** ** The regular expression of the argument

    [pcre_exec] on the pattern of [DETECT_FAST_PATTERN_REGEX]: a
    backtracking matcher with greedy repetition, ordered alternation and
    numbered capture groups, tried at every start offset of the subject
    from the left. *)

Module Pcre.

Inductive cclass : Type :=
| CSpace                 (* \s *)
| CDigit                 (* [0-9] *)
| CLit (a : ascii).

(** [\s]: HT, LF, FF, CR and space. *)
Definition is_space (a : ascii) : bool :=
  let n := nat_of_ascii a in
  (n =? 9)%nat || (n =? 10)%nat || (n =? 12)%nat || (n =? 13)%nat || (n =? 32)%nat.

Definition is_digit (a : ascii) : bool :=
  let n := nat_of_ascii a in
  (48 <=? n)%nat && (n <=? 57)%nat.

Definition in_class (c : cclass) (a : ascii) : bool :=
  match c with
  | CSpace => is_space a
  | CDigit => is_digit a
  | CLit b => Ascii.eqb a b
  end.

Inductive regex : Type :=
| RBol                              (* ^ *)
| REol                              (* $ *)
| RChar (c : cclass)
| RStar (c : cclass)                (* c* *)
| RPlus (c : cclass)                (* c+ *)
| RSeq (r1 r2 : regex)
| RAlt (r1 r2 : regex)              (* r1|r2 *)
| RGroup (n : nat) (r : regex).     (* the n-th parenthesis *)

(** The offset pairs of the ovector: entry [n] is the span of group [n],
    entry 0 the span of the whole match; [None] is an unset pair. *)
Definition captures : Type := list (option (nat * nat)).

Definition cont : Type := nat -> list ascii -> captures -> option captures.

(** Greedy [c*] at offset [pos] of the subject, [s] being what is left
    of it: the longest run first, then shorter ones. *)
Fixpoint star (c : cclass) (pos : nat) (s : list ascii) (caps : captures) (k : cont)
  : option captures :=
  match s with
  | a :: s' =>
      if in_class c a then
        match star c (S pos) s' caps k with
        | Some r => Some r
        | None => k pos s caps
        end
      else k pos s caps
  | [] => k pos s caps
  end.

Fixpoint match_re (r : regex) (pos : nat) (s : list ascii) (caps : captures) (k : cont)
  : option captures :=
  match r with
  | RBol => match pos with O => k pos s caps | S _ => None end
  | REol =>
      match s with
      | [] => k pos s caps
      | [a] => if Ascii.eqb a "010"%char then k pos s caps else None
      | _ => None
      end
  | RChar c =>
      match s with
      | a :: s' => if in_class c a then k (S pos) s' caps else None
      | [] => None
      end
  | RStar c => star c pos s caps k
  | RPlus c =>
      match s with
      | a :: s' => if in_class c a then star c (S pos) s' caps k else None
      | [] => None
      end
  | RSeq r1 r2 =>
      match_re r1 pos s caps (fun pos' s' caps' => match_re r2 pos' s' caps' k)
  | RAlt r1 r2 =>
      match match_re r1 pos s caps k with
      | Some res => Some res
      | None => match_re r2 pos s caps k
      end
  | RGroup n r =>
      match_re r pos s caps
        (fun pos' s' caps' => k pos' s' (<[n := Some (pos, pos')]> caps'))
  end.

(** The match attempts at the successive start offsets. *)
Fixpoint exec_from (re : regex) (ngroups : nat) (pos : nat) (s : list ascii)
  : option captures :=
  match match_re re pos s (replicate (S ngroups) None)
          (fun pos' _ caps => Some (<[0%nat := Some (pos, pos')]> caps)) with
  | Some caps => Some caps
  | None =>
      match s with
      | [] => None
      | _ :: s' => exec_from re ngroups (S pos) s'
      end
  end.

(** The highest numbered pair that is set, plus one. *)
Fixpoint string_count (caps : captures) : nat :=
  match caps with
  | [] => 0
  | c :: caps' =>
      match string_count caps', c with
      | O, None => 0
      | n, _ => S n
      end
  end.

Definition PCRE_ERROR_NOMATCH : Z := -1.
Definition PCRE_ERROR_NOSUBSTRING : Z := -7.

(** [pcre_exec(re, study, subject, strlen(subject), 0, 0, ov, MAX_SUBSTRINGS)]:
    the return value and the ovector. *)
Definition pcre_exec (re : regex) (ngroups : nat) (subject : list ascii)
  : Z * captures :=
  match exec_from re ngroups 0 subject with
  | Some caps => (Z.of_nat (string_count caps), caps)
  | None => (PCRE_ERROR_NOMATCH, [])
  end.

(** [pcre_get_substring(subject, ov, stringcount, n, &substr)]: the
    result and the substring. *)
Definition pcre_get_substring (subject : list ascii) (ov : captures)
    (stringcount : Z) (n : nat) : Z * list ascii :=
  if (Z.of_nat n <? stringcount) then
    match ov !! n with
    | Some (Some (b, e)) => (Z.of_nat (e - b), take (e - b) (drop b subject))
    | _ => (0, [])
    end
  else (PCRE_ERROR_NOSUBSTRING, []).

End Pcre.

Import Pcre.

(** The pattern of the argument, as the macro has it. *)
Definition DETECT_FAST_PATTERN_REGEX : string :=
  "^(\s*only\s*)|\s*([0-9]+)\s*,\s*([0-9]+)\s*$".

(** [parse_regex], the compiled [DETECT_FAST_PATTERN_REGEX].  Alternation
    binds weakest: the first branch is the anchor [^] and group 1, the
    second branch runs from the first [\s] after the bar to the [$]. *)
Definition parse_regex : regex :=
  RAlt
    (RSeq RBol
       (RGroup 1
          (RSeq (RStar CSpace)
             (RSeq (RChar (CLit "o"))
                (RSeq (RChar (CLit "n"))
                   (RSeq (RChar (CLit "l"))
                      (RSeq (RChar (CLit "y")) (RStar CSpace))))))))
    (RSeq (RStar CSpace)
       (RSeq (RGroup 2 (RPlus CDigit))
          (RSeq (RStar CSpace)
             (RSeq (RChar (CLit ","))
                (RSeq (RStar CSpace)
                   (RSeq (RGroup 3 (RPlus CDigit))
                      (RSeq (RStar CSpace) REol))))))).

Definition parse_regex_groups : nat := 3.

(** ** atoi

    [atoi(nptr)] is [(int) strtol(nptr, NULL, 10)]: white space is
    skipped, an optional sign is read, then the decimal digits; the
    [long] saturates and the conversion to [int] keeps the low 32 bits. *)

Module Atoi.

Definition isspace (a : ascii) : bool :=
  let n := nat_of_ascii a in
  ((9 <=? n)%nat && (n <=? 13)%nat) || (n =? 32)%nat.

Definition digit_val (a : ascii) : Z := Z.of_nat (nat_of_ascii a) - 48.

(** The value of the leading decimal digits of [s], from [acc]. *)
Fixpoint digits (acc : Z) (s : list ascii) : Z :=
  match s with
  | a :: s' => if is_digit a then digits (10 * acc + digit_val a) s' else acc
  | [] => acc
  end.

Fixpoint skip_space (s : list ascii) : list ascii :=
  match s with
  | a :: s' => if isspace a then skip_space s' else s
  | [] => []
  end.

Definition clamp_long (z : Z) : Z :=
  if z >? CInt.LONG_MAX then CInt.LONG_MAX
  else if z <? CInt.LONG_MIN then CInt.LONG_MIN
  else z.

Definition strtol (s : list ascii) : Z :=
  match skip_space s with
  | a :: s' =>
      if Ascii.eqb a "-" then clamp_long (- digits 0 s')
      else if Ascii.eqb a "+" then clamp_long (digits 0 s')
      else clamp_long (digits 0 (a :: s'))
  | [] => 0
  end.

Definition atoi (s : list ascii) : Z := CInt.to_int (strtol s).

(** A non-empty string of decimal digits, and the number it writes. *)
Definition digit_string (d : list ascii) : Prop :=
  d <> [] /\ Forall (fun a => is_digit a = true) d.

Definition decimal (d : list ascii) : Z := digits 0 d.

End Atoi.

Import Atoi.

(** ** DetectFastPatternSetup *)

(** The (keyword type, sigmatch list) pairs handed to
    [SigMatchGetLastSMFromLists]. *)
Definition fp_lookup_pairs : list (SigMatchType * SMList) :=
  [ (DETECT_CONTENT, DETECT_SM_LIST_PMATCH);
    (DETECT_URICONTENT, DETECT_SM_LIST_UMATCH);
    (DETECT_AL_HTTP_CLIENT_BODY, DETECT_SM_LIST_HCBDMATCH);
    (DETECT_AL_HTTP_HEADER, DETECT_SM_LIST_HHDMATCH);
    (DETECT_AL_HTTP_RAW_HEADER, DETECT_SM_LIST_HRHDMATCH);
    (DETECT_AL_HTTP_METHOD, DETECT_SM_LIST_HMDMATCH);
    (DETECT_AL_HTTP_COOKIE, DETECT_SM_LIST_HCDMATCH) ].

(** The call [SigMatchGetLastSMFromLists(s, 12, ...)] of the function:
    the count passed is 12, the pairs that follow it are the seven above. *)
Definition fast_pattern_target (s : Signature) : option (SMRef * SigMatch) :=
  SigMatchGetLastSMFromLists s 12 fp_lookup_pairs.

(** The pairs the lookup reads when the count is 12: the first six. *)
Definition fp_searched_pairs : list (SigMatchType * SMList) :=
  Eval cbv in firstn (12 / 2) fp_lookup_pairs.

(** The first test of the function: every one of the seven tails NULL. *)
Definition no_fp_list_tail (s : Signature) : bool :=
  forallb (fun l => bool_decide (sm_lists_tail s l = None))
    [ DETECT_SM_LIST_PMATCH; DETECT_SM_LIST_UMATCH; DETECT_SM_LIST_HCBDMATCH;
      DETECT_SM_LIST_HHDMATCH; DETECT_SM_LIST_HRHDMATCH; DETECT_SM_LIST_HMDMATCH;
      DETECT_SM_LIST_HCDMATCH ].

(** [cd->flags & DISTANCE || cd->flags & WITHIN || cd->flags & OFFSET ||
    cd->flags & DEPTH] *)
Definition has_relative_modifier (cd : DetectContentData) : bool :=
  flag_set (flags cd) DETECT_CONTENT_DISTANCE ||
  flag_set (flags cd) DETECT_CONTENT_WITHIN ||
  flag_set (flags cd) DETECT_CONTENT_OFFSET ||
  flag_set (flags cd) DETECT_CONTENT_DEPTH.

Definition is_negated (cd : DetectContentData) : bool :=
  flag_set (flags cd) DETECT_CONTENT_NEGATED.

(** [cd->flags |= mask] *)
Definition or_flags (cd : DetectContentData) (mask : Z) : DetectContentData :=
  set_flags cd (Z.lor (flags cd) mask).

Definition MAX_SUBSTRINGS : Z := 30.

(** The [ret == 4] branch: the two numbers, their limits, the chop fields. *)
Definition fast_pattern_chop (s : Signature) (pm : SMRef) (cd : DetectContentData)
    (arg : list ascii) (ov : captures) : Z * Signature :=
  let '(res, arg_substr) := pcre_get_substring arg ov MAX_SUBSTRINGS 2 in
  if res <? 0 then (-1, s) else
  let offset := atoi arg_substr in
  if offset >? 65535 then (-1, s) else
  let '(res, arg_substr) := pcre_get_substring arg ov MAX_SUBSTRINGS 3 in
  if res <? 0 then (-1, s) else
  let length := atoi arg_substr in
  if offset >? 65535 then (-1, s) else
  if CInt.int_add offset length >? 65535 then (-1, s) else
  if CInt.int_add offset length >? content_len cd then (-1, s) else
  let cd := set_chop cd (CInt.to_uint16 offset) (CInt.to_uint16 length) in
  let cd := or_flags cd DETECT_CONTENT_FAST_PATTERN_CHOP in
  let cd := or_flags cd DETECT_CONTENT_FAST_PATTERN in
  (0, store_ctx s pm cd).

(** The function from [cd = pm->ctx] on: the guard on negated content
    with relative modifiers, then the three forms of the argument.
    [arg] is [None] for a NULL argument. *)
Definition fast_pattern_stamp (s : Signature) (pm : SMRef) (cd : DetectContentData)
    (arg : option string) : Z * Signature :=
  if is_negated cd && has_relative_modifier cd then (-1, s) else
  match arg with
  | None | Some EmptyString =>
      (0, store_ctx s pm (or_flags cd DETECT_CONTENT_FAST_PATTERN))
  | Some arg =>
      let arg := list_ascii_of_string arg in
      let '(ret, ov) := pcre_exec parse_regex parse_regex_groups arg in
      if ret =? 2 then
        (* fast pattern only *)
        if is_negated cd || has_relative_modifier cd then (-1, s) else
        let cd := or_flags cd DETECT_CONTENT_FAST_PATTERN_ONLY in
        (0, store_ctx s pm (or_flags cd DETECT_CONTENT_FAST_PATTERN))
      else if ret =? 4 then
        (* fast pattern chop *)
        fast_pattern_chop s pm cd arg ov
      else (-1, s)
  end.

(** The result is the return value together with the signature as the
    call leaves it. *)
Definition DetectFastPatternSetup (s : Signature) (arg : option string)
  : Z * Signature :=
  if no_fp_list_tail s then (-1, s) else
  match fast_pattern_target s with
  | None => (-1, s)
  | Some (pm, sm) => fast_pattern_stamp s pm (ctx sm) arg
  end.

(** The argument text [offset,length] of two digit strings. *)
Definition chop_arg (d1 d2 : list ascii) : string :=
  string_of_list_ascii (d1 ++ ","%char :: d2).

(** *** Signatures to run the function on *)

Definition bytes (s : string) : list Byte.byte := list_byte_of_string s.

Definition content_data (neg : bool) (pat : string) : DetectContentData :=
  mkContent (bytes pat) (Z.of_nat (List.length (bytes pat)))
    (if neg then DETECT_CONTENT_NEGATED else 0) 0 0.

Definition empty_sig : Signature := mkSignature (fun _ => []) 0.

Definition sig_of (l : SMList) (sms : list SigMatch) : Signature :=
  mkSignature (<[l := sms]> (fun _ => [])) (Z.of_nat (List.length sms)).

(** ** The registration of fast pattern support

    The two global lists, [sm_fp_support_smtype_list] and
    [sm_fp_support_smlist_list]; a new node is linked in at the head. *)

Record FPSupport : Type := mkFPSupport {
  sm_fp_support_smtype_list : list SigMatchType;
  sm_fp_support_smlist_list : list SMList
}.

(** Both lists NULL, as they are initialised. *)
Definition fp_support_init : FPSupport := mkFPSupport [] [].

(** The [while] loop over [tmp_smlist_fp]: is [list_id] in the list? *)
Fixpoint smlist_registered (tmp_smlist_fp : list SMList) (list_id : SMList) : bool :=
  match tmp_smlist_fp with
  | [] => false
  | id :: next => if decide (id = list_id) then true else smlist_registered next list_id
  end.

Definition SupportFastPatternForSigMatchList (list_id : SMList) (g : FPSupport)
  : FPSupport :=
  if smlist_registered (sm_fp_support_smlist_list g) list_id then g
  else mkFPSupport (sm_fp_support_smtype_list g)
         (list_id :: sm_fp_support_smlist_list g).

(** The [while] loop over [tmp_smtype_fp]. *)
Fixpoint smtype_registered (tmp_smtype_fp : list SigMatchType) (sm_type : SigMatchType)
  : bool :=
  match tmp_smtype_fp with
  | [] => false
  | t :: next => if decide (t = sm_type) then true else smtype_registered next sm_type
  end.

Definition SupportFastPatternForSigMatchType (sm_type : SigMatchType) (g : FPSupport)
  : FPSupport :=
  if smtype_registered (sm_fp_support_smtype_list g) sm_type then g
  else mkFPSupport (sm_type :: sm_fp_support_smtype_list g)
         (sm_fp_support_smlist_list g).

Definition SupportFastPatternForSigMatchTypes (g : FPSupport) : FPSupport :=
  let g := SupportFastPatternForSigMatchType DETECT_CONTENT g in
  let g := SupportFastPatternForSigMatchList DETECT_SM_LIST_PMATCH g in
  let g := SupportFastPatternForSigMatchType DETECT_URICONTENT g in
  let g := SupportFastPatternForSigMatchList DETECT_SM_LIST_UMATCH g in
  let g := SupportFastPatternForSigMatchType DETECT_AL_HTTP_CLIENT_BODY g in
  let g := SupportFastPatternForSigMatchList DETECT_SM_LIST_HCBDMATCH g in
  let g := SupportFastPatternForSigMatchType DETECT_AL_HTTP_HEADER g in
  let g := SupportFastPatternForSigMatchList DETECT_SM_LIST_HHDMATCH g in
  let g := SupportFastPatternForSigMatchType DETECT_AL_HTTP_RAW_HEADER g in
  let g := SupportFastPatternForSigMatchList DETECT_SM_LIST_HRHDMATCH g in
  let g := SupportFastPatternForSigMatchType DETECT_AL_HTTP_METHOD g in
  let g := SupportFastPatternForSigMatchList DETECT_SM_LIST_HMDMATCH g in
  let g := SupportFastPatternForSigMatchType DETECT_AL_HTTP_COOKIE g in
  let g := SupportFastPatternForSigMatchList DETECT_SM_LIST_HCDMATCH g in
  g.

(** A call of one of the three registration functions, and a run of
    calls from a state of the two lists. *)
Inductive SupportCall : Type :=
| CallSigMatchList (list_id : SMList)
| CallSigMatchType (sm_type : SigMatchType)
| CallSigMatchTypes.

Definition support_call (c : SupportCall) (g : FPSupport) : FPSupport :=
  match c with
  | CallSigMatchList list_id => SupportFastPatternForSigMatchList list_id g
  | CallSigMatchType sm_type => SupportFastPatternForSigMatchType sm_type g
  | CallSigMatchTypes => SupportFastPatternForSigMatchTypes g
  end.

Definition support_calls (cs : list SupportCall) (g : FPSupport) : FPSupport :=
  fold_left (fun g c => support_call c g) cs g.

Definition fp_support_nodup (g : FPSupport) : Prop :=
  NoDup (sm_fp_support_smtype_list g) /\ NoDup (sm_fp_support_smlist_list g).

(** ** The neighbours of the directive in a rule

    None of the code of this part is among the sources; it is what the
    unit tests of detect-fast-pattern.c drive through [SigInit]. *)

(** Modelled from the spec: the four relative-match modifiers of a
    ContentPattern. *)
Inductive Modifier : Type := ModDistance | ModWithin | ModOffset | ModDepth.

(** Modelled from the spec: the flag that records a modifier on its
    content keyword. *)
Definition modifier_flag (m : Modifier) : Z :=
  match m with
  | ModDistance => DETECT_CONTENT_DISTANCE
  | ModWithin => DETECT_CONTENT_WITHIN
  | ModOffset => DETECT_CONTENT_OFFSET
  | ModDepth => DETECT_CONTENT_DEPTH
  end.

(** Modelled from the spec: the setup functions of [distance], [within],
    [offset] and [depth] (detect-distance.c, detect-within.c,
    detect-offset.c, detect-depth.c) are not part of the sources.  By the
    spec a modifier sits on the content keyword declared before it, the
    one a directive at the same place targets; a signature is rejected
    when [only] is combined with one of the four on the same content
    keyword, and when a negated pattern that [fast_pattern] (any form)
    targets gets a relative modifier.  Otherwise the modifier is recorded
    in the keyword's flags. *)
Definition DetectModifierSetup (m : Modifier) (s : Signature) : Z * Signature :=
  match fast_pattern_target s with
  | None => (-1, s)
  | Some (pm, sm) =>
      let cd := ctx sm in
      if flag_set (flags cd) DETECT_CONTENT_FAST_PATTERN_ONLY then (-1, s)
      else if is_negated cd && flag_set (flags cd) DETECT_CONTENT_FAST_PATTERN
      then (-1, s)
      else (0, store_ctx s pm (or_flags cd (modifier_flag m)))
  end.

(** Modelled from the spec: the rule language is parsed outside the
    sources.  The keywords of a rule that matter here, in the order they
    are written. *)
Inductive Keyword : Type :=
| KContent (negated : bool) (pattern : string)       (* content:[!]pattern; *)
| KUricontent (negated : bool) (pattern : string)    (* uricontent:[!]pattern; *)
| KOther (l : SMList) (n : nat)                      (* a keyword without content *)
| KModifier (m : Modifier)                           (* distance:, within:, ... *)
| KFastPattern (arg : option string).                (* fast_pattern[:arg]; *)

(** Modelled from the spec: the rule parser (detect-parse.c,
    detect-content.c, detect-uricontent.c) is not part of the sources.  By
    the spec it supplies the signature with its per-context lists
    populated with content keywords (bytes, negation flag) in declaration
    order; the new node becomes the tail of its list and takes the next
    [idx]. *)
Definition SigMatchAppend (s : Signature) (l : SMList) (t : SigMatchType)
    (cd : DetectContentData) : Signature :=
  mkSignature (<[l := sm_lists s l ++ [mkSigMatch (sm_cnt s) t cd]]> (sm_lists s))
    (sm_cnt s + 1).

(** Modelled from the spec: the dispatch of a keyword to its setup
    function (detect-parse.c) is not part of the sources.  A content
    keyword adds a node to the list of its buffer context, [content] to
    the payload list and [uricontent] to the URI list. *)
Definition keyword_setup (k : Keyword) (s : Signature) : Z * Signature :=
  match k with
  | KContent neg pat =>
      (0, SigMatchAppend s DETECT_SM_LIST_PMATCH DETECT_CONTENT (content_data neg pat))
  | KUricontent neg pat =>
      (0, SigMatchAppend s DETECT_SM_LIST_UMATCH DETECT_URICONTENT (content_data neg pat))
  | KOther l n => (0, SigMatchAppend s l (DETECT_KEYWORD n) (content_data false ""))
  | KModifier m => DetectModifierSetup m s
  | KFastPattern arg => DetectFastPatternSetup s arg
  end.

(** Modelled from the spec: [SigInit] (detect-parse.c) is not part of the
    sources.  By the spec a signature one of whose keywords fails its
    validation is rejected, the signature list staying NULL ([None]);
    otherwise the signature is the one the setups have built. *)
Fixpoint SigInit_from (ks : list Keyword) (s : Signature) : option Signature :=
  match ks with
  | [] => Some s
  | k :: ks' =>
      let '(r, s') := keyword_setup k s in
      if r <? 0 then None else SigInit_from ks' s'
  end.

(** Modelled from the spec: [SigInit] (detect-parse.c) is not part of the
    sources.  The load of a rule starts from a signature without
    keywords. *)
Definition SigInit (ks : list Keyword) : option Signature :=
  SigInit_from ks empty_sig.

(** ** The MPM stages

    Modelled from the spec: the build and search stages
    (detect-engine-mpm.c and the matchers) are not part of the sources. *)

(** Modelled from the spec: a signature of a signature group, which is
    built outside the sources: its id and its lists, frozen. *)
Record GroupSignature : Type := mkGroupSignature {
  sig_id : Z;
  sig_sm : Signature
}.

(** Modelled from the spec: the needle of a pattern is "the pattern's byte
    range (full bytes, or [offset, offset+length) if chopped)". *)
Definition fast_pattern_needle (cd : DetectContentData) : list Byte.byte :=
  if flag_set (flags cd) DETECT_CONTENT_FAST_PATTERN_CHOP
  then take (Z.to_nat (fp_chop_len cd)) (drop (Z.to_nat (fp_chop_offset cd)) (content cd))
  else content cd.

(** Modelled from the spec: the selected patterns of a context list are
    the content keywords of the context's type that carry [FAST_PATTERN]
    once selection is complete. *)
Definition selected_patterns (t : SigMatchType) (l : list SigMatch)
  : list DetectContentData :=
  map ctx
    (filter (fun sm => type sm = t /\
                       flag_set (flags (ctx sm)) DETECT_CONTENT_FAST_PATTERN = true) l).

(** Modelled from the spec: [MpmMatcherInstance], one matcher per
    context, owns the needles, each tagged with the id of the signature
    that owns it. *)
Definition MpmMatcherInstance : Type := list (list Byte.byte * Z).

(** Modelled from the spec: [Build] inserts, for every signature of the
    group and the context's list, the needle of the selected pattern,
    tagged with the signature's id. *)
Definition Build (group : list GroupSignature) (t : SigMatchType) (l : SMList)
  : MpmMatcherInstance :=
  flat_map
    (fun g => map (fun cd => (fast_pattern_needle cd, sig_id g))
                (selected_patterns t (sm_lists (sig_sm g) l)))
    group.

(** Modelled from the spec: the literal comparison of the scan, which
    is part of the MPM backend.  Does [needle] start [buf]? *)
Fixpoint needle_at (needle buf : list Byte.byte) : bool :=
  match needle, buf with
  | [], _ => true
  | _ :: _, [] => false
  | a :: needle', b :: buf' => Byte.eqb a b && needle_at needle' buf'
  end.

(** Modelled from the spec: the scan of the MPM backend.  Does [needle]
    occur in [buf]?  Every offset is tried. *)
Fixpoint occurs (needle buf : list Byte.byte) : bool :=
  needle_at needle buf ||
  match buf with
  | [] => false
  | _ :: buf' => occurs needle buf'
  end.

(** Modelled from the spec: [Search] returns "the set of signature ids
    whose fast pattern occurred" in the buffer. *)
Definition Search (m : MpmMatcherInstance) (buf : list Byte.byte) : gset Z :=
  list_to_set (map snd (filter (fun p => occurs (fst p) buf = true) m)).

(** The literal occurrence of a byte range in a buffer. *)
Definition occurs_in (needle buf : list Byte.byte) : Prop :=
  exists pre post, buf = pre ++ needle ++ post.

(** ** Signatures, rules and measures used in the statements *)

(** No content bearing keyword in the seven lists: no list of a pair
    holds a keyword of the pair's type. *)
Definition no_content_keyword (s : Signature) : Prop :=
  Forall (fun p => Forall (fun sm => type sm <> p.1) (sm_lists s p.2)) fp_lookup_pairs.

(** A signature whose only keyword is one without content, in the payload
    list. *)
Definition sig_no_content : Signature :=
  sig_of DETECT_SM_LIST_PMATCH
    [mkSigMatch 0 (DETECT_KEYWORD 0) (content_data false "")].

(** [content:"/one/";] *)
Definition sig_one : Signature :=
  sig_of DETECT_SM_LIST_PMATCH [mkSigMatch 0 DETECT_CONTENT (content_data false "/one/")].

(** [content:one; content:!two;] *)
Definition sig_negated : Signature :=
  sig_of DETECT_SM_LIST_PMATCH
    [mkSigMatch 0 DETECT_CONTENT (content_data false "one");
     mkSigMatch 1 DETECT_CONTENT (content_data true "two")].

(** [content:one; content:two; http_cookie;]: the second keyword has
    been moved to the cookie list as an http_cookie keyword. *)
Definition sig_cookie : Signature :=
  mkSignature
    (<[DETECT_SM_LIST_HCDMATCH :=
         [mkSigMatch 1 DETECT_AL_HTTP_COOKIE (content_data false "two")]]>
       (<[DETECT_SM_LIST_PMATCH :=
            [mkSigMatch 0 DETECT_CONTENT (content_data false "one")]]>
          (fun _ => [])))
    2.

(** [content:one; content:!twooneone; distance:10;]: the second keyword
    is negated and has a relative modifier. *)
Definition sig_negated_distance : Signature :=
  sig_of DETECT_SM_LIST_PMATCH
    [mkSigMatch 0 DETECT_CONTENT (content_data false "one");
     mkSigMatch 1 DETECT_CONTENT
       (or_flags (content_data true "twooneone") DETECT_CONTENT_DISTANCE)].

(** [content:one; content:!twooneone;] *)
Definition sig_negated_long : Signature :=
  sig_of DETECT_SM_LIST_PMATCH
    [mkSigMatch 0 DETECT_CONTENT (content_data false "one");
     mkSigMatch 1 DETECT_CONTENT (content_data true "twooneone")].

(** The rule of DetectFastPatternTest02. *)
Definition rule_test02 : list Keyword :=
  [KContent false "/one/"; KFastPattern None; KContent false "boo"; KFastPattern None].

(** How many keywords of a list carry [FAST_PATTERN]. *)
Definition fast_pattern_count (s : Signature) (l : SMList) : nat :=
  List.length
    (filter (fun sm => flag_set (flags (ctx sm)) DETECT_CONTENT_FAST_PATTERN = true)
       (sm_lists s l)).

(** The chop bound of the spec on one pattern. *)
Definition chop_bound (cd : DetectContentData) : Prop :=
  flag_set (flags cd) DETECT_CONTENT_FAST_PATTERN_CHOP = true ->
  fp_chop_offset cd + fp_chop_len cd <= Z.min 65535 (content_len cd).

(** [content:"/one/"; fast_pattern; content:boo;] *)
Definition sig_first_flagged : Signature :=
  sig_of DETECT_SM_LIST_PMATCH
    [mkSigMatch 0 DETECT_CONTENT
       (or_flags (content_data false "/one/") DETECT_CONTENT_FAST_PATTERN);
     mkSigMatch 1 DETECT_CONTENT (content_data false "boo")].

(** The signature of DetectFastPatternTest10, with sid 1, and the
    payloads of DetectFastPatternTest10 and DetectFastPatternTest12. *)
Definition sig_test10 : GroupSignature :=
  mkGroupSignature 1
    (sig_of DETECT_SM_LIST_PMATCH
       [mkSigMatch 0 DETECT_CONTENT (content_data false "string1");
        mkSigMatch 1 DETECT_CONTENT (content_data false "string2");
        mkSigMatch 2 DETECT_CONTENT (content_data false "strings3");
        mkSigMatch 3 DETECT_CONTENT
          (or_flags (content_data false "strings4_imp") DETECT_CONTENT_FAST_PATTERN);
        mkSigMatch 4 DETECT_CONTENT (content_data false "strings_string5")]).

Definition payload_test10 : list Byte.byte :=
  bytes "Dummy is our name.  Oh yes.  From right here right now, all the way to hangover.  right.  strings4_imp now here comes our dark knight strings5.  Yes here is our dark knight".

Definition payload_test12 : list Byte.byte :=
  bytes "Dummy is our name.  Oh yes.  From right here right now, all the way to hangover.  right.  strings5_imp now here comes our dark knight strings5.  Yes here is our dark knight".

(** The keywords of a list are numbered in declaration order. *)
Definition idx_sorted (l : list SigMatch) : Prop :=
  forall i j a b, (i < j)%nat -> l !! i = Some a -> l !! j = Some b -> idx a < idx b.

(** What a test reads: per keyword of the payload list the flags and the
    chop fields, or [None] when the signature list is NULL. *)
Definition payload_view (ks : list Keyword) : option (list (Z * Z * Z)) :=
  (fun s => map (fun sm => (flags (ctx sm), fp_chop_offset (ctx sm), fp_chop_len (ctx sm)))
              (sm_lists s DETECT_SM_LIST_PMATCH)) <$> SigInit ks.

(** The flags of a keyword stamped by [fast_pattern:only] and by
    [fast_pattern:offset,length]. *)
Definition FLAGS_FP_ONLY : Z :=
  Z.lor DETECT_CONTENT_FAST_PATTERN_ONLY DETECT_CONTENT_FAST_PATTERN.

Definition FLAGS_FP_CHOP : Z :=
  Z.lor DETECT_CONTENT_FAST_PATTERN_CHOP DETECT_CONTENT_FAST_PATTERN.

(** [content:one; content:two; distance:10;] *)
Definition sig_distance : Signature :=
  sig_of DETECT_SM_LIST_PMATCH
    [mkSigMatch 0 DETECT_CONTENT (content_data false "one");
     mkSigMatch 1 DETECT_CONTENT
       (or_flags (content_data false "two") DETECT_CONTENT_DISTANCE)].

(** The flags of the keywords of a list, in order. *)
Definition list_flags (s : Signature) (l : SMList) : list Z :=
  map (fun sm => flags (ctx sm)) (sm_lists s l).

(** * CPU affinity: util-affinity.c

    The first document of src/src/util-affinity.c: the table of thread
    families, the lookup of a family by name, the default cpu sets, the
    reading of a cpu list of the configuration and the choice of the next
    cpu of a family.  The mutex of a family is left out: the functions are
    modelled as one thread runs them. *)

(** ** cpu_set_t

    A [cpu_set_t] is a mask of [CPU_SETSIZE] bits, held in a [Z]. *)

Module CpuSet.

Definition CPU_SETSIZE : Z := 1024.

(** [CPU_ZERO(set)] *)
Definition CPU_ZERO : Z := 0.

(** Is [cpu] a bit of the mask?  The macros take the cpu as a [size_t],
    so a negative [int] is out of the mask as well. *)
Definition in_mask (cpu : Z) : bool := (0 <=? cpu) && (cpu <? CPU_SETSIZE).

(** [CPU_SET(cpu, set)]: nothing is done for a cpu out of the mask. *)
Definition CPU_SET (cpu : Z) (set : Z) : Z :=
  if in_mask cpu then Z.setbit set cpu else set.

(** [CPU_ISSET(cpu, set)]: 0 for a cpu out of the mask. *)
Definition CPU_ISSET (cpu : Z) (set : Z) : bool :=
  in_mask cpu && Z.testbit set cpu.

(** [for (j = from; ...; j++) CPU_SET(j, set);] run [count] times. *)
Fixpoint set_cpus (count : nat) (from : Z) (set : Z) : Z :=
  match count with
  | O => set
  | S count' => set_cpus count' (from + 1) (CPU_SET from set)
  end.

End CpuSet.

Import CpuSet.

(** ** strtoul and strtol with their end pointer

    As glibc has them for base 10: white space is skipped, an optional
    sign is read, then the decimal digits.  Without a digit the value is
    0 and the end pointer is the start of the string.  [strtoul] negates
    modulo 2^64 after a minus sign and saturates at [ULONG_MAX];
    [strtol] saturates at [LONG_MIN] and [LONG_MAX]. *)

Module Strto.

Definition ULONG_MAX : Z := 18446744073709551615.

(** Conversion to [long]: the value modulo 2^64, read as signed. *)
Definition to_long (z : Z) : Z :=
  (z + 9223372036854775808) mod 18446744073709551616 - 9223372036854775808.

(** The number of leading decimal digits. *)
Fixpoint digits_len (s : list ascii) : nat :=
  match s with
  | a :: s' => if is_digit a then S (digits_len s') else O
  | [] => O
  end.

(** The scan the two functions share: the offset of the end pointer from
    the start of the string, the sign and the magnitude read. *)
Definition scan (s : list ascii) : nat * bool * Z :=
  let body := skip_space s in
  let ws := (List.length s - List.length body)%nat in
  match body with
  | a :: s' =>
      let '(neg, sgn, ds) :=
        if Ascii.eqb a "-" then (true, 1%nat, s')
        else if Ascii.eqb a "+" then (false, 1%nat, s')
        else (false, 0%nat, body) in
      match digits_len ds with
      | O => (0%nat, false, 0)
      | n => ((ws + sgn + n)%nat, neg, digits 0 ds)
      end
  | [] => (0%nat, false, 0)
  end.

(** [strtoul(s, &end, 10)]: the value and [end - s]. *)
Definition strtoul (s : list ascii) : Z * nat :=
  let '(e, neg, m) := scan s in
  (if m >? ULONG_MAX then ULONG_MAX
   else if neg then (- m) mod 18446744073709551616 else m, e).

(** [strtol(s, &end, 10)]: the value and [end - s]. *)
Definition strtol (s : list ascii) : Z * nat :=
  let '(e, neg, m) := scan s in
  (clamp_long (if neg then - m else m), e).

(** [index(s, c)]: the offset of the first [c], [None] for NULL. *)
Fixpoint index (s : list ascii) (c : ascii) : option nat :=
  match s with
  | [] => None
  | a :: s' => if Ascii.eqb a c then Some O else S <$> index s' c
  end.

End Strto.

(** ** The thread families *)

(** Modelled from the spec: the enumerations of util-affinity.h, which is
    not part of the sources and which the spec leaves to a collaborator;
    the constants are the ones util-affinity.c names. *)
Inductive AffinityMode : Type := EXCLUSIVE_AFFINITY | BALANCED_AFFINITY.

(** Modelled from the spec: the priorities of util-affinity.h, which is
    not part of the sources; the constants are the ones util-affinity.c
    names. *)
Inductive AffinityPrio : Type := PRIO_LOW | PRIO_MEDIUM | PRIO_HIGH.

(** Modelled from the spec: the structure [ThreadsAffinityType] of
    util-affinity.h is not part of the sources; the fields are the ones
    the initialiser of [thread_affinity] and the functions of
    util-affinity.c name, but for the mutex.  [nb_threads] is taken to
    be an [int], as [atoi] returns it, and [lcpu] an integer type that
    holds the values from 0 to [CPU_SETSIZE], the only ones stored. *)
Record ThreadsAffinityType : Type := mkAffinity {
  name : string;
  mode_flag : AffinityMode;
  prio : AffinityPrio;
  nb_threads : Z;
  cpu_set : Z;
  lowprio_cpu : Z;
  medprio_cpu : Z;
  hiprio_cpu : Z;
  lcpu : Z
}.

(** A family as the initialiser of [thread_affinity] writes it: the
    fields it does not name are zero. *)
Definition affinity_init (nm : string) (mode : AffinityMode) : ThreadsAffinityType :=
  mkAffinity nm mode PRIO_MEDIUM 0 0 0 0 0 0.

(** [thread_affinity], as it is initialised. *)
Definition thread_affinity : list ThreadsAffinityType :=
  [ affinity_init "receive_cpu_set" EXCLUSIVE_AFFINITY;
    affinity_init "decode_cpu_set" BALANCED_AFFINITY;
    affinity_init "stream_cpu_set" BALANCED_AFFINITY;
    affinity_init "detect_cpu_set" EXCLUSIVE_AFFINITY;
    affinity_init "verdict_cpu_set" BALANCED_AFFINITY;
    affinity_init "reject_cpu_set" BALANCED_AFFINITY;
    affinity_init "output_cpu_set" BALANCED_AFFINITY;
    affinity_init "management_cpu_set" BALANCED_AFFINITY ].

(** Modelled from the spec: [MAX_CPU_SET] is defined in util-affinity.h,
    which is not part of the sources; it is the size of the array
    [thread_affinity], which has eight initialisers. *)
Definition MAX_CPU_SET : nat := 8.

(** The loop of [GetAffinityTypeFromName] from entry [i] on. *)
Fixpoint GetAffinityTypeFromName_from (i : nat) (tbl : list ThreadsAffinityType)
    (nm : string) : option (nat * ThreadsAffinityType) :=
  match tbl with
  | [] => None
  | taf :: rest =>
      if String.eqb (name taf) nm then Some (i, taf)
      else GetAffinityTypeFromName_from (S i) rest nm
  end.

(** [GetAffinityTypeFromName(name)] on the array [tbl]: the index of the
    entry the pointer returned points to, with the entry; [None] for
    NULL. *)
Definition GetAffinityTypeFromName (tbl : list ThreadsAffinityType) (nm : string)
  : option (nat * ThreadsAffinityType) :=
  GetAffinityTypeFromName_from 0 (take MAX_CPU_SET tbl) nm.

Definition set_mode_flag (taf : ThreadsAffinityType) (m : AffinityMode)
  : ThreadsAffinityType :=
  mkAffinity (name taf) m (prio taf) (nb_threads taf) (cpu_set taf)
    (lowprio_cpu taf) (medprio_cpu taf) (hiprio_cpu taf) (lcpu taf).

Definition set_prio (taf : ThreadsAffinityType) (p : AffinityPrio)
  : ThreadsAffinityType :=
  mkAffinity (name taf) (mode_flag taf) p (nb_threads taf) (cpu_set taf)
    (lowprio_cpu taf) (medprio_cpu taf) (hiprio_cpu taf) (lcpu taf).

Definition set_nb_threads (taf : ThreadsAffinityType) (n : Z) : ThreadsAffinityType :=
  mkAffinity (name taf) (mode_flag taf) (prio taf) n (cpu_set taf)
    (lowprio_cpu taf) (medprio_cpu taf) (hiprio_cpu taf) (lcpu taf).

Definition set_cpu_set (taf : ThreadsAffinityType) (cs : Z) : ThreadsAffinityType :=
  mkAffinity (name taf) (mode_flag taf) (prio taf) (nb_threads taf) cs
    (lowprio_cpu taf) (medprio_cpu taf) (hiprio_cpu taf) (lcpu taf).

Definition set_prio_cpus (taf : ThreadsAffinityType) (low medium high : Z)
  : ThreadsAffinityType :=
  mkAffinity (name taf) (mode_flag taf) (prio taf) (nb_threads taf) (cpu_set taf)
    low medium high (lcpu taf).

Definition set_lcpu (taf : ThreadsAffinityType) (l : Z) : ThreadsAffinityType :=
  mkAffinity (name taf) (mode_flag taf) (prio taf) (nb_threads taf) (cpu_set taf)
    (lowprio_cpu taf) (medprio_cpu taf) (hiprio_cpu taf) l.

(** [AffinitySetupInit()] on the array; [ncpu] is what
    [UtilCpuGetNumProcessorsConfigured()] returns. *)
Definition AffinitySetupInit (ncpu : Z) (tbl : list ThreadsAffinityType)
  : list ThreadsAffinityType :=
  map (fun taf => set_cpu_set taf (set_cpus (Z.to_nat ncpu) 0 CPU_ZERO))
    (take MAX_CPU_SET tbl)
  ++ drop MAX_CPU_SET tbl.

(** The [while] loop of [AffinityGetNextCPU], which has no bound of its
    own: [fuel] bounds the tests of the condition, [None] is a loop that
    has not ended within them.  [online] is what
    [UtilCpuGetNumProcessorsOnline()] returns. *)
Fixpoint next_cpu_loop (fuel : nat) (online : Z) (set : Z) (ncpu : Z) : option Z :=
  match fuel with
  | O => None
  | S fuel' =>
      if CPU_ISSET ncpu set then Some ncpu
      else
        let ncpu := CInt.int_add ncpu 1 in
        let ncpu := if ncpu >=? online then 0 else ncpu in
        next_cpu_loop fuel' online set ncpu
  end.

(** [AffinityGetNextCPU(taf)]: the cpu returned and the family as the
    call leaves it. *)
Definition AffinityGetNextCPU (fuel : nat) (online : Z) (taf : ThreadsAffinityType)
  : option (Z * ThreadsAffinityType) :=
  match next_cpu_loop fuel online (cpu_set taf) (lcpu taf) with
  | None => None
  | Some ncpu =>
      let l := CInt.int_add ncpu 1 in
      let l := if l >=? online then 0 else l in
      Some (ncpu, set_lcpu taf l)
  end.

(** [n] calls of [AffinityGetNextCPU] in a row on one family: the cpus
    returned, in order. *)
Fixpoint next_cpus (n : nat) (fuel : nat) (online : Z) (taf : ThreadsAffinityType)
  : option (list Z) :=
  match n with
  | O => Some []
  | S n' =>
      match AffinityGetNextCPU fuel online taf with
      | None => None
      | Some (c, taf') => (fun cs => c :: cs) <$> next_cpus n' fuel online taf'
      end
  end.

(** The cpus the loop of [AffinityGetNextCPU] tests and passes on its
    way from cpu [from] to cpu [to], turning round at [online]. *)
Definition cpus_passed (online from to k : Z) : Prop :=
  if from <=? to then from <= k < to
  else from <= k < online \/ 0 <= k < to.

(** ** build_cpuset *)

(** How a call ends: by [exit(EXIT_FAILURE)], with a loop that has not
    ended within the fuel, or by returning. *)
Inductive outcome (A : Type) : Type :=
| Exit
| Unfinished
| Done (a : A).

Arguments Exit {A}.
Arguments Unfinished {A}.
Arguments Done {A} a.

#[global] Instance outcome_ret : MRet outcome := fun A a => Done a.

#[global] Instance outcome_bind : MBind outcome := fun A B f m =>
  match m with
  | Exit => Exit
  | Unfinished => Unfinished
  | Done a => f a
  end.

(** [for (i = a; i <= b; i++) CPU_SET(i, cpu);] from the test of the
    condition on, with [i] an [int] that wraps around and [b] a [long];
    [fuel] bounds the tests. *)
Fixpoint set_cpu_range (fuel : nat) (i b : Z) (cpu : Z) : option Z :=
  match fuel with
  | O => None
  | S fuel' =>
      if i <=? b then set_cpu_range fuel' (CInt.int_add i 1) b (CPU_SET i cpu)
      else Some cpu
  end.

(** The end of the body of the loop of [build_cpuset]: the [for] loop
    from [i = a], the cpu set and [stop]. *)
Definition build_cpuset_fill (fuel : nat) (a b : Z) (stop : bool) (cpu : Z)
  : outcome (Z * bool) :=
  match set_cpu_range fuel (CInt.to_int a) b cpu with
  | None => Unfinished
  | Some cpu' => Done (cpu', stop)
  end.

(** The body of the loop of [build_cpuset] for one node, [val] being
    [lnode->val]. *)
Definition build_cpuset_node (fuel : nat) (online : Z) (val : list ascii) (cpu : Z)
  : outcome (Z * bool) :=
  if bool_decide (val = list_ascii_of_string "all") then
    build_cpuset_fill fuel 0 (online - 1) true cpu
  else
    match Strto.index val "-" with
    | Some sep =>
        let '(a, e) := Strto.strtoul val in
        let a := Strto.to_long a in
        if negb (e =? sep)%nat then Exit else
        let '(b, e) := Strto.strtol (drop (S sep) val) in
        if negb (e =? List.length (drop (S sep) val))%nat then Exit else
        if a >? b then Exit else
        build_cpuset_fill fuel a b false cpu
    | None =>
        let '(a, e) := Strto.strtoul val in
        let a := Strto.to_long a in
        if negb (e =? List.length val)%nat then Exit else
        build_cpuset_fill fuel a a false cpu
    end.

(** [build_cpuset(node, cpu)]: [vals] are the values of the children of
    [node], in order. *)
Fixpoint build_cpuset (fuel : nat) (online : Z) (vals : list string) (cpu : Z)
  : outcome Z :=
  match vals with
  | [] => Done cpu
  | val :: rest =>
      '(cpu', stop) ← build_cpuset_node fuel online (list_ascii_of_string val) cpu;
      if stop : bool then Done cpu' else build_cpuset fuel online rest cpu'
  end.

(** ** AffinitySetupLoadFromConfig *)

(** Modelled from the spec: the configuration tree and its lookups
    ([ConfGetNode], [ConfNodeLookupChild]) are in conf.c, which is not
    part of the sources, so the function is given what the lookups
    return: for a node whose children are a cpu list the values of the
    children, for another node its value, [None] for NULL. *)
Record PrioConf : Type := mkPrioConf {
  prio_low : option (list string);
  prio_medium : option (list string);
  prio_high : option (list string);
  prio_default : option string
}.

(** Modelled from the spec: one child of the node
    [threading.cpu_affinity], with its value and what
    [ConfNodeLookupChild] returns for the keys cpu, prio, mode and
    threads. *)
Record AffinityConf : Type := mkAffinityConf {
  conf_val : string;
  conf_cpu : option (list string);
  conf_prio : option PrioConf;
  conf_mode : option string;
  conf_threads : option string
}.

(** [if (node != NULL) build_cpuset(node, cpu)] on a set just zeroed. *)
Definition build_cpuset_opt (fuel : nat) (online : Z) (node : option (list string))
  : outcome Z :=
  match node with
  | None => Done CPU_ZERO
  | Some vals => build_cpuset fuel online vals CPU_ZERO
  end.

(** The part of the body on the key prio. *)
Definition setup_prio (fuel : nat) (online : Z) (nprio : option PrioConf)
    (taf : ThreadsAffinityType) : outcome ThreadsAffinityType :=
  match nprio with
  | None => Done (set_prio_cpus taf CPU_ZERO CPU_ZERO CPU_ZERO)
  | Some p =>
      low ← build_cpuset_opt fuel online (prio_low p);
      medium ← build_cpuset_opt fuel online (prio_medium p);
      high ← build_cpuset_opt fuel online (prio_high p);
      let taf := set_prio_cpus taf low medium high in
      match prio_default p with
      | None => Done taf
      | Some v =>
          if String.eqb v "low" then Done (set_prio taf PRIO_LOW)
          else if String.eqb v "medium" then Done (set_prio taf PRIO_MEDIUM)
          else if String.eqb v "high" then Done (set_prio taf PRIO_HIGH)
          else Exit
      end
  end.

(** The part of the body on the key mode. *)
Definition setup_mode (node : option string) (taf : ThreadsAffinityType)
  : outcome ThreadsAffinityType :=
  match node with
  | None => Done taf
  | Some v =>
      if String.eqb v "exclusive" then Done (set_mode_flag taf EXCLUSIVE_AFFINITY)
      else if String.eqb v "balanced" then Done (set_mode_flag taf BALANCED_AFFINITY)
      else Exit
  end.

(** The part of the body on the key threads. *)
Definition setup_threads (node : option string) (taf : ThreadsAffinityType)
  : outcome ThreadsAffinityType :=
  match node with
  | None => Done taf
  | Some v =>
      let taf := set_nb_threads taf (atoi (list_ascii_of_string v)) in
      if nb_threads taf =? 0 then Exit else Done taf
  end.

(** The body of the loop of [AffinitySetupLoadFromConfig] for one child
    of the root. *)
Definition setup_family (fuel : nat) (online : Z) (affinity : AffinityConf)
    (tbl : list ThreadsAffinityType) : outcome (list ThreadsAffinityType) :=
  match GetAffinityTypeFromName tbl (conf_val affinity) with
  | None => Exit
  | Some (i, taf) =>
      cpu ← build_cpuset_opt fuel online (conf_cpu affinity);
      taf ← setup_prio fuel online (conf_prio affinity) (set_cpu_set taf cpu);
      taf ← setup_mode (conf_mode affinity) taf;
      taf ← setup_threads (conf_threads affinity) taf;
      Done (<[i := taf]> tbl)
  end.

Fixpoint setup_families (fuel : nat) (online : Z) (children : list AffinityConf)
    (tbl : list ThreadsAffinityType) : outcome (list ThreadsAffinityType) :=
  match children with
  | [] => Done tbl
  | affinity :: rest =>
      tbl' ← setup_family fuel online affinity tbl;
      setup_families fuel online rest tbl'
  end.

(** [AffinitySetupLoadFromConfig()] on the array: [root] is what
    [ConfGetNode] returns, the children of the node or [None] for NULL;
    [ncpu] and [online] are the numbers of processors configured and
    online. *)
Definition AffinitySetupLoadFromConfig (fuel : nat) (ncpu online : Z)
    (root : option (list AffinityConf)) (tbl : list ThreadsAffinityType)
  : outcome (list ThreadsAffinityType) :=
  let tbl := AffinitySetupInit ncpu tbl in
  match root with
  | None => Done tbl
  | Some children => setup_families fuel online children tbl
  end.

(** * Properties *)

(** ** C integers *)

Lemma to_int_small z : CInt.INT_MIN <= z <= CInt.INT_MAX -> CInt.to_int z = z.
Proof.
  unfold CInt.to_int, CInt.INT_MIN, CInt.INT_MAX. intros H.
  rewrite Z.mod_small; lia.
Qed.

Lemma to_uint16_small z : 0 <= z <= 65535 -> CInt.to_uint16 z = z.
Proof. unfold CInt.to_uint16. intros H. rewrite Z.mod_small; lia. Qed.

(** ** The registration lists *)

Section Registration.

Lemma smlist_registered_spec (l : list SMList) (list_id : SMList) :
  smlist_registered l list_id = true <-> list_id ∈ l.
Proof.
  induction l as [|id l IH]; simpl.
  - split; [discriminate | intros H; inversion H].
  - destruct (decide (id = list_id)) as [->|Hne].
    + split; [intros _; left | reflexivity].
    + rewrite IH. split; [intros H; by right | intros H].
      inversion H; subst; [congruence | assumption].
Qed.

Lemma smtype_registered_spec (l : list SigMatchType) (sm_type : SigMatchType) :
  smtype_registered l sm_type = true <-> sm_type ∈ l.
Proof.
  induction l as [|t l IH]; simpl.
  - split; [discriminate | intros H; inversion H].
  - destruct (decide (t = sm_type)) as [->|Hne].
    + split; [intros _; left | reflexivity].
    + rewrite IH. split; [intros H; by right | intros H].
      inversion H; subst; [congruence | assumption].
Qed.

Lemma SupportFastPatternForSigMatchList_nodup list_id g :
  fp_support_nodup g -> fp_support_nodup (SupportFastPatternForSigMatchList list_id g).
Proof.
  intros [Ht Hl]. unfold SupportFastPatternForSigMatchList.
  destruct (smlist_registered _ _) eqn:E; [by split|].
  split; simpl; [assumption|].
  constructor; [|assumption].
  intros Hin. apply smlist_registered_spec in Hin. congruence.
Qed.

Lemma SupportFastPatternForSigMatchType_nodup sm_type g :
  fp_support_nodup g -> fp_support_nodup (SupportFastPatternForSigMatchType sm_type g).
Proof.
  intros [Ht Hl]. unfold SupportFastPatternForSigMatchType.
  destruct (smtype_registered _ _) eqn:E; [by split|].
  split; simpl; [|assumption].
  constructor; [|assumption].
  intros Hin. apply smtype_registered_spec in Hin. congruence.
Qed.

Lemma SupportFastPatternForSigMatchTypes_nodup g :
  fp_support_nodup g -> fp_support_nodup (SupportFastPatternForSigMatchTypes g).
Proof.
  intros H. unfold SupportFastPatternForSigMatchTypes.
  repeat first [ apply SupportFastPatternForSigMatchList_nodup
               | apply SupportFastPatternForSigMatchType_nodup ].
  exact H.
Qed.

Lemma support_call_nodup c g : fp_support_nodup g -> fp_support_nodup (support_call c g).
Proof.
  destruct c; simpl.
  - apply SupportFastPatternForSigMatchList_nodup.
  - apply SupportFastPatternForSigMatchType_nodup.
  - apply SupportFastPatternForSigMatchTypes_nodup.
Qed.

Lemma support_calls_nodup cs g : fp_support_nodup g -> fp_support_nodup (support_calls cs g).
Proof.
  revert g. induction cs as [|c cs IH]; intros g H; simpl; [exact H|].
  apply IH, support_call_nodup, H.
Qed.

Lemma SupportFastPatternForSigMatchList_present list_id g :
  list_id ∈ sm_fp_support_smlist_list g ->
  SupportFastPatternForSigMatchList list_id g = g.
Proof.
  intros H. unfold SupportFastPatternForSigMatchList.
  apply smlist_registered_spec in H. by rewrite H.
Qed.

Lemma SupportFastPatternForSigMatchType_present sm_type g :
  sm_type ∈ sm_fp_support_smtype_list g ->
  SupportFastPatternForSigMatchType sm_type g = g.
Proof.
  intros H. unfold SupportFastPatternForSigMatchType.
  apply smtype_registered_spec in H. by rewrite H.
Qed.

(** What a registration adds stays, whatever is registered afterwards. *)
Lemma SupportFastPatternForSigMatchList_keeps list_id g :
  (forall x, x ∈ sm_fp_support_smlist_list g ->
             x ∈ sm_fp_support_smlist_list (SupportFastPatternForSigMatchList list_id g)) /\
  (forall x, x ∈ sm_fp_support_smtype_list g ->
             x ∈ sm_fp_support_smtype_list (SupportFastPatternForSigMatchList list_id g)) /\
  list_id ∈ sm_fp_support_smlist_list (SupportFastPatternForSigMatchList list_id g).
Proof.
  unfold SupportFastPatternForSigMatchList.
  destruct (smlist_registered _ _) eqn:E; simpl.
  - repeat split; auto. by apply smlist_registered_spec.
  - repeat split; auto; [intros x Hx; by right | by left].
Qed.

Lemma SupportFastPatternForSigMatchType_keeps sm_type g :
  (forall x, x ∈ sm_fp_support_smlist_list g ->
             x ∈ sm_fp_support_smlist_list (SupportFastPatternForSigMatchType sm_type g)) /\
  (forall x, x ∈ sm_fp_support_smtype_list g ->
             x ∈ sm_fp_support_smtype_list (SupportFastPatternForSigMatchType sm_type g)) /\
  sm_type ∈ sm_fp_support_smtype_list (SupportFastPatternForSigMatchType sm_type g).
Proof.
  unfold SupportFastPatternForSigMatchType.
  destruct (smtype_registered _ _) eqn:E; simpl.
  - repeat split; auto. by apply smtype_registered_spec.
  - repeat split; auto; [intros x Hx; by right | by left].
Qed.

End Registration.

Ltac registered :=
  repeat first
    [ apply (proj2 (proj2 (SupportFastPatternForSigMatchList_keeps _ _)))
    | apply (proj2 (proj2 (SupportFastPatternForSigMatchType_keeps _ _)))
    | apply (proj1 (SupportFastPatternForSigMatchList_keeps _ _))
    | apply (proj1 (proj2 (SupportFastPatternForSigMatchList_keeps _ _)))
    | apply (proj1 (SupportFastPatternForSigMatchType_keeps _ _))
    | apply (proj1 (proj2 (SupportFastPatternForSigMatchType_keeps _ _))) ].

Lemma SupportFastPatternForSigMatchTypes_again g :
  SupportFastPatternForSigMatchTypes (SupportFastPatternForSigMatchTypes g) =
  SupportFastPatternForSigMatchTypes g.
Proof.
  unfold SupportFastPatternForSigMatchTypes at 1.
  cbv zeta.
  repeat first
    [ rewrite SupportFastPatternForSigMatchType_present
        by (unfold SupportFastPatternForSigMatchTypes; cbv zeta; registered)
    | rewrite SupportFastPatternForSigMatchList_present
        by (unfold SupportFastPatternForSigMatchTypes; cbv zeta; registered) ].
  reflexivity.
Qed.

(** ** The keyword lookup *)

Section Lookup.

Lemma SigMatchGetLastSM_from_None i l t :
  SigMatchGetLastSM_from i l t = None <-> Forall (fun sm => type sm <> t) l.
Proof.
  revert i. induction l as [|sm l IH]; intros i; simpl.
  - split; [constructor | reflexivity].
  - destruct (SigMatchGetLastSM_from (S i) l t) as [r|] eqn:E.
    + split; [discriminate|]. intros H. inversion H; subst.
      apply (IH (S i)) in H3. congruence.
    + destruct (decide (type sm = t)) as [Heq|Hne].
      * split; [discriminate|]. intros H. inversion H; subst. congruence.
      * split; [|reflexivity]. intros _. constructor; [assumption|].
        by apply (IH (S i)).
Qed.

Lemma SigMatchGetLastSM_from_Some i l t j sm :
  SigMatchGetLastSM_from i l t = Some (j, sm) ->
  (i <= j)%nat /\ l !! (j - i)%nat = Some sm /\ type sm = t /\
  Forall (fun sm' => type sm' <> t) (drop (S (j - i)) l).
Proof.
  revert i. induction l as [|x l IH]; intros i; simpl; [discriminate|].
  destruct (SigMatchGetLastSM_from (S i) l t) as [r|] eqn:E.
  - intros [= ->]. destruct (IH _ E) as (Hle & Hl & Ht & Hall).
    replace (j - i)%nat with (S (j - S i)) by lia.
    repeat split; [lia | exact Hl | exact Ht | exact Hall].
  - destruct (decide (type x = t)) as [Heq|Hne]; [|discriminate].
    intros [= <- <-]. rewrite Nat.sub_diag. simpl.
    repeat split; [lia | exact Heq |].
    rewrite drop_0. by apply (SigMatchGetLastSM_from_None (S i)).
Qed.

Lemma SigMatchGetLastSM_Some l t j sm :
  SigMatchGetLastSM l t = Some (j, sm) ->
  l !! j = Some sm /\ type sm = t /\
  Forall (fun sm' => type sm' <> t) (drop (S j) l).
Proof.
  intros H. apply SigMatchGetLastSM_from_Some in H.
  rewrite Nat.sub_0_r in H. tauto.
Qed.

(** What the loop over the pairs returns is the candidate it started
    from or the keyword found in one of the lists. *)
Lemma last_sm_of_pairs_Some s pairs acc r sm :
  last_sm_of_pairs s pairs acc = Some (r, sm) ->
  acc = Some (r, sm) \/
  exists t, (t, r.1) ∈ pairs /\ SigMatchGetLastSM (sm_lists s r.1) t = Some (r.2, sm).
Proof.
  revert acc. induction pairs as [|[t l] pairs IH]; intros acc; simpl.
  - intros ->. by left.
  - intros H. apply IH in H as [H|(t' & Hin & H)].
    + unfold sm_newer in H.
      destruct (SigMatchGetLastSM (sm_lists s l) t) as [[i new]|] eqn:E; [|by left].
      destruct acc as [[r0 old]|].
      * destruct (idx new >? idx old); [|by left].
        injection H as <- <-. right. exists t. split; [left | exact E].
      * injection H as <- <-. right. exists t. split; [left | exact E].
    + right. exists t'. split; [by right | exact H].
Qed.

Lemma last_sm_of_pairs_None s pairs :
  Forall (fun p => Forall (fun sm => type sm <> p.1) (sm_lists s p.2)) pairs ->
  last_sm_of_pairs s pairs None = None.
Proof.
  induction 1 as [|[t l] pairs Hp _ IH]; simpl; [reflexivity|].
  simpl in Hp. apply (SigMatchGetLastSM_from_None 0) in Hp.
  unfold SigMatchGetLastSM. rewrite Hp. exact IH.
Qed.

Lemma fast_pattern_target_Some s pm sm :
  fast_pattern_target s = Some (pm, sm) ->
  (type sm, pm.1) ∈ fp_searched_pairs /\
  deref s pm = Some sm /\
  Forall (fun sm' => type sm' <> type sm) (drop (S pm.2) (sm_lists s pm.1)).
Proof.
  unfold fast_pattern_target, SigMatchGetLastSMFromLists. intros H.
  apply last_sm_of_pairs_Some in H as [H|(t & Hin & H)]; [discriminate|].
  apply SigMatchGetLastSM_Some in H as (Hl & <- & Hall).
  split; [exact Hin | split; [exact Hl | exact Hall]].
Qed.

Lemma no_fp_list_tail_true s l :
  no_fp_list_tail s = true ->
  l ∈ map snd fp_lookup_pairs -> sm_lists s l = [].
Proof.
  unfold no_fp_list_tail. rewrite forallb_forall. intros H Hin.
  specialize (H l). rewrite bool_decide_eq_true in H.
  apply last_None, H. apply list_elem_of_In. exact Hin.
Qed.

Lemma fast_pattern_target_tail s pm sm :
  fast_pattern_target s = Some (pm, sm) -> no_fp_list_tail s = false.
Proof.
  intros H. apply fast_pattern_target_Some in H as (Hin & Hl & _).
  destruct (no_fp_list_tail s) eqn:E; [|reflexivity].
  assert (Hl' : pm.1 ∈ map snd fp_lookup_pairs).
  { apply list_elem_of_fmap. exists (type sm, pm.1). split; [reflexivity|].
    unfold fp_searched_pairs in Hin. unfold fp_lookup_pairs.
    repeat (apply elem_of_cons in Hin as [->|Hin]; [by repeat constructor|]).
    inversion Hin. }
  unfold deref in Hl. rewrite (no_fp_list_tail_true s _ E Hl') in Hl.
  discriminate.
Qed.

(** With a keyword to apply to, the function is the stamping of it. *)
Lemma DetectFastPatternSetup_target s pm sm arg :
  fast_pattern_target s = Some (pm, sm) ->
  DetectFastPatternSetup s arg = fast_pattern_stamp s pm (ctx sm) arg.
Proof.
  intros H. unfold DetectFastPatternSetup.
  by rewrite (fast_pattern_target_tail _ _ _ H), H.
Qed.

Lemma fast_pattern_chop_error s pm cd arg ov r s' :
  fast_pattern_chop s pm cd arg ov = (r, s') -> r = 0 \/ (r = -1 /\ s' = s).
Proof.
  unfold fast_pattern_chop.
  repeat match goal with
         | |- context [let '(_, _) := ?p in _] => destruct p
         | |- context [if ?b then _ else _] => destruct b
         end; intros [= <- <-]; auto.
Qed.

(** The function returns 0 or -1, and -1 leaves the signature as it was. *)
Lemma fast_pattern_stamp_error s pm cd arg r s' :
  fast_pattern_stamp s pm cd arg = (r, s') -> r = 0 \/ (r = -1 /\ s' = s).
Proof.
  unfold fast_pattern_stamp.
  destruct (is_negated cd && has_relative_modifier cd); [intros [= <- <-]; auto|].
  destruct arg as [[|a arg]|]; try (intros [= <- <-]; auto).
  destruct (pcre_exec _ _ _) as [ret ov].
  destruct (ret =? 2).
  - destruct (is_negated cd || has_relative_modifier cd); intros [= <- <-]; auto.
  - destruct (ret =? 4); [apply fast_pattern_chop_error | intros [= <- <-]; auto].
Qed.

Lemma DetectFastPatternSetup_error s arg r s' :
  DetectFastPatternSetup s arg = (r, s') -> r = 0 \/ (r = -1 /\ s' = s).
Proof.
  unfold DetectFastPatternSetup.
  destruct (no_fp_list_tail s); [intros [= <- <-]; auto|].
  destruct (fast_pattern_target s) as [[pm sm]|]; [|intros [= <- <-]; auto].
  apply fast_pattern_stamp_error.
Qed.

End Lookup.

(** ** The keyword found is the one declared last *)

Section Newest.

Context (s : Signature).
Hypothesis Hsorted : forall l, idx_sorted (sm_lists s l).

Lemma SigMatchGetLastSM_newest l t j sm sm' :
  SigMatchGetLastSM (sm_lists s l) t = Some (j, sm) ->
  sm' ∈ sm_lists s l -> type sm' = t -> idx sm' <= idx sm.
Proof.
  intros H Hin Ht. apply SigMatchGetLastSM_Some in H as (Hl & _ & Hafter).
  apply list_elem_of_lookup in Hin as [i Hi].
  destruct (decide (i < j)%nat) as [Hlt|Hge].
  - pose proof (Hsorted l i j sm' sm Hlt Hi Hl). lia.
  - destruct (decide (i = j)) as [->|Hne].
    + rewrite Hl in Hi. injection Hi as ->. lia.
    + exfalso. rewrite Forall_forall in Hafter. apply (Hafter sm'); [|exact Ht].
      apply list_elem_of_lookup. exists (i - S j)%nat.
      rewrite lookup_drop. replace (S j + (i - S j))%nat with i by lia. exact Hi.
Qed.

Lemma sm_newer_bounds acc l t r sm :
  sm_newer acc l (SigMatchGetLastSM (sm_lists s l) t) = Some (r, sm) ->
  (forall r0 sm0, acc = Some (r0, sm0) -> idx sm0 <= idx sm) /\
  (forall sm', sm' ∈ sm_lists s l -> type sm' = t -> idx sm' <= idx sm).
Proof.
  unfold sm_newer.
  destruct (SigMatchGetLastSM (sm_lists s l) t) as [[j new]|] eqn:E.
  - assert (Hnew : forall sm', sm' ∈ sm_lists s l -> type sm' = t -> idx sm' <= idx new)
      by (intros sm'; by apply (SigMatchGetLastSM_newest l t j)).
    destruct acc as [[r0 old]|].
    + destruct (Z.gtb_spec (idx new) (idx old)) as [Hgt|Hle]; intros [= <- <-].
      * split; [intros ? ? [= <- <-]; lia | exact Hnew].
      * split; [intros ? ? [= <- <-]; lia|].
        intros sm' Hin Ht. specialize (Hnew sm' Hin Ht). lia.
    + intros [= <- <-]. split; [discriminate | exact Hnew].
  - intros ->. split; [intros ? ? [= <- <-]; lia|].
    intros sm' Hin Ht. exfalso.
    apply (SigMatchGetLastSM_from_None 0) in E. rewrite Forall_forall in E.
    apply (E sm'); [exact Hin | exact Ht].
Qed.

Lemma last_sm_of_pairs_newest pairs acc r sm :
  last_sm_of_pairs s pairs acc = Some (r, sm) ->
  (forall r0 sm0, acc = Some (r0, sm0) -> idx sm0 <= idx sm) /\
  (forall t l sm', (t, l) ∈ pairs -> sm' ∈ sm_lists s l -> type sm' = t ->
                   idx sm' <= idx sm).
Proof.
  revert acc. induction pairs as [|[t l] pairs IH]; intros acc; simpl.
  - intros ->. split; [intros ? ? [= <- <-]; lia | intros ? ? ? H; inversion H].
  - intros H. destruct (IH _ H) as [Hacc Hrest].
    destruct (sm_newer acc l (SigMatchGetLastSM (sm_lists s l) t))
      as [[r1 sm1]|] eqn:E.
    + apply sm_newer_bounds in E as [E1 E2]. specialize (Hacc r1 sm1 eq_refl).
      split.
      * intros r0 sm0 H0. specialize (E1 r0 sm0 H0). lia.
      * intros t' l' sm' Hin Hsm Ht. apply elem_of_cons in Hin as [[= -> ->]|Hin].
        -- specialize (E2 sm' Hsm Ht). lia.
        -- by apply (Hrest t' l').
    + unfold sm_newer in E.
      destruct (SigMatchGetLastSM (sm_lists s l) t) as [[j new]|] eqn:E'.
      { destruct acc as [[? old]|]; [destruct (idx new >? idx old)|]; discriminate. }
      subst acc. split; [discriminate|].
      intros t' l' sm' Hin Hsm Ht. apply elem_of_cons in Hin as [[= -> ->]|Hin].
      * exfalso. apply (SigMatchGetLastSM_from_None 0) in E'.
        rewrite Forall_forall in E'. apply (E' sm'); [exact Hsm | exact Ht].
      * by apply (Hrest t' l').
Qed.

(** The keyword the directive applies to is the most recently declared
    content bearing keyword of the lists the lookup reads. *)
Lemma fast_pattern_target_newest pm sm t l sm' :
  fast_pattern_target s = Some (pm, sm) ->
  (t, l) ∈ fp_searched_pairs -> sm' ∈ sm_lists s l -> type sm' = t ->
  idx sm' <= idx sm.
Proof.
  unfold fast_pattern_target, SigMatchGetLastSMFromLists. intros H.
  apply last_sm_of_pairs_newest in H as [_ H]. apply H.
Qed.

End Newest.

(** ** The argument: the regular expression and atoi *)

Section ArgumentParsing.

Lemma is_digit_cases a :
  is_digit a = true ->
  is_space a = false /\ isspace a = false /\
  Ascii.eqb a "o" = false /\ Ascii.eqb a "-" = false /\ Ascii.eqb a "+" = false /\
  0 <= digit_val a <= 9.
Proof.
  destruct a as [[] [] [] [] [] [] [] []]; vm_compute; intros H;
    first [discriminate H | repeat split; congruence].
Qed.

Lemma star_stop c pos a s caps k :
  in_class c a = false -> star c pos (a :: s) caps k = k pos (a :: s) caps.
Proof. intros H. simpl. by rewrite H. Qed.

(** Greedy repetition takes the whole run of digits when what follows
    matches from its end. *)
Lemma star_digits d rest pos caps k res :
  Forall (fun a => is_digit a = true) d ->
  k (pos + List.length d)%nat rest caps = Some res ->
  match rest with [] => True | a :: _ => is_digit a = false end ->
  star CDigit pos (d ++ rest) caps k = Some res.
Proof.
  intros Hd. revert pos. induction Hd as [|a d Ha Hd IH]; intros pos Hk Hrest; simpl.
  - rewrite Nat.add_0_r in Hk. destruct rest as [|b rest]; simpl; [exact Hk|].
    by rewrite Hrest.
  - rewrite Ha. rewrite (IH (S pos)); [reflexivity| |exact Hrest].
    simpl in Hk. by rewrite Nat.add_succ_r in Hk.
Qed.

Lemma star_digits_end d pos caps k res :
  Forall (fun a => is_digit a = true) d ->
  k (pos + List.length d)%nat [] caps = Some res ->
  star CDigit pos d caps k = Some res.
Proof.
  intros Hd Hk. rewrite <- (app_nil_r d) at 1.
  by apply star_digits.
Qed.

Lemma pcre_exec_chop d1 d2 :
  digit_string d1 -> digit_string d2 ->
  let arg := d1 ++ ","%char :: d2 in
  exists ov,
    pcre_exec parse_regex parse_regex_groups arg = (4, ov) /\
    pcre_get_substring arg ov MAX_SUBSTRINGS 2 = (Z.of_nat (List.length d1), d1) /\
    pcre_get_substring arg ov MAX_SUBSTRINGS 3 = (Z.of_nat (List.length d2), d2).
Proof.
  intros [Hne1 Hd1] [Hne2 Hd2] arg.
  destruct d1 as [|a d1]; [done|]. destruct d2 as [|b d2]; [done|].
  inversion Hd1 as [|? ? Ha Hd1']; subst. inversion Hd2 as [|? ? Hb Hd2']; subst.
  destruct (is_digit_cases a Ha) as (Hsa & _ & Hoa & _).
  destruct (is_digit_cases b Hb) as (Hsb & _ & _).
  assert (E : exists e2 b3 e3,
    exec_from parse_regex 3 0 arg =
      Some [Some (0, e3); None; Some (0, e2); Some (b3, e3)]%nat /\
    e2 = List.length (a :: d1) /\ b3 = S e2 /\ (e3 - b3)%nat = List.length (b :: d2)).
  { do 3 eexists. split.
    - unfold arg. rewrite <- app_comm_cons.
      unfold exec_from, parse_regex. cbn [match_re].
      rewrite star_stop by exact Hsa.
      cbn [in_class]. rewrite Hoa.
      rewrite star_stop by exact Hsa.
      rewrite Ha.
      erewrite star_digits; [reflexivity | exact Hd1' | | reflexivity].
      rewrite star_stop by reflexivity.
      cbn [in_class Ascii.eqb Bool.eqb].
      rewrite star_stop by exact Hsb.
      rewrite Hb.
      erewrite star_digits_end; [reflexivity | exact Hd2' |].
      cbn [star]. reflexivity.
    - simpl. repeat split; lia. }
  destruct E as (e2 & b3 & e3 & E & He2 & Hb3 & He3).
  eexists. unfold pcre_exec, parse_regex_groups. rewrite E. cbn [string_count].
  split; [reflexivity|]. unfold pcre_get_substring.
  change (Z.of_nat 2 <? MAX_SUBSTRINGS) with true.
  change (Z.of_nat 3 <? MAX_SUBSTRINGS) with true.
  cbn [lookup list_lookup]. cbv iota.
  rewrite Nat.sub_0_r, He3, Hb3, He2, drop_0. split; f_equal.
  - unfold arg. by rewrite take_app_length.
  - unfold arg. rewrite (cons_middle ","%char), app_assoc.
    rewrite drop_app_length'; [|rewrite length_app; simpl; lia].
    by rewrite firstn_all.
Qed.

Lemma digits_nonneg d acc :
  Forall (fun a => is_digit a = true) d -> 0 <= acc -> 0 <= digits acc d.
Proof.
  intros Hd. revert acc. induction Hd as [|a d Ha Hd IH]; intros acc Hacc; simpl.
  - exact Hacc.
  - rewrite Ha. apply IH. destruct (is_digit_cases a Ha) as (_ & _ & _ & _ & _ & Hv). lia.
Qed.

Lemma decimal_nonneg d : digit_string d -> 0 <= decimal d.
Proof. intros [_ Hd]. apply digits_nonneg; [exact Hd | lia]. Qed.

(** On a digit string within the range of [int], [atoi] is the number
    the string writes. *)
Lemma atoi_decimal d :
  digit_string d -> decimal d <= CInt.INT_MAX -> atoi d = decimal d.
Proof.
  intros Hd Hmax. pose proof (decimal_nonneg d Hd) as H0.
  destruct Hd as [Hne Hd]. destruct d as [|a d]; [done|].
  inversion Hd as [|? ? Ha Hd']; subst.
  destruct (is_digit_cases a Ha) as (_ & Hsp & _ & Hm & Hp & _).
  unfold atoi, strtol. simpl skip_space. rewrite Hsp, Hm, Hp.
  fold (decimal (a :: d)). unfold clamp_long, CInt.LONG_MAX, CInt.LONG_MIN.
  unfold CInt.INT_MAX in Hmax.
  destruct (decimal (a :: d) >? _) eqn:E1; [lia|].
  destruct (decimal (a :: d) <? _) eqn:E2; [lia|].
  apply to_int_small. unfold CInt.INT_MIN, CInt.INT_MAX. lia.
Qed.

End ArgumentParsing.

Section OnlyPrefix.

(** A repetition in front of a continuation that succeeds wherever it is
    entered succeeds, with one of the continuation's results. *)
Lemma star_total c pos s caps k (P : captures -> Prop) :
  (forall p s', exists r, k p s' caps = Some r /\ P r) ->
  exists r, star c pos s caps k = Some r /\ P r.
Proof.
  intros Hk. revert pos. induction s as [|a s IH]; intros pos; simpl; [apply Hk|].
  destruct (in_class c a); [|apply Hk].
  destruct (IH (S pos)) as (r & -> & Hr). by exists r.
Qed.

(** Whatever follows [only], the first branch matches. *)
Lemma pcre_exec_only_prefix rest :
  exists ov,
    pcre_exec parse_regex parse_regex_groups
      ("o" :: "n" :: "l" :: "y" :: rest)%char = (2, ov).
Proof.
  unfold pcre_exec, parse_regex_groups, exec_from, parse_regex.
  cbn [match_re]. rewrite star_stop by reflexivity.
  cbn [in_class Ascii.eqb Bool.eqb]. cbv iota.
  match goal with
  | |- context [star CSpace 4 rest ?caps ?k] =>
      destruct (star_total CSpace 4 rest caps k (fun r => string_count r = 2%nat))
        as (r & Hr & Hc)
  end.
  { intros p s'. eexists. split; reflexivity. }
  rewrite Hr, Hc. by eexists.
Qed.

End OnlyPrefix.

(** ** Writes through the keyword pointer *)

Section Store.

Lemma sm_lists_store_ctx s pm cd l :
  sm_lists (store_ctx s pm cd) l =
  if decide (pm.1 = l) then alter (fun sm => set_ctx sm cd) pm.2 (sm_lists s l)
  else sm_lists s l.
Proof.
  unfold store_ctx. simpl. destruct (decide (pm.1 = l)) as [<-|Hne].
  - by rewrite fn_lookup_insert.
  - by rewrite fn_lookup_insert_ne.
Qed.

Lemma deref_store_ctx_eq s pm sm cd :
  deref s pm = Some sm -> deref (store_ctx s pm cd) pm = Some (set_ctx sm cd).
Proof.
  unfold deref. intros H. rewrite sm_lists_store_ctx.
  rewrite decide_True by reflexivity.
  rewrite list_lookup_alter, decide_True by reflexivity. by rewrite H.
Qed.

Lemma deref_store_ctx_ne s pm r cd :
  r <> pm -> deref (store_ctx s pm cd) r = deref s r.
Proof.
  unfold deref. intros H. rewrite sm_lists_store_ctx.
  destruct (decide (pm.1 = r.1)) as [E|Hne]; [|reflexivity].
  apply list_lookup_alter_ne. intros E2. apply H.
  destruct r, pm; simpl in *; congruence.
Qed.

Lemma SigMatchGetLastSM_from_alter i l t j cd :
  SigMatchGetLastSM_from i (alter (fun sm => set_ctx sm cd) j l) t =
  (fun p : nat * SigMatch =>
     (p.1, if decide (p.1 = (i + j)%nat) then set_ctx p.2 cd else p.2))
    <$> SigMatchGetLastSM_from i l t.
Proof.
  revert i j. induction l as [|x l IH]; intros i j; [reflexivity|].
  destruct j as [|j]; simpl.
  - destruct (SigMatchGetLastSM_from (S i) l t) as [[k sm]|] eqn:E; simpl.
    + apply SigMatchGetLastSM_from_Some in E as (Hle & _).
      rewrite decide_False by lia. reflexivity.
    + destruct (decide (type x = t)); simpl; [|reflexivity].
      rewrite decide_True by lia. reflexivity.
  - change (list_alter ?f j l) with (alter f j l). rewrite IH.
    destruct (SigMatchGetLastSM_from (S i) l t) as [[k sm]|] eqn:E; simpl.
    + repeat case_decide; first [reflexivity | exfalso; lia].
    + destruct (decide (type x = t)); simpl; [|reflexivity].
      rewrite decide_False by lia. reflexivity.
Qed.

Lemma last_sm_of_pairs_store_ctx s pm cd pairs acc :
  last_sm_of_pairs (store_ctx s pm cd) pairs (written pm cd acc) =
  written pm cd (last_sm_of_pairs s pairs acc).
Proof.
  revert acc. induction pairs as [|[t l] pairs IH]; intros acc; [reflexivity|].
  cbn [last_sm_of_pairs]. rewrite <- IH. f_equal.
  rewrite sm_lists_store_ctx. unfold SigMatchGetLastSM.
  destruct pm as [l0 j]. cbn [fst snd].
  destruct (decide (l0 = l)) as [<-|Hne].
  - rewrite SigMatchGetLastSM_from_alter.
    destruct (SigMatchGetLastSM_from 0 (sm_lists s l0) t) as [[k new]|];
      [|reflexivity].
    unfold written, sm_newer. destruct acc as [[r old]|]; simpl;
      repeat case_decide; simpl; try destruct (idx new >? idx old); simpl;
      repeat case_decide; try reflexivity; exfalso; congruence.
  - destruct (SigMatchGetLastSM_from 0 (sm_lists s l) t) as [[k new]|];
      [|reflexivity].
    unfold written, sm_newer. destruct acc as [[r old]|]; simpl;
      repeat case_decide; simpl; try destruct (idx new >? idx old); simpl;
      repeat case_decide; try reflexivity; exfalso; congruence.
Qed.

Lemma fast_pattern_target_store_ctx s pm sm cd :
  fast_pattern_target s = Some (pm, sm) ->
  fast_pattern_target (store_ctx s pm cd) = Some (pm, set_ctx sm cd).
Proof.
  unfold fast_pattern_target, SigMatchGetLastSMFromLists. intros H.
  change None with (written pm cd None).
  rewrite last_sm_of_pairs_store_ctx, H. simpl.
  by rewrite decide_True.
Qed.

End Store.

(** ** The flags word *)

Section Flags.

Lemma land_pow2 f k :
  0 <= k -> Z.land f (2 ^ k) = if Z.testbit f k then 2 ^ k else 0.
Proof.
  intros Hk. apply Z.bits_inj'. intros n Hn.
  rewrite Z.land_spec, Z.pow2_bits_eqb by lia.
  destruct (Z.eqb_spec k n) as [->|Hne].
  - destruct (Z.testbit f n); simpl.
    + by rewrite Z.pow2_bits_true.
    + by rewrite Z.bits_0.
  - rewrite andb_false_r. destruct (Z.testbit f k).
    + by rewrite Z.pow2_bits_false.
    + by rewrite Z.bits_0.
Qed.

Lemma flag_set_testbit f k : 0 <= k -> flag_set f (2 ^ k) = Z.testbit f k.
Proof.
  intros Hk. unfold flag_set. rewrite land_pow2 by exact Hk.
  destruct (Z.testbit f k); [|reflexivity].
  pose proof (Z.pow_pos_nonneg 2 k). destruct (Z.eqb_spec (2 ^ k) 0); [lia|reflexivity].
Qed.

Lemma flag_set_lor f k j :
  0 <= k -> 0 <= j ->
  flag_set (Z.lor f (2 ^ k)) (2 ^ j) = flag_set f (2 ^ j) || (k =? j).
Proof.
  intros Hk Hj. rewrite !flag_set_testbit by exact Hj.
  by rewrite Z.lor_spec, Z.pow2_bits_eqb.
Qed.

End Flags.

(** Bring the masks to powers of two and settle the tests of a flag on
    a word that has been or-ed with masks. *)
Ltac flags_norm :=
  unfold is_negated, has_relative_modifier, or_flags, set_flags, set_chop,
    modifier_flag in *;
  cbn [flags content content_len fp_chop_offset fp_chop_len] in *;
  change DETECT_CONTENT_DISTANCE with (2 ^ 1) in *;
  change DETECT_CONTENT_WITHIN with (2 ^ 2) in *;
  change DETECT_CONTENT_OFFSET with (2 ^ 3) in *;
  change DETECT_CONTENT_DEPTH with (2 ^ 4) in *;
  change DETECT_CONTENT_FAST_PATTERN with (2 ^ 5) in *;
  change DETECT_CONTENT_FAST_PATTERN_ONLY with (2 ^ 6) in *;
  change DETECT_CONTENT_FAST_PATTERN_CHOP with (2 ^ 7) in *;
  change DETECT_CONTENT_NEGATED with (2 ^ 8) in *;
  rewrite ?flag_set_lor in * by lia;
  cbn [Z.eqb Pos.eqb orb] in *;
  rewrite ?orb_false_r, ?orb_true_r in *.

Section Stamp.

Context (s : Signature) (pm : SMRef) (cd : DetectContentData).

Lemma or_flags_set mask k : mask = 2 ^ k -> 0 <= k ->
  flag_set (flags (or_flags cd mask)) mask = true.
Proof.
  intros -> Hk. unfold or_flags, set_flags. cbn [flags].
  rewrite flag_set_lor by lia. rewrite Z.eqb_refl. apply orb_true_r.
Qed.

(** [fast_pattern;] *)
Lemma fast_pattern_stamp_bare arg :
  arg = None \/ arg = Some EmptyString ->
  fast_pattern_stamp s pm cd arg =
  if is_negated cd && has_relative_modifier cd then (-1, s)
  else (0, store_ctx s pm (or_flags cd DETECT_CONTENT_FAST_PATTERN)).
Proof. intros [-> | ->]; reflexivity. Qed.

(** [fast_pattern:only;] *)
Lemma fast_pattern_stamp_only :
  fast_pattern_stamp s pm cd (Some "only"%string) =
  if is_negated cd || has_relative_modifier cd then (-1, s)
  else (0, store_ctx s pm
             (or_flags (or_flags cd DETECT_CONTENT_FAST_PATTERN_ONLY)
                DETECT_CONTENT_FAST_PATTERN)).
Proof.
  unfold fast_pattern_stamp.
  destruct (is_negated cd), (has_relative_modifier cd); reflexivity.
Qed.

(** An argument that starts with [only] is taken as [only]. *)
Lemma fast_pattern_stamp_only_prefix (rest : string) :
  fast_pattern_stamp s pm cd (Some ("only" ++ rest)%string) =
  if is_negated cd || has_relative_modifier cd then (-1, s)
  else (0, store_ctx s pm
             (or_flags (or_flags cd DETECT_CONTENT_FAST_PATTERN_ONLY)
                DETECT_CONTENT_FAST_PATTERN)).
Proof.
  unfold fast_pattern_stamp.
  change ("only" ++ rest)%string
    with (String "o" (String "n" (String "l" (String "y" rest)))).
  cbv iota beta.
  change (list_ascii_of_string (String "o" (String "n" (String "l" (String "y" rest)))))
    with ("o" :: "n" :: "l" :: "y" :: list_ascii_of_string rest)%char.
  destruct (pcre_exec_only_prefix (list_ascii_of_string rest)) as [ov ->].
  destruct (is_negated cd), (has_relative_modifier cd); reflexivity.
Qed.

(** [fast_pattern:offset,length;] with numbers that stay within [int]. *)
Lemma fast_pattern_stamp_chop d1 d2 :
  digit_string d1 -> digit_string d2 ->
  decimal d1 + decimal d2 <= CInt.INT_MAX ->
  fast_pattern_stamp s pm cd (Some (chop_arg d1 d2)) =
  if is_negated cd && has_relative_modifier cd then (-1, s)
  else if (decimal d1 >? 65535) || (decimal d1 + decimal d2 >? 65535)
          || (decimal d1 + decimal d2 >? content_len cd) then (-1, s)
  else (0, store_ctx s pm
             (or_flags
                (or_flags (set_chop cd (decimal d1) (decimal d2))
                   DETECT_CONTENT_FAST_PATTERN_CHOP)
                DETECT_CONTENT_FAST_PATTERN)).
Proof.
  intros H1 H2 Hmax.
  pose proof (decimal_nonneg d1 H1) as Hn1. pose proof (decimal_nonneg d2 H2) as Hn2.
  destruct (pcre_exec_chop d1 d2 H1 H2) as (ov & Hexec & Hs2 & Hs3).
  unfold fast_pattern_stamp.
  destruct (is_negated cd && has_relative_modifier cd); [reflexivity|].
  unfold chop_arg.
  destruct (string_of_list_ascii (d1 ++ ","%char :: d2)) as [|c str] eqn:Estr.
  { destruct H1 as [Hne _]. destruct d1; [done | discriminate Estr]. }
  rewrite <- Estr, list_ascii_of_string_of_list_ascii, Hexec.
  change (4 =? 2) with false. change (4 =? 4) with true. cbv iota.
  unfold fast_pattern_chop. rewrite Hs2, Hs3.
  rewrite !atoi_decimal by (try assumption; lia).
  rewrite !(proj2 (Z.ltb_ge _ 0)) by lia.
  unfold CInt.int_add. unfold CInt.INT_MAX in Hmax.
  rewrite to_int_small by (unfold CInt.INT_MIN, CInt.INT_MAX; lia).
  destruct (Z.gtb_spec (decimal d1) 65535) as [Ho|Ho]; [reflexivity|]. simpl.
  destruct (Z.gtb_spec (decimal d1 + decimal d2) 65535) as [Hs|Hs]; [reflexivity|].
  simpl.
  destruct (decimal d1 + decimal d2 >? content_len cd); [reflexivity|].
  rewrite !to_uint16_small by lia. reflexivity.
Qed.

End Stamp.

(** ** What a successful call has done *)

Section Success.

Lemma flag_set_lor_mono f x mask :
  flag_set f mask = true -> flag_set (Z.lor f x) mask = true.
Proof.
  unfold flag_set. rewrite !negb_true_iff, !Z.eqb_neq.
  intros H E. apply H. rewrite Z.land_lor_distr_l in E.
  by apply Z.lor_eq_0_iff in E as [E _].
Qed.

(** On success the keyword looked up has been written to: its flags
    have gained [FAST_PATTERN] and at most one of the two other masks. *)
Lemma fast_pattern_stamp_success s pm cd arg s' :
  fast_pattern_stamp s pm cd arg = (0, s') ->
  exists cd' x,
    s' = store_ctx s pm cd' /\
    flags cd' = Z.lor (Z.lor (flags cd) x) DETECT_CONTENT_FAST_PATTERN /\
    content cd' = content cd /\ content_len cd' = content_len cd.
Proof.
  unfold fast_pattern_stamp.
  destruct (is_negated cd && has_relative_modifier cd); [discriminate|].
  assert (Hbare : (0, store_ctx s pm (or_flags cd DETECT_CONTENT_FAST_PATTERN)) = (0, s') ->
                  exists cd' x,
                    s' = store_ctx s pm cd' /\
                    flags cd' = Z.lor (Z.lor (flags cd) x) DETECT_CONTENT_FAST_PATTERN /\
                    content cd' = content cd /\ content_len cd' = content_len cd).
  { intros [= <-]. exists (or_flags cd DETECT_CONTENT_FAST_PATTERN), 0.
    repeat split. simpl. by rewrite Z.lor_0_r. }
  destruct arg as [[|a arg]|]; [exact Hbare | | exact Hbare].
  destruct (pcre_exec _ _ _) as [ret ov].
  destruct (ret =? 2).
  - destruct (is_negated cd || has_relative_modifier cd); [discriminate|].
    intros [= <-]. eexists. exists DETECT_CONTENT_FAST_PATTERN_ONLY.
    repeat split.
  - destruct (ret =? 4); [|discriminate].
    unfold fast_pattern_chop.
    repeat match goal with
           | |- context [let '(_, _) := ?p in _] => destruct p
           | |- context [if ?b then _ else _] => destruct b
           end; try discriminate.
    intros [= <-]. eexists. exists DETECT_CONTENT_FAST_PATTERN_CHOP.
    repeat split.
Qed.

Lemma DetectFastPatternSetup_success s arg s' :
  DetectFastPatternSetup s arg = (0, s') ->
  exists pm sm cd' x,
    fast_pattern_target s = Some (pm, sm) /\
    s' = store_ctx s pm cd' /\
    flags cd' = Z.lor (Z.lor (flags (ctx sm)) x) DETECT_CONTENT_FAST_PATTERN /\
    content cd' = content (ctx sm) /\ content_len cd' = content_len (ctx sm).
Proof.
  unfold DetectFastPatternSetup.
  destruct (no_fp_list_tail s); [discriminate|].
  destruct (fast_pattern_target s) as [[pm sm]|] eqn:Ht; [|discriminate].
  intros H. apply fast_pattern_stamp_success in H as (cd' & x & H).
  exists pm, sm, cd', x. tauto.
Qed.

End Success.

(** ** Rules *)

Section Rules.

Lemma SigInit_from_app pre ks s :
  SigInit_from (pre ++ ks) s =
  match SigInit_from pre s with
  | Some s' => SigInit_from ks s'
  | None => None
  end.
Proof.
  revert s. induction pre as [|k pre IH]; intros s; [reflexivity|].
  simpl. destruct (keyword_setup k s) as [r s']. destruct (r <? 0); [reflexivity|].
  apply IH.
Qed.

Lemma DetectFastPatternSetup_no_target s arg :
  fast_pattern_target s = None -> DetectFastPatternSetup s arg = (-1, s).
Proof.
  intros H. unfold DetectFastPatternSetup. rewrite H.
  by destruct (no_fp_list_tail s).
Qed.

(** [fast_pattern:only; <modifier>;] *)
Lemma SigInit_only_then_modifier m post s :
  SigInit_from (KFastPattern (Some "only"%string) :: KModifier m :: post) s = None.
Proof.
  cbn [SigInit_from keyword_setup].
  destruct (fast_pattern_target s) as [[pm sm]|] eqn:Ht.
  - rewrite (DetectFastPatternSetup_target _ _ _ _ Ht), fast_pattern_stamp_only.
    destruct (is_negated (ctx sm) || has_relative_modifier (ctx sm)); [reflexivity|].
    change (0 <? 0) with false. cbv iota.
    unfold DetectModifierSetup.
    rewrite (fast_pattern_target_store_ctx _ _ _ _ Ht). cbn [set_ctx ctx].
    replace (flag_set _ DETECT_CONTENT_FAST_PATTERN_ONLY) with true; [reflexivity|].
    symmetry. flags_norm. reflexivity.
  - by rewrite DetectFastPatternSetup_no_target.
Qed.

(** [<modifier>; fast_pattern:only;] *)
Lemma SigInit_modifier_then_only m post s :
  SigInit_from (KModifier m :: KFastPattern (Some "only"%string) :: post) s = None.
Proof.
  cbn [SigInit_from keyword_setup]. unfold DetectModifierSetup.
  destruct (fast_pattern_target s) as [[pm sm]|] eqn:Ht; [|reflexivity].
  destruct (flag_set _ DETECT_CONTENT_FAST_PATTERN_ONLY); [reflexivity|].
  destruct (is_negated (ctx sm) && _); [reflexivity|].
  change (0 <? 0) with false. cbv iota.
  rewrite (DetectFastPatternSetup_target _ _ _ _
             (fast_pattern_target_store_ctx _ _ _ _ Ht)).
  rewrite fast_pattern_stamp_only. cbn [set_ctx ctx].
  replace (has_relative_modifier _) with true; [by rewrite orb_true_r|].
  symmetry. destruct m; flags_norm; reflexivity.
Qed.

End Rules.

(** ** The MPM stages *)

Section Mpm.

Lemma needle_at_spec needle buf :
  needle_at needle buf = true <-> exists post, buf = needle ++ post.
Proof.
  revert buf. induction needle as [|a needle IH]; intros buf; simpl.
  - split; [intros _; by exists buf | reflexivity].
  - destruct buf as [|b buf].
    + split; [discriminate | intros [post H]; discriminate H].
    + rewrite andb_true_iff, IH. split.
      * intros [Hab [post ->]]. apply Byte.byte_dec_bl in Hab as ->. by exists post.
      * intros [post [= -> ->]]. split; [by apply Byte.byte_dec_lb | by exists post].
Qed.

Lemma occurs_spec needle buf :
  occurs needle buf = true <-> occurs_in needle buf.
Proof.
  unfold occurs_in. induction buf as [|b buf IH]; simpl.
  - rewrite orb_false_r, needle_at_spec. split.
    + intros [post H]. by exists [], post.
    + intros (pre & post & H). destruct pre as [|c pre]; [by exists post|].
      discriminate H.
  - rewrite orb_true_iff, needle_at_spec, IH. split.
    + intros [[post H]|(pre & post & H)].
      * by exists [], post.
      * exists (b :: pre), post. by rewrite H.
    + intros (pre & post & H). destruct pre as [|c pre].
      * left. by exists post.
      * right. injection H as -> ->. by exists pre, post.
Qed.

Lemma elem_of_Search m buf id :
  id ∈ Search m buf <-> exists needle, (needle, id) ∈ m /\ occurs needle buf = true.
Proof.
  unfold Search. rewrite elem_of_list_to_set, list_elem_of_fmap. split.
  - intros ([needle id'] & -> & H). apply list_elem_of_filter in H as [Ho Hin].
    by exists needle.
  - intros (needle & Hin & Ho). exists (needle, id). split; [reflexivity|].
    by apply list_elem_of_filter.
Qed.

Lemma elem_of_Build group t l needle id :
  (needle, id) ∈ Build group t l <->
  exists g cd,
    g ∈ group /\ sig_id g = id /\
    cd ∈ selected_patterns t (sm_lists (sig_sm g) l) /\
    needle = fast_pattern_needle cd.
Proof.
  unfold Build. rewrite list_elem_of_In, in_flat_map. split.
  - intros (g & Hg & Hin). apply list_elem_of_In, list_elem_of_fmap in Hin
      as (cd & [= -> ->] & Hcd).
    exists g, cd. by rewrite list_elem_of_In.
  - intros (g & cd & Hg & <- & Hcd & ->). exists g.
    split; [by apply list_elem_of_In|].
    apply list_elem_of_In, list_elem_of_fmap. by exists cd.
Qed.

Lemma sig_id_inj group g g' :
  NoDup (map sig_id group) -> g ∈ group -> g' ∈ group -> sig_id g = sig_id g' -> g = g'.
Proof.
  induction group as [|x group IH]; simpl; intros Hnd Hg Hg' E.
  - inversion Hg.
  - apply NoDup_cons in Hnd as [Hx Hnd].
    apply elem_of_cons in Hg as [->|Hg]; apply elem_of_cons in Hg' as [->|Hg'].
    + reflexivity.
    + exfalso. apply Hx. rewrite E. apply list_elem_of_fmap. by exists g'.
    + exfalso. apply Hx. rewrite <- E. apply list_elem_of_fmap. by exists g.
    + by apply IH.
Qed.

End Mpm.

(** ** The unit tests of the source, on the model *)

Section UnitTests.

Example DetectFastPatternTest01 :
  payload_view [KContent false "/one/"; KOther DETECT_SM_LIST_MATCH 0; KFastPattern None]
  = Some [(DETECT_CONTENT_FAST_PATTERN, 0, 0)].
Proof. reflexivity. Qed.

Example DetectFastPatternTest03 :
  payload_view [KContent false "/one/"] = Some [(0, 0, 0)].
Proof. reflexivity. Qed.

Example DetectFastPatternTest04 :
  payload_view [KContent false "/one/"; KFastPattern (Some "boo"%string)] = None.
Proof. reflexivity. Qed.

Example DetectFastPatternTest17 :
  payload_view [KContent false "one"; KFastPattern (Some "only"%string)]
  = Some [(FLAGS_FP_ONLY, 0, 0)].
Proof. reflexivity. Qed.

Example DetectFastPatternTest18 :
  payload_view [KContent false "oneoneone"; KFastPattern (Some "3,4"%string)]
  = Some [(FLAGS_FP_CHOP, 3, 4)].
Proof. reflexivity. Qed.

Example DetectFastPatternTest27 :
  payload_view [KContent false "one"; KContent true "two";
                KFastPattern (Some "only"%string)] = None.
Proof. reflexivity. Qed.

Example DetectFastPatternTest28 :
  payload_view [KContent false "one"; KContent false "two"; KModifier ModDistance;
                KContent false "two"; KFastPattern (Some "only"%string)]
  = Some [(0, 0, 0); (DETECT_CONTENT_DISTANCE, 0, 0); (FLAGS_FP_ONLY, 0, 0)].
Proof. reflexivity. Qed.

Example DetectFastPatternTest32 :
  payload_view [KContent true "one"; KFastPattern None; KContent false "two"]
  = Some [(Z.lor DETECT_CONTENT_NEGATED DETECT_CONTENT_FAST_PATTERN, 0, 0); (0, 0, 0)].
Proof. reflexivity. Qed.

Example DetectFastPatternTest33 :
  payload_view [KContent false "two"; KContent true "one"; KFastPattern None;
                KModifier ModDistance] = None.
Proof. reflexivity. Qed.

Example DetectFastPatternTest46 :
  payload_view [KContent false "one"; KContent false "two";
                KFastPattern (Some "65977,4"%string); KContent false "three";
                KModifier ModDistance] = None.
Proof. reflexivity. Qed.

Example DetectFastPatternTest47 :
  payload_view [KContent false "one"; KContent false "twooneone";
                KFastPattern (Some "3,65977"%string); KContent false "three";
                KModifier ModDistance] = None.
Proof. reflexivity. Qed.

Example DetectFastPatternTest48 :
  payload_view [KContent false "one"; KContent false "two";
                KFastPattern (Some "65534,4"%string); KContent false "three";
                KModifier ModDistance] = None.
Proof. reflexivity. Qed.

Example DetectFastPatternTest49 :
  payload_view [KContent false "one"; KContent true "twooneone";
                KFastPattern (Some "3,4"%string); KContent false "three"]
  = Some [(0, 0, 0); (Z.lor DETECT_CONTENT_NEGATED FLAGS_FP_CHOP, 3, 4); (0, 0, 0)].
Proof. reflexivity. Qed.

Example DetectFastPatternTest50 :
  payload_view [KContent false "one"; KContent true "twooneone";
                KFastPattern (Some "3,4"%string); KModifier ModDistance;
                KContent false "three"] = None.
Proof. reflexivity. Qed.

End UnitTests.

(** * The claims *)

(** C1, the claim at the rule of DetectFastPatternTest02, two content
    keywords each followed by a bare [fast_pattern]: the signature loads
    and both keywords of the payload list carry [FAST_PATTERN], not one.
    On the function alone: with the first keyword flagged by the first
    directive, the second directive returns 0 and leaves two keywords
    flagged. *)
Lemma C1_counterexample :
  (fun s => fast_pattern_count s DETECT_SM_LIST_PMATCH) <$> SigInit rule_test02
    = Some 2%nat /\
  fst (DetectFastPatternSetup sig_first_flagged None) = 0 /\
  fast_pattern_count (snd (DetectFastPatternSetup sig_first_flagged None))
    DETECT_SM_LIST_PMATCH = 2%nat /\
  ~ ((fun s => fast_pattern_count s DETECT_SM_LIST_PMATCH) <$> SigInit rule_test02
     = Some 1%nat).
Proof. repeat split; try reflexivity. vm_compute. discriminate. Qed.

(** C1, amended: a directive that succeeds flags the keyword it applies
    to and clears nothing, so every keyword flagged [FAST_PATTERN]
    before it is flagged after it and a list may end up with more than
    one flagged pattern; in particular, for a signature with two content
    keywords each followed by its own bare [fast_pattern] directive, both
    end up flagged [FAST_PATTERN]. *)
Theorem C1_directives_accumulate :
  (forall s arg s',
      DetectFastPatternSetup s arg = (0, s') ->
      (exists pm sm sm',
          fast_pattern_target s = Some (pm, sm) /\
          deref s' pm = Some sm' /\
          flag_set (flags (ctx sm')) DETECT_CONTENT_FAST_PATTERN = true) /\
      (forall r sm0,
          deref s r = Some sm0 ->
          flag_set (flags (ctx sm0)) DETECT_CONTENT_FAST_PATTERN = true ->
          exists sm1,
            deref s' r = Some sm1 /\
            flag_set (flags (ctx sm1)) DETECT_CONTENT_FAST_PATTERN = true)) /\
  (forall neg1 pat1 neg2 pat2,
      exists s,
        SigInit [KContent neg1 pat1; KFastPattern None;
                 KContent neg2 pat2; KFastPattern None] = Some s /\
        map (fun sm => (content (ctx sm),
                        flag_set (flags (ctx sm)) DETECT_CONTENT_FAST_PATTERN))
          (sm_lists s DETECT_SM_LIST_PMATCH) =
        [(bytes pat1, true); (bytes pat2, true)]).
Proof.
  split.
  - intros s arg s' H.
    apply DetectFastPatternSetup_success in H
      as (pm & sm & cd' & x & Ht & -> & Hf & _).
    destruct (fast_pattern_target_Some _ _ _ Ht) as (_ & Hd & _).
    assert (Hfp : flag_set (flags cd') DETECT_CONTENT_FAST_PATTERN = true).
    { rewrite Hf. change DETECT_CONTENT_FAST_PATTERN with (2 ^ 5).
      rewrite flag_set_lor by lia. apply orb_true_r. }
    split.
    + exists pm, sm, (set_ctx sm cd'). split; [exact Ht|].
      split; [by apply deref_store_ctx_eq | exact Hfp].
    + intros r sm0 Hr H0. destruct (decide (r = pm)) as [->|Hne].
      * exists (set_ctx sm cd'). split; [by apply deref_store_ctx_eq | exact Hfp].
      * exists sm0. split; [by rewrite deref_store_ctx_ne | exact H0].
  - intros neg1 pat1 neg2 pat2.
    destruct neg1, neg2; eexists; (split; [vm_compute; reflexivity|]);
      reflexivity.
Qed.

(** On [content:"/one/"; fast_pattern; content:boo;] a second bare
    directive leaves the first keyword flagged. *)
Lemma C1_directives_accumulate_witness :
  exists sm1,
    deref (snd (DetectFastPatternSetup sig_first_flagged None))
      (DETECT_SM_LIST_PMATCH, 0%nat) = Some sm1 /\
    flag_set (flags (ctx sm1)) DETECT_CONTENT_FAST_PATTERN = true.
Proof.
  destruct C1_directives_accumulate as [H _].
  destruct (H sig_first_flagged None
              (snd (DetectFastPatternSetup sig_first_flagged None)) eq_refl)
    as [_ Hkeep].
  apply (Hkeep (DETECT_SM_LIST_PMATCH, 0%nat)
           (mkSigMatch 0 DETECT_CONTENT
              (or_flags (content_data false "/one/") DETECT_CONTENT_FAST_PATTERN)));
    reflexivity.
Defined.

(** C2: for a signature of the group whose selected fast pattern in a
    context is [cd], not negated, and a buffer of that context: the
    result of [Search] on the context's matcher has the signature's id
    when the bytes selected of the pattern (the chop range when chopped,
    all the bytes otherwise) occur in the buffer, and does not have it
    when they do not. *)
Theorem C2_search_sound_complete (group : list GroupSignature) (g : GroupSignature)
    (t : SigMatchType) (l : SMList) (cd : DetectContentData) (buf : list Byte.byte) :
  g ∈ group ->
  NoDup (map sig_id group) ->
  selected_patterns t (sm_lists (sig_sm g) l) = [cd] ->
  is_negated cd = false ->
  (occurs_in (fast_pattern_needle cd) buf ->
   sig_id g ∈ Search (Build group t l) buf) /\
  (~ occurs_in (fast_pattern_needle cd) buf ->
   sig_id g ∉ Search (Build group t l) buf).
Proof.
  intros Hg Hnd Hsel _. split.
  - intros Ho. apply elem_of_Search. exists (fast_pattern_needle cd).
    split; [|by apply occurs_spec].
    apply elem_of_Build. exists g, cd. rewrite Hsel.
    repeat split; [exact Hg | by left].
  - intros Hno Hin. apply elem_of_Search in Hin as (needle & Hin & Ho).
    apply elem_of_Build in Hin as (g' & cd' & Hg' & E & Hcd & ->).
    assert (g' = g) as -> by (by apply (sig_id_inj group)).
    rewrite Hsel in Hcd. apply list_elem_of_singleton in Hcd as ->.
    by apply Hno, occurs_spec.
Qed.

(** The signature and payload of DetectFastPatternTest10, and the
    payload of DetectFastPatternTest12, which lacks the pattern. *)
Lemma C2_search_sound_complete_witness :
  sig_id sig_test10 ∈
    Search (Build [sig_test10] DETECT_CONTENT DETECT_SM_LIST_PMATCH) payload_test10 /\
  sig_id sig_test10 ∉
    Search (Build [sig_test10] DETECT_CONTENT DETECT_SM_LIST_PMATCH) payload_test12.
Proof.
  pose (cd := or_flags (content_data false "strings4_imp") DETECT_CONTENT_FAST_PATTERN).
  assert (H : forall buf,
    (occurs_in (fast_pattern_needle cd) buf ->
     sig_id sig_test10 ∈ Search (Build [sig_test10] DETECT_CONTENT DETECT_SM_LIST_PMATCH) buf) /\
    (~ occurs_in (fast_pattern_needle cd) buf ->
     sig_id sig_test10 ∉ Search (Build [sig_test10] DETECT_CONTENT DETECT_SM_LIST_PMATCH) buf)).
  { intros buf. apply C2_search_sound_complete.
    - by left.
    - repeat constructor. intros H. inversion H.
    - reflexivity.
    - reflexivity. }
  split.
  - apply (H payload_test10). apply occurs_spec. vm_compute. reflexivity.
  - apply (H payload_test12). intros Ho. apply occurs_spec in Ho.
    vm_compute in Ho. discriminate Ho.
Defined.

(** C3, the claim at the rule of DetectFastPatternTest27,
    [content:one; content:!two; fast_pattern:only;]: the keyword the
    directive applies to is negated and has no relative modifier, and the
    directive is refused: the function returns -1, the signature is as it
    was, the keyword is not flagged [FAST_PATTERN_ONLY]. *)
Lemma C3_counterexample :
  fast_pattern_target sig_negated =
    Some ((DETECT_SM_LIST_PMATCH, 1%nat),
          mkSigMatch 1 DETECT_CONTENT (content_data true "two")) /\
  is_negated (content_data true "two") = true /\
  has_relative_modifier (content_data true "two") = false /\
  DetectFastPatternSetup sig_negated (Some "only"%string) = (-1, sig_negated) /\
  ~ (fst (DetectFastPatternSetup sig_negated (Some "only"%string)) = 0 /\
     exists sm, deref (snd (DetectFastPatternSetup sig_negated (Some "only"%string)))
                  (DETECT_SM_LIST_PMATCH, 1%nat) = Some sm /\
                flag_set (flags (ctx sm)) DETECT_CONTENT_FAST_PATTERN_ONLY = true).
Proof.
  repeat split; try reflexivity.
  intros [H _]. vm_compute in H. discriminate H.
Qed.

(** C3, amended: [fast_pattern:only] on a negated content keyword is
    refused, whether or not the keyword has a relative modifier:
    [DetectFastPatternSetup] returns -1 and leaves the signature as it
    was. *)
Theorem C3_only_refuses_negated (s : Signature) (pm : SMRef) (sm : SigMatch) :
  fast_pattern_target s = Some (pm, sm) ->
  is_negated (ctx sm) = true ->
  DetectFastPatternSetup s (Some "only"%string) = (-1, s).
Proof.
  intros Ht Hneg.
  rewrite (DetectFastPatternSetup_target _ _ _ _ Ht), fast_pattern_stamp_only.
  by rewrite Hneg.
Qed.

(** The rule of DetectFastPatternTest27. *)
Lemma C3_only_refuses_negated_witness :
  DetectFastPatternSetup sig_negated (Some "only"%string) = (-1, sig_negated).
Proof.
  apply (C3_only_refuses_negated sig_negated (DETECT_SM_LIST_PMATCH, 1%nat)
           (mkSigMatch 1 DETECT_CONTENT (content_data true "two"))); reflexivity.
Defined.

(** C4, the claim at [content:one; content:!twooneone; distance:10;
    fast_pattern:3,4;]: none of the four limits is exceeded (3, 4 and 7
    are below 65535 and 7 is within the 9 bytes of the pattern), and the
    signature fails to load all the same, the keyword being negated with
    a relative modifier. *)
Lemma C4_counterexample :
  fast_pattern_target sig_negated_distance =
    Some ((DETECT_SM_LIST_PMATCH, 1%nat),
          mkSigMatch 1 DETECT_CONTENT
            (or_flags (content_data true "twooneone") DETECT_CONTENT_DISTANCE)) /\
  content_len (content_data true "twooneone") = 9 /\
  DetectFastPatternSetup sig_negated_distance (Some "3,4"%string) =
    (-1, sig_negated_distance) /\
  ~ (fst (DetectFastPatternSetup sig_negated_distance (Some "3,4"%string)) = -1 <->
     (3 > 65535 \/ 4 > 65535 \/ 3 + 4 > 65535 \/ 3 + 4 > 9)).
Proof.
  repeat split; try reflexivity.
  intros [H _]. specialize (H eq_refl).
  destruct H as [H|[H|[H|H]]]; vm_compute in H; discriminate H.
Qed.

(** C4, amended: for [fast_pattern:offset,length] on a content keyword,
    with numbers whose sum stays within a C [int], the signature fails
    to load if and only if the keyword is negated and has a relative
    modifier, or the offset exceeds 65535, or the length exceeds 65535,
    or offset+length exceeds 65535, or offset+length exceeds the
    pattern's byte length; a failure leaves the signature as it was;
    otherwise the signature loads, the keyword is flagged
    [FAST_PATTERN_CHOP] and [FAST_PATTERN] with the two numbers as chop
    offset and length, which satisfy the chop bound, and no other
    keyword is touched. *)
Theorem C4_chop_limits (s : Signature) (pm : SMRef) (sm : SigMatch)
    (d1 d2 : list ascii) :
  fast_pattern_target s = Some (pm, sm) ->
  digit_string d1 -> digit_string d2 ->
  decimal d1 + decimal d2 <= CInt.INT_MAX ->
  let cd := ctx sm in
  let r := DetectFastPatternSetup s (Some (chop_arg d1 d2)) in
  (fst r = -1 <->
   (is_negated cd = true /\ has_relative_modifier cd = true) \/
   decimal d1 > 65535 \/ decimal d2 > 65535 \/
   decimal d1 + decimal d2 > 65535 \/
   decimal d1 + decimal d2 > content_len cd) /\
  (fst r = -1 -> snd r = s) /\
  (fst r <> -1 ->
   fst r = 0 /\
   exists sm',
     deref (snd r) pm = Some sm' /\
     flag_set (flags (ctx sm')) DETECT_CONTENT_FAST_PATTERN_CHOP = true /\
     flag_set (flags (ctx sm')) DETECT_CONTENT_FAST_PATTERN = true /\
     fp_chop_offset (ctx sm') = decimal d1 /\
     fp_chop_len (ctx sm') = decimal d2 /\
     content_len (ctx sm') = content_len cd /\
     chop_bound (ctx sm') /\
     forall r', r' <> pm -> deref (snd r) r' = deref s r').
Proof.
  intros Ht H1 H2 Hmax cd r.
  pose proof (decimal_nonneg d1 H1) as Hn1. pose proof (decimal_nonneg d2 H2) as Hn2.
  destruct (fast_pattern_target_Some _ _ _ Ht) as (_ & Hd & _).
  subst r. rewrite (DetectFastPatternSetup_target _ _ _ _ Ht).
  rewrite fast_pattern_stamp_chop by assumption. fold cd.
  destruct (is_negated cd && has_relative_modifier cd) eqn:Eg.
  { apply andb_true_iff in Eg. cbn [fst snd]. repeat split; try tauto; done. }
  destruct (Z.gtb_spec (decimal d1) 65535) as [Ho|Ho]; cbn [orb].
  { cbn [fst snd]. repeat split; try done. intros _. right. left. lia. }
  destruct (Z.gtb_spec (decimal d1 + decimal d2) 65535) as [Hs|Hs]; cbn [orb].
  { cbn [fst snd]. repeat split; try done. intros _. right. right. right. left. lia. }
  destruct (Z.gtb_spec (decimal d1 + decimal d2) (content_len cd)) as [Hl|Hl].
  { cbn [fst snd]. repeat split; try done. intros _. do 4 right. lia. }
  cbn [fst snd]. split; [|split; [discriminate|]].
  - split; [discriminate|]. apply andb_false_iff in Eg.
    intros [[Hg1 Hg2]|H]; [destruct Eg; congruence | lia].
  - intros _. split; [reflexivity|].
    eexists. split; [by apply deref_store_ctx_eq|]. cbn [set_ctx ctx].
    split; [flags_norm; reflexivity|]. split; [flags_norm; reflexivity|].
    repeat split.
    + intros _. cbn. lia.
    + intros r' Hr. by apply deref_store_ctx_ne.
Qed.

(** The numbers of DetectFastPatternTest47 on a 9 byte pattern. *)
Lemma C4_chop_limits_witness :
  let r := DetectFastPatternSetup sig_negated_long (Some "3,65977"%string) in
  (fst r = -1 <->
   (is_negated (content_data true "twooneone") = true /\
    has_relative_modifier (content_data true "twooneone") = true) \/
   3 > 65535 \/ 65977 > 65535 \/ 3 + 65977 > 65535 \/ 3 + 65977 > 9) /\
  (fst r = -1 -> snd r = sig_negated_long).
Proof.
  pose proof (C4_chop_limits sig_negated_long (DETECT_SM_LIST_PMATCH, 1%nat)
             (mkSigMatch 1 DETECT_CONTENT (content_data true "twooneone"))
             ["3"%char] ["6"; "5"; "9"; "7"; "7"]%char) as H.
  destruct H as (H1 & H2 & _);
    try reflexivity; try (split; [discriminate | repeat constructor]).
  - vm_compute. discriminate.
  - split; [exact H1 | exact H2].
Defined.

(** The length test of the chop branch tests the offset a second time:
    on a 9 byte pattern [fast_pattern:1,2147483647] gets through, the
    sum wrapping around in [int], and the chop length written is 65535. *)
Lemma fast_pattern_chop_length_unchecked :
  exists s' sm',
    DetectFastPatternSetup sig_negated_long (Some "1,2147483647"%string) = (0, s') /\
    deref s' (DETECT_SM_LIST_PMATCH, 1%nat) = Some sm' /\
    flag_set (flags (ctx sm')) DETECT_CONTENT_FAST_PATTERN_CHOP = true /\
    fp_chop_offset (ctx sm') = 1 /\ fp_chop_len (ctx sm') = 65535 /\
    content_len (ctx sm') = 9.
Proof. eexists. eexists. repeat split; reflexivity. Qed.

(** C5: a signature that combines [fast_pattern:only] with [distance],
    [within], [offset] or [depth] on the keyword the directive applies
    to fails to load.  With the modifier already on the keyword,
    [DetectFastPatternSetup] returns -1 and leaves the signature as it
    was; and in a rule the two fail the load, the modifier written before
    the directive or after it, whatever comes before and after the two
    and from whatever state of the signature: the signature list stays
    NULL. *)
Theorem C5_only_with_modifier_rejected :
  (forall s pm sm,
      fast_pattern_target s = Some (pm, sm) ->
      has_relative_modifier (ctx sm) = true ->
      DetectFastPatternSetup s (Some "only"%string) = (-1, s)) /\
  (forall (m : Modifier) (pre post : list Keyword) (s : Signature),
      SigInit_from (pre ++ KModifier m :: KFastPattern (Some "only"%string) :: post) s
        = None /\
      SigInit_from (pre ++ KFastPattern (Some "only"%string) :: KModifier m :: post) s
        = None).
Proof.
  split.
  - intros s pm sm Ht Hrel.
    rewrite (DetectFastPatternSetup_target _ _ _ _ Ht), fast_pattern_stamp_only.
    by rewrite Hrel, orb_true_r.
  - intros m pre post s. rewrite !SigInit_from_app.
    destruct (SigInit_from pre s) as [s1|]; [|by split].
    split; [apply SigInit_modifier_then_only | apply SigInit_only_then_modifier].
Qed.

(** The rule of DetectFastPatternTest20. *)
Lemma C5_only_with_modifier_rejected_witness :
  DetectFastPatternSetup sig_distance (Some "only"%string) = (-1, sig_distance).
Proof.
  apply (proj1 C5_only_with_modifier_rejected sig_distance
           (DETECT_SM_LIST_PMATCH, 1%nat)
           (mkSigMatch 1 DETECT_CONTENT
              (or_flags (content_data false "two") DETECT_CONTENT_DISTANCE)));
    reflexivity.
Defined.

(** The rules of DetectFastPatternTest19 and DetectFastPatternTest20. *)
Lemma DetectFastPatternTest19_20 :
  SigInit [KContent false "one"; KContent false "two";
           KFastPattern (Some "only"%string); KModifier ModDistance] = None /\
  SigInit [KContent false "one"; KContent false "two";
           KModifier ModDistance; KFastPattern (Some "only"%string)] = None.
Proof. split; reflexivity. Qed.

(** C6: with a content keyword in the payload list and a later
    http_cookie keyword in the cookie list, the directive is applied to
    the payload keyword: the lookup is handed a count of 12 and reads six
    pairs, the cookie pair is the seventh.  Read with a count of 14 the
    lookup returns the cookie keyword. *)
Theorem C6_cookie_keyword_skipped :
  fst (DetectFastPatternSetup sig_cookie None) = 0 /\
  list_flags (snd (DetectFastPatternSetup sig_cookie None)) DETECT_SM_LIST_PMATCH =
    [DETECT_CONTENT_FAST_PATTERN] /\
  list_flags (snd (DetectFastPatternSetup sig_cookie None)) DETECT_SM_LIST_HCDMATCH =
    [0] /\
  fst <$> SigMatchGetLastSMFromLists sig_cookie 14 fp_lookup_pairs =
    Some (DETECT_SM_LIST_HCDMATCH, 0%nat).
Proof. repeat split; reflexivity. Qed.

(** The rule of DetectFastPatternTest37: the keyword before the tail of
    the payload list carries [FAST_PATTERN] and [FAST_PATTERN_CHOP], chop
    offset 3 and chop length 4; the first and the last keyword carry
    nothing. *)
Lemma DetectFastPatternTest37 :
  exists s sm,
    SigInit [KContent false "oneoneone"; KContent false "oneonetwo";
             KFastPattern (Some "3,4"%string); KContent false "three"] = Some s /\
    sm_lists s DETECT_SM_LIST_PMATCH !! 1%nat = Some sm /\
    List.length (sm_lists s DETECT_SM_LIST_PMATCH) = 3%nat /\
    content (ctx sm) = bytes "oneonetwo" /\
    list_flags s DETECT_SM_LIST_PMATCH =
      [0; Z.lor DETECT_CONTENT_FAST_PATTERN_CHOP DETECT_CONTENT_FAST_PATTERN; 0] /\
    fp_chop_offset (ctx sm) = 3 /\ fp_chop_len (ctx sm) = 4.
Proof. eexists. eexists. repeat split; reflexivity. Qed.

(** C7: a negated content keyword without relative modifier takes
    [fast_pattern:offset,length]: with the numbers within the pattern,
    [DetectFastPatternSetup] returns 0 and the keyword carries [NEGATED],
    [FAST_PATTERN] and [FAST_PATTERN_CHOP] with the chop offset and length
    recorded; a relative modifier that follows is refused.  With a
    relative modifier already on the negated keyword the directive is
    refused, whatever its argument. *)
Theorem C7_negated_chop (s : Signature) (pm : SMRef) (sm : SigMatch)
    (d1 d2 : list ascii) :
  fast_pattern_target s = Some (pm, sm) ->
  is_negated (ctx sm) = true ->
  digit_string d1 -> digit_string d2 ->
  decimal d1 + decimal d2 <= content_len (ctx sm) ->
  content_len (ctx sm) <= 65535 ->
  (has_relative_modifier (ctx sm) = false ->
   exists s' sm',
     DetectFastPatternSetup s (Some (chop_arg d1 d2)) = (0, s') /\
     deref s' pm = Some sm' /\
     is_negated (ctx sm') = true /\
     flag_set (flags (ctx sm')) DETECT_CONTENT_FAST_PATTERN = true /\
     flag_set (flags (ctx sm')) DETECT_CONTENT_FAST_PATTERN_CHOP = true /\
     fp_chop_offset (ctx sm') = decimal d1 /\
     fp_chop_len (ctx sm') = decimal d2 /\
     forall m, DetectModifierSetup m s' = (-1, s')) /\
  (has_relative_modifier (ctx sm) = true ->
   forall arg, DetectFastPatternSetup s arg = (-1, s)).
Proof.
  intros Ht Hneg H1 H2 Hlen Hmax. split.
  - intros Hrel.
    pose proof (decimal_nonneg d1 H1) as Hn1. pose proof (decimal_nonneg d2 H2) as Hn2.
    eexists. eexists. split.
    { rewrite (DetectFastPatternSetup_target _ _ _ _ Ht).
      rewrite fast_pattern_stamp_chop by (try assumption; unfold CInt.INT_MAX; lia).
      rewrite Hneg, Hrel. cbn [andb].
      rewrite !Z.gtb_ltb, !(proj2 (Z.ltb_ge _ _)) by lia.
      reflexivity. }
    destruct (fast_pattern_target_Some _ _ _ Ht) as (_ & Hd & _).
    split; [by apply deref_store_ctx_eq|].
    cbn [set_ctx ctx].
    repeat split.
    + flags_norm. exact Hneg.
    + flags_norm. reflexivity.
    + flags_norm. reflexivity.
    + intros m. unfold DetectModifierSetup.
      rewrite (fast_pattern_target_store_ctx _ _ _ _ Ht). cbn [set_ctx ctx].
      flags_norm. rewrite Hneg. cbn [andb].
      destruct (flag_set (flags (ctx sm)) (2 ^ 6)); reflexivity.
  - intros Hrel arg.
    rewrite (DetectFastPatternSetup_target _ _ _ _ Ht).
    unfold fast_pattern_stamp. by rewrite Hneg, Hrel.
Qed.

(** The rules of DetectFastPatternTest49, and of DetectFastPatternTest50
    with the modifier first. *)
Lemma C7_negated_chop_witness :
  (exists s' sm',
     DetectFastPatternSetup sig_negated_long (Some "3,4"%string) = (0, s') /\
     deref s' (DETECT_SM_LIST_PMATCH, 1%nat) = Some sm' /\
     is_negated (ctx sm') = true /\
     flag_set (flags (ctx sm')) DETECT_CONTENT_FAST_PATTERN = true /\
     flag_set (flags (ctx sm')) DETECT_CONTENT_FAST_PATTERN_CHOP = true /\
     fp_chop_offset (ctx sm') = 3 /\
     fp_chop_len (ctx sm') = 4 /\
     forall m, DetectModifierSetup m s' = (-1, s')) /\
  (forall arg, DetectFastPatternSetup sig_negated_distance arg = (-1, sig_negated_distance)).
Proof.
  split.
  - apply (C7_negated_chop sig_negated_long (DETECT_SM_LIST_PMATCH, 1%nat)
             (mkSigMatch 1 DETECT_CONTENT (content_data true "twooneone"))
             ["3"%char] ["4"%char]);
      try reflexivity; try (split; [discriminate | repeat constructor]);
      vm_compute; discriminate.
  - apply (C7_negated_chop sig_negated_distance (DETECT_SM_LIST_PMATCH, 1%nat)
             (mkSigMatch 1 DETECT_CONTENT
                (or_flags (content_data true "twooneone") DETECT_CONTENT_DISTANCE))
             ["3"%char] ["4"%char]);
      try reflexivity; try (split; [discriminate | repeat constructor]);
      vm_compute; discriminate.
Defined.

(** C8: an argument that merely starts with [only], or merely ends with
    two numbers, gets through.  On [content:"/one/"], every argument
    that starts with [only] makes [DetectFastPatternSetup] return 0 and
    stamp the keyword with [FAST_PATTERN_ONLY] and [FAST_PATTERN],
    [onlyboo] for one; [boo1,2] makes it return 0 and stamp the keyword
    with [FAST_PATTERN_CHOP] and [FAST_PATTERN]; [boo] is refused. *)
Theorem C8_malformed_argument_accepted :
  (forall rest : string,
      DetectFastPatternSetup sig_one (Some ("only" ++ rest)%string) =
      (0, store_ctx sig_one (DETECT_SM_LIST_PMATCH, 0%nat)
            (or_flags (or_flags (content_data false "/one/")
                         DETECT_CONTENT_FAST_PATTERN_ONLY)
               DETECT_CONTENT_FAST_PATTERN))) /\
  (fst (DetectFastPatternSetup sig_one (Some "onlyboo"%string)) = 0 /\
   list_flags (snd (DetectFastPatternSetup sig_one (Some "onlyboo"%string)))
     DETECT_SM_LIST_PMATCH =
   [Z.lor DETECT_CONTENT_FAST_PATTERN_ONLY DETECT_CONTENT_FAST_PATTERN]) /\
  (fst (DetectFastPatternSetup sig_one (Some "boo1,2"%string)) = 0 /\
   list_flags (snd (DetectFastPatternSetup sig_one (Some "boo1,2"%string)))
     DETECT_SM_LIST_PMATCH =
   [Z.lor DETECT_CONTENT_FAST_PATTERN_CHOP DETECT_CONTENT_FAST_PATTERN] /\
   map (fun sm => (fp_chop_offset (ctx sm), fp_chop_len (ctx sm)))
     (sm_lists (snd (DetectFastPatternSetup sig_one (Some "boo1,2"%string)))
        DETECT_SM_LIST_PMATCH) = [(1, 2)]) /\
  DetectFastPatternSetup sig_one (Some "boo"%string) = (-1, sig_one).
Proof.
  split; [|repeat split; reflexivity].
  intros rest.
  rewrite (DetectFastPatternSetup_target sig_one (DETECT_SM_LIST_PMATCH, 0%nat)
             (mkSigMatch 0 DETECT_CONTENT (content_data false "/one/")))
    by reflexivity.
  apply fast_pattern_stamp_only_prefix.
Qed.

(** C9: when none of the seven supported sigmatch lists holds a content
    bearing keyword, [DetectFastPatternSetup] returns -1 and the
    signature is left as it was: no flag is set, no chop field written. *)
Theorem C9_no_content_keyword (s : Signature) (arg : option string) :
  no_content_keyword s -> DetectFastPatternSetup s arg = (-1, s).
Proof.
  intros H. unfold DetectFastPatternSetup.
  destruct (no_fp_list_tail s); [reflexivity|].
  unfold fast_pattern_target, SigMatchGetLastSMFromLists.
  rewrite last_sm_of_pairs_None; [reflexivity|].
  apply Forall_take, H.
Qed.

(** A payload list that holds one keyword without content. *)
Lemma C9_no_content_keyword_witness :
  no_content_keyword sig_no_content /\
  DetectFastPatternSetup sig_no_content (Some "3,4"%string) = (-1, sig_no_content).
Proof.
  assert (H : no_content_keyword sig_no_content).
  { unfold no_content_keyword, fp_lookup_pairs.
    repeat (constructor; [vm_compute; repeat constructor; discriminate|]).
    constructor. }
  split; [exact H | exact (C9_no_content_keyword sig_no_content _ H)].
Defined.

(** C10: registering is idempotent and free of duplicates.  A call of
    [SupportFastPatternForSigMatchList] with a list id already in the
    list, or of [SupportFastPatternForSigMatchType] with a sigmatch type
    already in the list, leaves the two lists as they are; any run of
    calls keeps both lists free of duplicates, from the empty lists in
    particular; and a second call of [SupportFastPatternForSigMatchTypes]
    changes nothing. *)
Theorem C10_registration_idempotent :
  (forall list_id g,
      list_id ∈ sm_fp_support_smlist_list g ->
      SupportFastPatternForSigMatchList list_id g = g) /\
  (forall sm_type g,
      sm_type ∈ sm_fp_support_smtype_list g ->
      SupportFastPatternForSigMatchType sm_type g = g) /\
  (forall cs g, fp_support_nodup g -> fp_support_nodup (support_calls cs g)) /\
  (forall cs, fp_support_nodup (support_calls cs fp_support_init)) /\
  (forall g, SupportFastPatternForSigMatchTypes (SupportFastPatternForSigMatchTypes g) =
             SupportFastPatternForSigMatchTypes g).
Proof.
  split; [exact SupportFastPatternForSigMatchList_present|].
  split; [exact SupportFastPatternForSigMatchType_present|].
  split; [exact support_calls_nodup|].
  split; [|exact SupportFastPatternForSigMatchTypes_again].
  intros cs. apply support_calls_nodup. split; constructor.
Qed.

(** Registering again after [SupportFastPatternForSigMatchTypes]. *)
Lemma C10_registration_idempotent_witness :
  let g := SupportFastPatternForSigMatchTypes fp_support_init in
  SupportFastPatternForSigMatchList DETECT_SM_LIST_HCDMATCH g = g /\
  SupportFastPatternForSigMatchType DETECT_AL_HTTP_COOKIE g = g /\
  fp_support_nodup
    (support_calls [CallSigMatchTypes; CallSigMatchList DETECT_SM_LIST_UMATCH] g).
Proof.
  destruct C10_registration_idempotent as (H1 & H2 & H3 & _).
  split; [apply H1; vm_compute; repeat constructor|].
  split; [apply H2; vm_compute; repeat constructor|].
  apply H3. split; apply (bool_decide_unpack _); vm_compute; exact I.
Defined.

(** * Properties of the cpu affinity code *)

(** ** cpu sets *)

Section CpuSets.

Lemma in_mask_spec k : in_mask k = true <-> 0 <= k < CPU_SETSIZE.
Proof. unfold in_mask. rewrite andb_true_iff, Z.leb_le, Z.ltb_lt. tauto. Qed.

Lemma CPU_ISSET_in_mask k set : CPU_ISSET k set = true -> 0 <= k < CPU_SETSIZE.
Proof. unfold CPU_ISSET. rewrite andb_true_iff. intros [H _]. by apply in_mask_spec. Qed.

Lemma CPU_ISSET_CPU_ZERO k : CPU_ISSET k CPU_ZERO = false.
Proof. unfold CPU_ISSET, CPU_ZERO. rewrite Z.bits_0. apply andb_false_r. Qed.

Lemma CPU_ISSET_CPU_SET k c set :
  CPU_ISSET k (CPU_SET c set) = (in_mask k && (k =? c)) || CPU_ISSET k set.
Proof.
  unfold CPU_ISSET, CPU_SET.
  destruct (in_mask k) eqn:Hk; [|reflexivity]. cbn [andb].
  destruct (Z.eqb_spec k c) as [->|Hne].
  - rewrite Hk. rewrite Z.setbit_eq; [reflexivity|]. apply in_mask_spec in Hk. lia.
  - cbn [orb]. destruct (in_mask c) eqn:Hc; [|reflexivity].
    apply Z.setbit_neq; [|congruence]. apply in_mask_spec in Hc. lia.
Qed.

Lemma CPU_ISSET_set_cpus n from k set :
  CPU_ISSET k (set_cpus n from set) =
  (in_mask k && (from <=? k) && (k <? from + Z.of_nat n)) || CPU_ISSET k set.
Proof.
  revert from set. induction n as [|n IH]; intros from set.
  - cbn [set_cpus]. replace (k <? from + Z.of_nat 0) with (negb (from <=? k)).
    + by destruct (in_mask k), (from <=? k).
    + rewrite Z.add_0_r. destruct (Z.leb_spec from k), (Z.ltb_spec k from); simpl; lia.
  - cbn [set_cpus]. rewrite IH, CPU_ISSET_CPU_SET.
    destruct (in_mask k); cbn [andb orb]; [|reflexivity].
    destruct (Z.eqb_spec k from), (Z.leb_spec (from + 1) k), (Z.leb_spec from k),
      (Z.ltb_spec k (from + 1 + Z.of_nat n)), (Z.ltb_spec k (from + Z.of_nat (S n)));
      cbn [andb orb]; try reflexivity; try lia; by destruct (CPU_ISSET k set).
Qed.

End CpuSets.

(** ** The table of families *)

Section Families.

Lemma GetAffinityTypeFromName_from_Some i tbl nm j taf :
  GetAffinityTypeFromName_from i tbl nm = Some (j, taf) ->
  (i <= j)%nat /\ tbl !! (j - i)%nat = Some taf /\ name taf = nm /\
  forall k taf', (k < j - i)%nat -> tbl !! k = Some taf' -> name taf' <> nm.
Proof.
  revert i. induction tbl as [|t tbl IH]; intros i; simpl; [done|].
  destruct (String.eqb_spec (name t) nm) as [E|E].
  - intros [= <- <-]. rewrite Nat.sub_diag. repeat split; [lia|done|].
    intros k taf' Hk. lia.
  - intros H. destruct (IH _ H) as (Hle & Hl & Hn & Hfirst).
    split; [lia|]. replace (j - i)%nat with (S (j - S i)) by lia.
    repeat split; [done..|].
    intros [|k] taf' Hk; simpl; [by intros [= <-]|]. apply Hfirst. lia.
Qed.

Lemma GetAffinityTypeFromName_from_None i tbl nm :
  GetAffinityTypeFromName_from i tbl nm = None ->
  Forall (fun taf => name taf <> nm) tbl.
Proof.
  revert i. induction tbl as [|t tbl IH]; intros i; simpl; [by constructor|].
  destruct (String.eqb_spec (name t) nm) as [E|E]; [done|].
  intros H. constructor; [done|]. by apply (IH (S i)).
Qed.

Lemma GetAffinityTypeFromName_Some tbl nm i taf :
  GetAffinityTypeFromName tbl nm = Some (i, taf) ->
  (i < MAX_CPU_SET)%nat /\ tbl !! i = Some taf /\ name taf = nm /\
  forall j taf', (j < i)%nat -> tbl !! j = Some taf' -> name taf' <> nm.
Proof.
  unfold GetAffinityTypeFromName. intros H.
  apply GetAffinityTypeFromName_from_Some in H.
  destruct H as (_ & Hl & Hn & Hfirst). rewrite Nat.sub_0_r in *.
  apply lookup_take_Some in Hl as [Hl Hi]. repeat split; [done..|].
  intros j taf' Hj Hl'. apply (Hfirst j); [done|].
  rewrite lookup_take_lt by lia. done.
Qed.

Lemma GetAffinityTypeFromName_None tbl nm :
  GetAffinityTypeFromName tbl nm = None <->
  forall i taf, (i < MAX_CPU_SET)%nat -> tbl !! i = Some taf -> name taf <> nm.
Proof.
  unfold GetAffinityTypeFromName. split.
  - intros H i taf Hi Hl. apply GetAffinityTypeFromName_from_None in H.
    rewrite Forall_forall in H. apply H.
    apply (list_elem_of_lookup_2 _ i). by rewrite lookup_take_lt.
  - intros H.
    destruct (GetAffinityTypeFromName_from 0 (take MAX_CPU_SET tbl) nm)
      as [[i taf]|] eqn:E; [|done].
    destruct (GetAffinityTypeFromName_Some tbl nm i taf E) as (Hi & Hl & Hn & _).
    by destruct (H i taf Hi Hl).
Qed.

(** A change of the table that keeps the names keeps what a name
    finds. *)
Lemma GetAffinityTypeFromName_from_map (f : ThreadsAffinityType -> ThreadsAffinityType)
    i tbl nm :
  (forall taf, name (f taf) = name taf) ->
  GetAffinityTypeFromName_from i (map f tbl) nm =
  (fun p => (p.1, f p.2)) <$> GetAffinityTypeFromName_from i tbl nm.
Proof.
  intros Hf. revert i. induction tbl as [|t tbl IH]; intros i; simpl; [done|].
  rewrite Hf. destruct (String.eqb (name t) nm); [done|]. apply IH.
Qed.

Lemma AffinitySetupInit_length ncpu tbl :
  List.length (AffinitySetupInit ncpu tbl) = List.length tbl.
Proof.
  unfold AffinitySetupInit. rewrite length_app, length_map, <- length_app.
  by rewrite take_drop.
Qed.

Lemma AffinitySetupInit_lookup ncpu tbl i :
  AffinitySetupInit ncpu tbl !! i =
  if decide (i < MAX_CPU_SET)%nat
  then (fun taf => set_cpu_set taf (set_cpus (Z.to_nat ncpu) 0 CPU_ZERO)) <$> tbl !! i
  else tbl !! i.
Proof.
  unfold AffinitySetupInit. case_decide as Hi.
  - destruct (decide (i < List.length tbl)%nat) as [Hl|Hl].
    + rewrite lookup_app_l by (rewrite length_map, length_take; lia).
      rewrite list_lookup_fmap. by rewrite lookup_take_lt.
    + rewrite (lookup_ge_None_2 tbl) by lia. apply lookup_ge_None_2.
      rewrite length_app, length_map, <- length_app, take_drop. lia.
  - destruct (decide (MAX_CPU_SET <= List.length tbl)%nat) as [Hl|Hl].
    + rewrite lookup_app_r by (rewrite length_map, length_take; lia).
      rewrite length_map, length_take, lookup_drop. f_equal. lia.
    + rewrite (lookup_ge_None_2 tbl) by lia. apply lookup_ge_None_2.
      rewrite length_app, length_map, <- length_app, take_drop. lia.
Qed.

Lemma AffinitySetupInit_take ncpu tbl :
  take MAX_CPU_SET (AffinitySetupInit ncpu tbl) =
  map (fun taf => set_cpu_set taf (set_cpus (Z.to_nat ncpu) 0 CPU_ZERO))
    (take MAX_CPU_SET tbl).
Proof.
  unfold AffinitySetupInit.
  destruct (decide (MAX_CPU_SET <= List.length tbl)%nat) as [Hl|Hl].
  - rewrite take_app_length'; [done|]. rewrite length_map, length_take. lia.
  - rewrite (drop_ge tbl) by lia. rewrite app_nil_r. apply take_ge.
    rewrite length_map, length_take. lia.
Qed.

Lemma GetAffinityTypeFromName_AffinitySetupInit ncpu tbl nm :
  GetAffinityTypeFromName (AffinitySetupInit ncpu tbl) nm =
  (fun p => (p.1, set_cpu_set p.2 (set_cpus (Z.to_nat ncpu) 0 CPU_ZERO)))
    <$> GetAffinityTypeFromName tbl nm.
Proof.
  unfold GetAffinityTypeFromName. rewrite AffinitySetupInit_take.
  by apply GetAffinityTypeFromName_from_map.
Qed.

Lemma thread_affinity_found i taf :
  thread_affinity !! i = Some taf ->
  GetAffinityTypeFromName thread_affinity (name taf) = Some (i, taf).
Proof.
  do 8 (destruct i as [|i]; [by intros [= <-]|]). done.
Qed.

End Families.

(** ** The next cpu of a family *)

Section NextCpu.

Context (online : Z) (set : Z).
Hypothesis Honline : online <= CInt.INT_MAX.

Lemma int_add_1 z : 0 <= z < CInt.INT_MAX -> CInt.int_add z 1 = z + 1.
Proof.
  intros H. unfold CInt.int_add. apply to_int_small.
  unfold CInt.INT_MIN, CInt.INT_MAX in *. lia.
Qed.

(** The loop reaches a cpu of the set that lies below [online], and has
    found none on its way. *)
Lemma next_cpu_loop_finds d fuel ncpu c :
  0 <= ncpu < online -> 0 <= c < online -> CPU_ISSET c set = true ->
  Z.of_nat d = (if ncpu <=? c then c - ncpu else c - ncpu + online) ->
  (d < fuel)%nat ->
  exists c',
    next_cpu_loop fuel online set ncpu = Some c' /\
    CPU_ISSET c' set = true /\ 0 <= c' < online /\
    forall k, cpus_passed online ncpu c' k -> CPU_ISSET k set = false.
Proof.
  revert fuel ncpu. induction d as [|d IH]; intros fuel ncpu Hn Hc Hset Hd Hf;
    (destruct fuel as [|fuel]; [lia|]); cbn [next_cpu_loop];
    destruct (CPU_ISSET ncpu set) eqn:E.
  - exists ncpu. repeat split; try done; try lia.
    unfold cpus_passed. rewrite Z.leb_refl. lia.
  - destruct (Z.leb_spec ncpu c); [|lia]. assert (c = ncpu) as -> by lia. congruence.
  - exists ncpu. repeat split; try done; try lia.
    unfold cpus_passed. rewrite Z.leb_refl. lia.
  - rewrite int_add_1 by lia.
    assert (c <> ncpu) as Hne by congruence.
    destruct (Z.geb_spec (ncpu + 1) online) as [Hw|Hw].
    + destruct (IH fuel 0 ltac:(lia) Hc Hset) as (c' & Hl & Hs & Hr & Hp); [|lia|].
      { destruct (Z.leb_spec 0 c), (Z.leb_spec ncpu c); lia. }
      exists c'. repeat split; try done; try lia.
      intros k Hk. assert (c' <> ncpu) as Hne' by congruence.
      unfold cpus_passed in Hk. destruct (Z.leb_spec ncpu c'); [lia|].
      destruct (decide (k = ncpu)) as [->|Hkn]; [done|].
      apply Hp. unfold cpus_passed. destruct (Z.leb_spec 0 c'); lia.
    + destruct (IH fuel (ncpu + 1) ltac:(lia) Hc Hset) as (c' & Hl & Hs & Hr & Hp); [|lia|].
      { destruct (Z.leb_spec (ncpu + 1) c), (Z.leb_spec ncpu c); lia. }
      exists c'. repeat split; try done; try lia.
      intros k Hk. assert (c' <> ncpu) as Hne' by congruence.
      destruct (decide (k = ncpu)) as [->|Hkn]; [done|].
      apply Hp. unfold cpus_passed in *.
      destruct (Z.leb_spec ncpu c'), (Z.leb_spec (ncpu + 1) c'); lia.
Qed.

(** With no cpu of the set below [online], nor at the start of the
    search, the loop goes on for ever. *)
Lemma next_cpu_loop_spins fuel ncpu :
  (forall k, 0 <= k < Z.max online 1 -> CPU_ISSET k set = false) ->
  0 <= ncpu < CInt.INT_MAX -> CPU_ISSET ncpu set = false ->
  next_cpu_loop fuel online set ncpu = None.
Proof.
  intros Hnone. revert ncpu. induction fuel as [|fuel IH]; intros ncpu Hn E; [done|].
  cbn [next_cpu_loop]. rewrite E, int_add_1 by lia.
  destruct (Z.geb_spec (ncpu + 1) online) as [Hw|Hw].
  - apply IH; [unfold CInt.INT_MAX; lia|]. apply Hnone. lia.
  - apply IH; [lia|]. apply Hnone. lia.
Qed.

End NextCpu.

Section NextCpus.

Lemma AffinityGetNextCPU_set fuel online taf :
  online <= CInt.INT_MAX -> 0 <= lcpu taf < online ->
  CPU_ISSET (lcpu taf) (cpu_set taf) = true ->
  AffinityGetNextCPU (S fuel) online taf =
  Some (lcpu taf, set_lcpu taf ((lcpu taf + 1) mod online)).
Proof.
  intros Ho Hl Hs. unfold AffinityGetNextCPU. cbn [next_cpu_loop]. rewrite Hs.
  rewrite int_add_1 by lia. do 3 f_equal.
  destruct (Z.geb_spec (lcpu taf + 1) online).
  - assert (lcpu taf + 1 = online) as -> by lia. by rewrite Z_mod_same_full.
  - by rewrite Z.mod_small by lia.
Qed.

Lemma next_cpus_all_set n fuel online taf :
  online <= CInt.INT_MAX -> 0 <= lcpu taf < online ->
  (forall k, 0 <= k < online -> CPU_ISSET k (cpu_set taf) = true) ->
  next_cpus n (S fuel) online taf =
  Some (map (fun j => (lcpu taf + Z.of_nat j) mod online) (seq 0 n)).
Proof.
  intros Ho. revert taf. induction n as [|n IH]; intros taf Hl Hall; [done|].
  cbn [next_cpus]. rewrite AffinityGetNextCPU_set by auto.
  rewrite IH; [|cbn [lcpu set_lcpu]; apply Z.mod_pos_bound; lia|exact Hall].
  cbn [seq map fmap option_fmap option_map lcpu set_lcpu]. f_equal.
  rewrite Z.add_0_r, (Z.mod_small (lcpu taf)) by lia. f_equal.
  rewrite <- seq_shift, map_map. apply map_ext. intros j.
  rewrite Zplus_mod_idemp_l. f_equal. lia.
Qed.

End NextCpus.

(** * The cpu affinity code: what the functions do *)

(** X1: [GetAffinityTypeFromName] returns the first of the [MAX_CPU_SET]
    entries of the table whose name is the one asked for, and NULL only
    when none of them has that name. *)
Theorem GetAffinityTypeFromName_first_match (tbl : list ThreadsAffinityType)
    (nm : string) :
  (forall i taf,
      GetAffinityTypeFromName tbl nm = Some (i, taf) ->
      (i < MAX_CPU_SET)%nat /\ tbl !! i = Some taf /\ name taf = nm /\
      forall j taf', (j < i)%nat -> tbl !! j = Some taf' -> name taf' <> nm) /\
  (GetAffinityTypeFromName tbl nm = None ->
   forall i taf, (i < MAX_CPU_SET)%nat -> tbl !! i = Some taf -> name taf <> nm).
Proof.
  split.
  - intros i taf. apply GetAffinityTypeFromName_Some.
  - apply GetAffinityTypeFromName_None.
Qed.

(** The detect family is the fourth entry of the table; no family is
    called worker_cpu_set. *)
Lemma GetAffinityTypeFromName_first_match_witness :
  ((3 < MAX_CPU_SET)%nat /\
   thread_affinity !! 3%nat = Some (affinity_init "detect_cpu_set" EXCLUSIVE_AFFINITY) /\
   name (affinity_init "detect_cpu_set" EXCLUSIVE_AFFINITY) = "detect_cpu_set"%string /\
   forall j taf', (j < 3)%nat -> thread_affinity !! j = Some taf' ->
                  name taf' <> "detect_cpu_set"%string) /\
  (forall i taf, (i < MAX_CPU_SET)%nat -> thread_affinity !! i = Some taf ->
                 name taf <> "worker_cpu_set"%string).
Proof.
  split.
  - apply (proj1 (GetAffinityTypeFromName_first_match thread_affinity "detect_cpu_set")).
    reflexivity.
  - apply (proj2 (GetAffinityTypeFromName_first_match thread_affinity "worker_cpu_set")).
    reflexivity.
Defined.

(** X2: the eight families of [thread_affinity] have names of their
    own: whatever the number of cpus [AffinitySetupInit] has set the
    table up with, the name of an entry finds that entry. *)
Theorem thread_affinity_name_finds_entry (ncpu : Z) (i : nat)
    (taf : ThreadsAffinityType) :
  AffinitySetupInit ncpu thread_affinity !! i = Some taf ->
  GetAffinityTypeFromName (AffinitySetupInit ncpu thread_affinity) (name taf) =
  Some (i, taf).
Proof.
  rewrite AffinitySetupInit_lookup, GetAffinityTypeFromName_AffinitySetupInit.
  case_decide as Hi.
  - destruct (thread_affinity !! i) as [taf0|] eqn:E; [|done].
    intros [= <-]. change (name (set_cpu_set taf0 _)) with (name taf0).
    by rewrite (thread_affinity_found i taf0 E).
  - intros H. apply lookup_lt_Some in H. simpl in H. unfold MAX_CPU_SET in Hi. lia.
Qed.

(** The detect family after a set-up with four cpus. *)
Lemma thread_affinity_name_finds_entry_witness :
  GetAffinityTypeFromName (AffinitySetupInit 4 thread_affinity) "detect_cpu_set" =
  Some (3%nat, set_cpu_set (affinity_init "detect_cpu_set" EXCLUSIVE_AFFINITY) 15).
Proof.
  apply (thread_affinity_name_finds_entry 4 3
           (set_cpu_set (affinity_init "detect_cpu_set" EXCLUSIVE_AFFINITY) 15)).
  reflexivity.
Defined.

(** X3: [AffinitySetupInit] gives every family of the table the cpus
    from 0 up to the number of cpus configured, as far as the mask
    reaches, and no other cpu; it changes no other field. *)
Theorem AffinitySetupInit_all_cpus (ncpu : Z) (tbl : list ThreadsAffinityType)
    (i : nat) (taf : ThreadsAffinityType) :
  (i < MAX_CPU_SET)%nat -> tbl !! i = Some taf ->
  exists cpus,
    AffinitySetupInit ncpu tbl !! i = Some (set_cpu_set taf cpus) /\
    forall k, CPU_ISSET k cpus = bool_decide (0 <= k < Z.min ncpu CPU_SETSIZE).
Proof.
  intros Hi Hl. eexists. split.
  - rewrite AffinitySetupInit_lookup, decide_True by done. by rewrite Hl.
  - intros k. rewrite CPU_ISSET_set_cpus, CPU_ISSET_CPU_ZERO, orb_false_r.
    unfold in_mask. apply eq_true_iff_eq.
    rewrite !andb_true_iff, bool_decide_eq_true, !Z.leb_le, !Z.ltb_lt. lia.
Qed.

(** The receive family, set up with two cpus. *)
Lemma AffinitySetupInit_all_cpus_witness :
  exists cpus,
    AffinitySetupInit 2 thread_affinity !! 0%nat =
      Some (set_cpu_set (affinity_init "receive_cpu_set" EXCLUSIVE_AFFINITY) cpus) /\
    forall k, CPU_ISSET k cpus = bool_decide (0 <= k < Z.min 2 CPU_SETSIZE).
Proof.
  apply (AffinitySetupInit_all_cpus 2 thread_affinity 0).
  - unfold MAX_CPU_SET. lia.
  - reflexivity.
Defined.

(** X4: when the set of a family holds a cpu below the number of cpus
    online and [lcpu] is below that number, [AffinityGetNextCPU]
    returns: its loop ends within as many tests as there are cpus
    online.  The cpu returned is in the set and is the first one from
    [lcpu] on, turning round at the number of cpus online; [lcpu] is
    left at the cpu after it, again below the number of cpus online. *)
Theorem AffinityGetNextCPU_returns (fuel : nat) (online : Z)
    (taf : ThreadsAffinityType) (c : Z) :
  online <= CInt.INT_MAX ->
  0 <= lcpu taf < online ->
  0 <= c < online -> CPU_ISSET c (cpu_set taf) = true ->
  (Z.to_nat online <= fuel)%nat ->
  exists c' taf',
    AffinityGetNextCPU fuel online taf = Some (c', taf') /\
    CPU_ISSET c' (cpu_set taf) = true /\ 0 <= c' < online /\
    (forall k, cpus_passed online (lcpu taf) c' k -> CPU_ISSET k (cpu_set taf) = false) /\
    taf' = set_lcpu taf (lcpu taf') /\
    lcpu taf' = (c' + 1) mod online /\ 0 <= lcpu taf' < online.
Proof.
  intros Ho Hl Hc Hs Hf.
  set (d := Z.to_nat (if lcpu taf <=? c then c - lcpu taf else c - lcpu taf + online)).
  destruct (next_cpu_loop_finds online (cpu_set taf) Ho d fuel (lcpu taf) c)
    as (c' & Hloop & Hs' & Hr & Hp); try done.
  { unfold d. destruct (Z.leb_spec (lcpu taf) c); lia. }
  { unfold d. destruct (Z.leb_spec (lcpu taf) c); lia. }
  unfold AffinityGetNextCPU. rewrite Hloop. do 2 eexists. split; [reflexivity|].
  rewrite int_add_1 by lia. cbn [lcpu set_lcpu]. repeat split; try done; try lia.
  - destruct (Z.geb_spec (c' + 1) online).
    + assert (c' + 1 = online) as -> by lia. by rewrite Z_mod_same_full.
    + by rewrite Z.mod_small by lia.
  - destruct (Z.geb_spec (c' + 1) online); lia.
  - destruct (Z.geb_spec (c' + 1) online); lia.
Qed.

(** A family with the cpus 1 and 3 on a machine of four cpus, asked
    from cpu 2 on: cpu 3 is returned and [lcpu] turns round to 0. *)
Lemma AffinityGetNextCPU_returns_witness :
  exists c' taf',
    AffinityGetNextCPU 4 4
      (set_lcpu (set_cpu_set (affinity_init "detect_cpu_set" EXCLUSIVE_AFFINITY) 10) 2)
      = Some (c', taf') /\
    CPU_ISSET c' 10 = true /\ 0 <= c' < 4 /\
    (forall k, cpus_passed 4 2 c' k -> CPU_ISSET k 10 = false) /\
    taf' = set_lcpu
             (set_lcpu (set_cpu_set (affinity_init "detect_cpu_set" EXCLUSIVE_AFFINITY) 10) 2)
             (lcpu taf') /\
    lcpu taf' = (c' + 1) mod 4 /\ 0 <= lcpu taf' < 4.
Proof.
  apply (AffinityGetNextCPU_returns 4 4
           (set_lcpu (set_cpu_set (affinity_init "detect_cpu_set" EXCLUSIVE_AFFINITY) 10) 2)
           1).
  - unfold CInt.INT_MAX. lia.
  - simpl. lia.
  - lia.
  - reflexivity.
  - simpl. lia.
Defined.

(** X5: when the set of a family holds no cpu below the number of cpus
    online (nor cpu 0, nor the cpu [lcpu] stands at), the loop of
    [AffinityGetNextCPU] never ends: whatever the number of tests
    allowed, the call has not returned. *)
Theorem AffinityGetNextCPU_never_returns (fuel : nat) (online : Z)
    (taf : ThreadsAffinityType) :
  online <= CInt.INT_MAX ->
  0 <= lcpu taf < CInt.INT_MAX ->
  (forall k, 0 <= k < Z.max online 1 -> CPU_ISSET k (cpu_set taf) = false) ->
  CPU_ISSET (lcpu taf) (cpu_set taf) = false ->
  AffinityGetNextCPU fuel online taf = None.
Proof.
  intros Ho Hl Hnone Hs. unfold AffinityGetNextCPU.
  by rewrite next_cpu_loop_spins.
Qed.

(** A family whose only cpu is cpu 8, on a machine of four cpus. *)
Lemma AffinityGetNextCPU_never_returns_witness :
  AffinityGetNextCPU 1000 4
    (set_cpu_set (affinity_init "detect_cpu_set" EXCLUSIVE_AFFINITY) 256) = None.
Proof.
  apply (AffinityGetNextCPU_never_returns 1000 4
           (set_cpu_set (affinity_init "detect_cpu_set" EXCLUSIVE_AFFINITY) 256)).
  - unfold CInt.INT_MAX. lia.
  - unfold CInt.INT_MAX. simpl. lia.
  - intros k Hk.
    assert (k = 0 \/ k = 1 \/ k = 2 \/ k = 3) as [->|[->|[->| ->]]] by lia; reflexivity.
  - reflexivity.
Defined.

(** X6: after [AffinitySetupInit] with at least as many cpus configured
    as are online, successive calls of [AffinityGetNextCPU] on a family
    hand out the cpus online in turn, each call with a single test of
    its loop: the call number [j] returns cpu [(lcpu + j) mod online]. *)
Theorem AffinitySetupInit_round_robin (ncpu online : Z)
    (tbl : list ThreadsAffinityType) (i : nat) (taf : ThreadsAffinityType)
    (n fuel : nat) :
  (i < MAX_CPU_SET)%nat ->
  AffinitySetupInit ncpu tbl !! i = Some taf ->
  online <= ncpu -> online <= CPU_SETSIZE ->
  0 <= lcpu taf < online ->
  (0 < fuel)%nat ->
  next_cpus n fuel online taf =
  Some (map (fun j => (lcpu taf + Z.of_nat j) mod online) (seq 0 n)).
Proof.
  intros Hi Hl Hn Hm Hlc Hf. destruct fuel as [|fuel]; [lia|].
  rewrite AffinitySetupInit_lookup, decide_True in Hl by done.
  destruct (tbl !! i) as [taf0|] eqn:E; [|done]. injection Hl as <-.
  apply next_cpus_all_set; [unfold CInt.INT_MAX, CPU_SETSIZE in *; lia|done|].
  intros k Hk. cbn [cpu_set set_cpu_set].
  rewrite CPU_ISSET_set_cpus, CPU_ISSET_CPU_ZERO, orb_false_r.
  unfold in_mask. rewrite !andb_true_iff, !Z.leb_le, !Z.ltb_lt. lia.
Qed.

(** The stream family on a machine of four cpus, all configured: seven
    calls in a row. *)
Lemma AffinitySetupInit_round_robin_witness :
  next_cpus 7 1 4
    (set_cpu_set (affinity_init "stream_cpu_set" BALANCED_AFFINITY) 15) =
  Some [0; 1; 2; 3; 0; 1; 2].
Proof.
  apply (AffinitySetupInit_round_robin 4 4 thread_affinity 2
           (set_cpu_set (affinity_init "stream_cpu_set" BALANCED_AFFINITY) 15) 7 1).
  - unfold MAX_CPU_SET. lia.
  - reflexivity.
  - lia.
  - unfold CPU_SETSIZE. lia.
  - simpl. lia.
  - lia.
Defined.

(** ** strtoul and strtol *)

Section Strto.


Lemma to_long_small z : CInt.LONG_MIN <= z <= CInt.LONG_MAX -> Strto.to_long z = z.
Proof.
  unfold Strto.to_long, CInt.LONG_MIN, CInt.LONG_MAX. intros H.
  rewrite Z.mod_small by lia. lia.
Qed.

Lemma digits_len_all d :
  Forall (fun a => is_digit a = true) d -> Strto.digits_len d = List.length d.
Proof. induction 1 as [|a d Ha Hd IH]; simpl; [done|]. by rewrite Ha, IH. Qed.

Lemma digits_len_app d c rest :
  Forall (fun a => is_digit a = true) d -> is_digit c = false ->
  Strto.digits_len (d ++ c :: rest) = List.length d.
Proof.
  intros Hd Hc. induction Hd as [|a d Ha Hd IH]; simpl; [by rewrite Hc|].
  by rewrite Ha, IH.
Qed.

Lemma digits_app d c rest acc :
  Forall (fun a => is_digit a = true) d -> is_digit c = false ->
  digits acc (d ++ c :: rest) = digits acc d.
Proof.
  intros Hd Hc. revert acc. induction Hd as [|a d Ha Hd IH]; intros acc; simpl.
  - by rewrite Hc.
  - by rewrite Ha, IH.
Qed.

Lemma skip_space_app ws s :
  Forall (fun a => isspace a = true) ws ->
  skip_space (ws ++ s) = skip_space s.
Proof. induction 1 as [|a ws Ha Hw IH]; simpl; [done|]. by rewrite Ha. Qed.

Lemma skip_space_length s : (List.length (skip_space s) <= List.length s)%nat.
Proof.
  induction s as [|a s IH]; simpl; [lia|]. destruct (isspace a); simpl; lia.
Qed.

(** What [skip_space] has skipped is white space. *)
Lemma skip_space_split s :
  exists ws, s = ws ++ skip_space s /\ Forall (fun a => isspace a = true) ws.
Proof.
  induction s as [|a s (ws & E & Hw)]; simpl; [by exists []|].
  destruct (isspace a) eqn:Ha.
  - exists (a :: ws). split; [by rewrite <- app_comm_cons, <- E|by constructor].
  - by exists [].
Qed.

(** The digits [digits_len] has counted. *)
Lemma digits_len_split s :
  Forall (fun a => is_digit a = true) (take (Strto.digits_len s) s) /\
  digits 0 s = digits 0 (take (Strto.digits_len s) s).
Proof.
  assert (forall acc,
    Forall (fun a => is_digit a = true) (take (Strto.digits_len s) s) /\
    digits acc s = digits acc (take (Strto.digits_len s) s)) as H; [|apply H].
  induction s as [|a s IH]; intros acc; simpl; [by split|].
  destruct (is_digit a) eqn:Ha; simpl; [|by split].
  rewrite Ha. destruct (IH (10 * acc + digit_val a)) as [H1 H2].
  split; [by constructor|done].
Qed.

(** The scan of white space, an optional sign and a digit string, with
    anything but a digit after it. *)
Lemma scan_number ws (sign : list ascii) d rest :
  Forall (fun a => isspace a = true) ws ->
  sign = [] \/ sign = ["+"%char] \/ sign = ["-"%char] ->
  digit_string d ->
  match rest with [] => True | c :: _ => is_digit c = false end ->
  Strto.scan (ws ++ sign ++ d ++ rest) =
  (List.length (ws ++ sign ++ d), bool_decide (sign = ["-"%char]), decimal d).
Proof.
  intros Hw Hsign [Hne Hd] Hrest. unfold Strto.scan.
  rewrite skip_space_app by done.
  destruct d as [|a d]; [done|]. inversion Hd as [|? ? Ha Hd']; subst.
  destruct (is_digit_cases a Ha) as (_ & Hsp & _ & Hm & Hp & _).
  assert (Strto.digits_len ((a :: d) ++ rest) = S (List.length d) /\
          digits 0 ((a :: d) ++ rest) = decimal (a :: d)) as [Hlen Hval].
  { destruct rest as [|c rest].
    - rewrite app_nil_r. split; [by rewrite digits_len_all|done].
    - split; [by rewrite digits_len_app|by rewrite digits_app]. }
  assert (forall n m : nat, (n + m - m = n)%nat) as Hsub by lia.
  destruct Hsign as [->|[->| ->]]; cbn [app skip_space].
  - rewrite Hsp. rewrite Hm, Hp. rewrite !app_comm_cons, Hlen, Hval.
    rewrite bool_decide_eq_false_2 by done. do 2 f_equal.
    rewrite ?length_app. cbn [List.length app]. rewrite ?length_app. simpl. lia.
  - change (isspace "+") with false. cbv iota.
    change (Ascii.eqb "+" "-") with false. change (Ascii.eqb "+" "+") with true. cbv iota.
    rewrite !app_comm_cons, Hlen, Hval.
    rewrite bool_decide_eq_false_2 by done. do 2 f_equal.
    rewrite ?length_app. cbn [List.length app]. rewrite ?length_app. simpl. lia.
  - change (isspace "-") with false. cbv iota.
    change (Ascii.eqb "-" "-") with true. cbv iota.
    rewrite !app_comm_cons, Hlen, Hval.
    rewrite bool_decide_eq_true_2 by done. do 2 f_equal.
    rewrite ?length_app. cbn [List.length app]. rewrite ?length_app. simpl. lia.
Qed.

(** The shape of what the scan has read when it has read something. *)
Lemma scan_shape s e neg m :
  Strto.scan s = (e, neg, m) ->
  e = 0%nat \/
  exists ws sign d,
    take e s = ws ++ sign ++ d /\ (e <= List.length s)%nat /\
    Forall (fun a => isspace a = true) ws /\
    (sign = [] \/ sign = ["+"%char] \/ sign = ["-"%char]) /\
    digit_string d.
Proof.
  unfold Strto.scan. destruct (skip_space_split s) as (ws & E & Hw).
  pose proof (skip_space_length s) as Hlen.
  destruct (skip_space s) as [|a body] eqn:Hb; [intros [= <- _ _]; by left|].
  assert (List.length s - List.length (a :: body) = List.length ws)%nat as ->.
  { rewrite E at 1. rewrite length_app. lia. }
  assert (forall sign ds,
    a :: body = sign ++ ds ->
    (sign = [] \/ sign = ["+"%char] \/ sign = ["-"%char]) ->
    forall n, Strto.digits_len ds = S n ->
    exists ws0 sign0 d,
      take (List.length ws + List.length sign + S n) s = ws0 ++ sign0 ++ d /\
      (List.length ws + List.length sign + S n <= List.length s)%nat /\
      Forall (fun a => isspace a = true) ws0 /\
      (sign0 = [] \/ sign0 = ["+"%char] \/ sign0 = ["-"%char]) /\
      digit_string d) as Hshape.
  { intros sign ds Eb Hsign n Hn.
    destruct (digits_len_split ds) as [Hd _]. rewrite Hn in Hd.
    assert (S n <= List.length ds)%nat as Hle.
    { clear -Hn. revert n Hn. induction ds as [|c ds IH]; intros n; simpl; [done|].
      destruct (is_digit c); [|done]. intros [= <-].
      destruct (Strto.digits_len ds) eqn:E'; [lia|]. specialize (IH _ eq_refl). lia. }
    exists ws, sign, (take (S n) ds). repeat split; try done.
    - rewrite E, Eb. rewrite <- Nat.add_assoc.
      rewrite take_app_add'; [|done]. f_equal.
      rewrite take_app_add'; done.
    - rewrite E, Eb, !length_app. lia.
    - destruct ds; [simpl in Hle; lia|done]. }
  destruct (Ascii.eqb_spec a "-") as [->|Hm'].
  - destruct (Strto.digits_len body) as [|n] eqn:Hn; [intros [= <- _ _]; by left|].
    intros [= <- _ _]. right.
    apply (Hshape ["-"%char] body); [done|by right; right|done].
  - destruct (Ascii.eqb_spec a "+") as [->|Hp'].
    + destruct (Strto.digits_len body) as [|n] eqn:Hn; [intros [= <- _ _]; by left|].
      intros [= <- _ _]. right.
      apply (Hshape ["+"%char] body); [done|by right; left|done].
    + destruct (Strto.digits_len (a :: body)) as [|n] eqn:Hn; [intros [= <- _ _]; by left|].
      intros [= <- _ _]. right.
      replace (List.length ws + 0 + S n)%nat
        with (List.length ws + List.length (@nil ascii) + S n)%nat by done.
      apply (Hshape [] (a :: body)); [done|by left|done].
Qed.

Lemma index_None s c : Strto.index s c = None <-> c ∉ s.
Proof.
  induction s as [|a s IH]; simpl.
  - split; [intros _; apply not_elem_of_nil|done].
  - rewrite not_elem_of_cons. destruct (Ascii.eqb_spec a c) as [->|Hne].
    + split; [done|]. intros [? _]. done.
    + destruct (Strto.index s c); simpl.
      * split; [done|]. intros [_ H]. by apply IH in H.
      * split; [|done]. intros _. split; [congruence|by apply IH].
Qed.


Lemma digit_string_no_minus d : digit_string d -> "-"%char ∉ d.
Proof.
  intros [_ Hd] Hin. rewrite Forall_forall in Hd. by specialize (Hd _ Hin).
Qed.

End Strto.

(** ** build_cpuset *)

(** A character is not among the few of a list written out. *)
Ltac not_among H := apply list_elem_of_In in H; simpl in H; intuition discriminate.

Section BuildCpuset.

(** Below [INT_MAX] the loop runs once for each cpu from [i] to [b]. *)
Lemma set_cpu_range_runs n fuel i b cpu :
  CInt.INT_MIN <= i -> b < CInt.INT_MAX ->
  Z.of_nat n = Z.max 0 (b - i + 1) -> (n < fuel)%nat ->
  set_cpu_range fuel i b cpu = Some (set_cpus n i cpu).
Proof.
  revert fuel i cpu. induction n as [|n IH]; intros fuel i cpu Hi Hb Hn Hf;
    (destruct fuel as [|fuel]; [lia|]); cbn [set_cpu_range set_cpus].
  - destruct (Z.leb_spec i b); [lia|done].
  - destruct (Z.leb_spec i b); [|lia].
    assert (CInt.int_add i 1 = i + 1) as ->.
    { unfold CInt.int_add. apply to_int_small. lia. }
    apply IH; lia.
Qed.


Lemma set_cpu_range_keeps fuel i b cpu cpu' k :
  set_cpu_range fuel i b cpu = Some cpu' ->
  CPU_ISSET k cpu = true -> CPU_ISSET k cpu' = true.
Proof.
  revert i cpu. induction fuel as [|fuel IH]; intros i cpu; [done|].
  cbn [set_cpu_range]. destruct (i <=? b); [|by intros [= <-]].
  intros H Hk. apply (IH _ _ H). rewrite CPU_ISSET_CPU_SET, Hk. apply orb_true_r.
Qed.

Lemma build_cpuset_fill_keeps fuel a b stop cpu cpu' stop' k :
  build_cpuset_fill fuel a b stop cpu = Done (cpu', stop') ->
  CPU_ISSET k cpu = true -> CPU_ISSET k cpu' = true.
Proof.
  unfold build_cpuset_fill.
  destruct (set_cpu_range fuel (CInt.to_int a) b cpu) as [c|] eqn:E; [|done].
  intros [= <- _]. by apply (set_cpu_range_keeps _ _ _ _ _ _ E).
Qed.

Lemma build_cpuset_node_keeps fuel online val cpu cpu' stop k :
  build_cpuset_node fuel online val cpu = Done (cpu', stop) ->
  CPU_ISSET k cpu = true -> CPU_ISSET k cpu' = true.
Proof.
  unfold build_cpuset_node.
  repeat (case_match; try done); apply build_cpuset_fill_keeps.
Qed.

Lemma build_cpuset_cons fuel online val rest cpu :
  build_cpuset fuel online (val :: rest) cpu =
  match build_cpuset_node fuel online (list_ascii_of_string val) cpu with
  | Exit => Exit
  | Unfinished => Unfinished
  | Done (cpu', stop) => if stop then Done cpu' else build_cpuset fuel online rest cpu'
  end.
Proof.
  cbn [build_cpuset]. unfold mbind, outcome_bind.
  by destruct (build_cpuset_node _ _ _ _) as [| |[? ?]].
Qed.

Lemma number_not_all ws (sign : list ascii) d :
  Forall (fun a => isspace a = true) ws ->
  sign = [] \/ sign = ["+"%char] \/ sign = ["-"%char] ->
  Forall (fun a => is_digit a = true) d ->
  ws ++ sign ++ d <> list_ascii_of_string "all".
Proof.
  intros Hw Hsign Hd E.
  assert ("a"%char ∈ ws ++ sign ++ d) as Hin by (rewrite E; apply list_elem_of_here).
  rewrite !elem_of_app in Hin. rewrite Forall_forall in Hw, Hd.
  destruct Hin as [Hin|[Hin|Hin]].
  - by specialize (Hw _ Hin).
  - destruct Hsign as [->|[->| ->]]; not_among Hin.
  - by specialize (Hd _ Hin).
Qed.

(** A value that is a number, after white space and a plus sign if any:
    the loop fills from the number to the number. *)
Lemma build_cpuset_node_number fuel online ws (sign : list ascii) d cpu :
  Forall (fun a => isspace a = true) ws ->
  sign = [] \/ sign = ["+"%char] ->
  digit_string d -> decimal d <= CInt.LONG_MAX ->
  build_cpuset_node fuel online (ws ++ sign ++ d) cpu =
  build_cpuset_fill fuel (decimal d) (decimal d) false cpu.
Proof.
  intros Hw Hsign Hd Hmax. pose proof (decimal_nonneg d Hd) as H0.
  unfold build_cpuset_node.
  rewrite bool_decide_eq_false_2
    by (apply number_not_all; [done|destruct Hsign; auto|apply Hd]).
  assert (Strto.index (ws ++ sign ++ d) "-" = None) as ->.
  { apply index_None. rewrite !elem_of_app. rewrite Forall_forall in Hw.
    intros [Hin|[Hin|Hin]].
    - by specialize (Hw _ Hin).
    - destruct Hsign as [-> | ->]; not_among Hin.
    - by apply (digit_string_no_minus d Hd). }
  unfold Strto.strtoul.
  pose proof (scan_number ws sign d [] Hw) as Hscan.
  rewrite app_nil_r in Hscan. rewrite Hscan; [|destruct Hsign; auto|done|done].
  rewrite bool_decide_eq_false_2 by (destruct Hsign as [-> | ->]; done).
  unfold Strto.ULONG_MAX, CInt.LONG_MAX in *.
  destruct (Z.gtb_spec (decimal d) 18446744073709551615); [lia|].
  rewrite Nat.eqb_refl. cbn [negb].
  rewrite to_long_small by (unfold CInt.LONG_MIN, CInt.LONG_MAX; lia). done.
Qed.

End BuildCpuset.

(** X7: [build_cpuset] only adds cpus: a cpu in the set handed to it is
    in the set it leaves. *)
Theorem build_cpuset_never_clears (fuel : nat) (online : Z) (vals : list string)
    (cpu cpu' k : Z) :
  build_cpuset fuel online vals cpu = Done cpu' ->
  CPU_ISSET k cpu = true -> CPU_ISSET k cpu' = true.
Proof.
  revert cpu. induction vals as [|val rest IH]; intros cpu; [by intros [= <-]|].
  rewrite build_cpuset_cons.
  destruct (build_cpuset_node _ _ _ _) as [| |[c stop]] eqn:E; [done..|].
  intros H Hk. pose proof (build_cpuset_node_keeps _ _ _ _ _ _ _ E Hk) as Hc.
  destruct stop; [by injection H as <-|]. by apply (IH c).
Qed.

(** Cpu 0, set before the list [1, 3-5] is read, is set after it. *)
Lemma build_cpuset_never_clears_witness :
  build_cpuset 10 4 ["1"; "3-5"]%string 1 = Done 59 /\ CPU_ISSET 0 59 = true.
Proof.
  split; [reflexivity|].
  apply (build_cpuset_never_clears 10 4 ["1"; "3-5"]%string 1 59 0); reflexivity.
Defined.

(** X8: the value [all] adds the cpus from 0 up to the number of cpus
    online, as far as the mask reaches, and ends the list: the values
    after it are not read, not even to be checked. *)
Theorem build_cpuset_all (fuel : nat) (online : Z) (rest : list string) (cpu : Z) :
  online <= CInt.INT_MAX -> (Z.to_nat online < fuel)%nat ->
  exists cpu',
    build_cpuset fuel online ("all"%string :: rest) cpu = Done cpu' /\
    forall k, CPU_ISSET k cpu' =
              CPU_ISSET k cpu || bool_decide (0 <= k < Z.min online CPU_SETSIZE).
Proof.
  intros Ho Hf. rewrite build_cpuset_cons. unfold build_cpuset_node.
  rewrite bool_decide_eq_true_2 by done. unfold build_cpuset_fill.
  rewrite (set_cpu_range_runs (Z.to_nat online)); [|done|lia| |done].
  - eexists. split; [reflexivity|]. intros k.
    rewrite CPU_ISSET_set_cpus, orb_comm. f_equal. unfold in_mask.
    apply eq_true_iff_eq.
    rewrite !andb_true_iff, bool_decide_eq_true, !Z.leb_le, !Z.ltb_lt.
    change (CInt.to_int 0) with 0. lia.
  - change (CInt.to_int 0) with 0. lia.
Qed.

(** Four cpus online; the value after [all] is no cpu list at all. *)
Lemma build_cpuset_all_witness :
  exists cpu',
    build_cpuset 5 4 ["all"; "x"]%string 0 = Done cpu' /\
    forall k, CPU_ISSET k cpu' =
              CPU_ISSET k 0 || bool_decide (0 <= k < Z.min 4 CPU_SETSIZE).
Proof.
  apply (build_cpuset_all 5 4 ["x"%string] 0).
  - unfold CInt.INT_MAX. lia.
  - simpl. lia.
Defined.

(** X9: a value that writes a number below [INT_MAX] in decimal digits,
    after white space and a plus sign if there are any, adds the cpu of
    that number and the list goes on; a number from [CPU_SETSIZE] on
    adds nothing and is not reported. *)
Theorem build_cpuset_number (fuel : nat) (online : Z) (ws sign d : list ascii)
    (rest : list string) (cpu : Z) :
  Forall (fun a => isspace a = true) ws ->
  sign = [] \/ sign = ["+"%char] ->
  digit_string d -> decimal d < CInt.INT_MAX ->
  (1 < fuel)%nat ->
  build_cpuset fuel online (string_of_list_ascii (ws ++ sign ++ d) :: rest) cpu =
    build_cpuset fuel online rest (CPU_SET (decimal d) cpu) /\
  (CPU_SETSIZE <= decimal d -> CPU_SET (decimal d) cpu = cpu).
Proof.
  intros Hw Hsign Hd Hmax Hf. pose proof (decimal_nonneg d Hd) as H0. split.
  - rewrite build_cpuset_cons, list_ascii_of_string_of_list_ascii.
    rewrite build_cpuset_node_number; [|done..|unfold CInt.INT_MAX, CInt.LONG_MAX in *; lia].
    unfold build_cpuset_fill.
    rewrite to_int_small by (unfold CInt.INT_MIN, CInt.INT_MAX in *; lia).
    rewrite (set_cpu_range_runs 1); [done|unfold CInt.INT_MIN; lia|done|lia|lia].
  - intros Hbig. unfold CPU_SET, in_mask.
    destruct (Z.ltb_spec (decimal d) CPU_SETSIZE); [lia|]. by rewrite andb_false_r.
Qed.

(** The values [ 7], [+9] and [2000]. *)
Lemma build_cpuset_number_witness :
  (build_cpuset 2 4 [" 7"%string] 0 = build_cpuset 2 4 [] (CPU_SET 7 0) /\
   (CPU_SETSIZE <= 7 -> CPU_SET 7 0 = 0)) /\
  (build_cpuset 2 4 ["+9"%string] 0 = build_cpuset 2 4 [] (CPU_SET 9 0) /\
   (CPU_SETSIZE <= 9 -> CPU_SET 9 0 = 0)) /\
  (build_cpuset 2 4 ["2000"%string] 0 = build_cpuset 2 4 [] (CPU_SET 2000 0) /\
   (CPU_SETSIZE <= 2000 -> CPU_SET 2000 0 = 0)).
Proof.
  split; [|split].
  - apply (build_cpuset_number 2 4 [" "%char] [] ["7"%char] [] 0).
    + repeat constructor.
    + by left.
    + split; [done|repeat constructor].
    + reflexivity.
    + lia.
  - apply (build_cpuset_number 2 4 [] ["+"%char] ["9"%char] [] 0).
    + constructor.
    + by right.
    + split; [done|repeat constructor].
    + reflexivity.
    + lia.
  - apply (build_cpuset_number 2 4 [] [] (list_ascii_of_string "2000") [] 0).
    + constructor.
    + by left.
    + split; [done|repeat constructor].
    + reflexivity.
    + lia.
Defined.





(** X12: of the values without a minus sign, other than [all], the
    program exits on every one that is not white space, a plus sign if
    any, and then decimal digits to the end; the empty value is the one
    exception. *)
Theorem build_cpuset_malformed (fuel : nat) (online : Z) (val : list ascii) (cpu : Z) :
  Strto.index val "-" = None ->
  val <> list_ascii_of_string "all" ->
  build_cpuset_node fuel online val cpu <> Exit ->
  val = [] \/
  exists ws sign d,
    val = ws ++ sign ++ d /\
    Forall (fun a => isspace a = true) ws /\
    (sign = [] \/ sign = ["+"%char]) /\
    digit_string d.
Proof.
  intros Hidx Hall. unfold build_cpuset_node.
  rewrite bool_decide_eq_false_2 by done. rewrite Hidx.
  unfold Strto.strtoul. destruct (Strto.scan val) as [[e neg] m] eqn:Hscan.
  destruct (Nat.eqb_spec e (List.length val)) as [He|He]; [|done]. intros _.
  destruct (scan_shape _ _ _ _ Hscan) as [->|(ws & sign & d & Ht & _ & Hw & Hsign & Hd)].
  - left. by destruct val.
  - right. rewrite He, firstn_all in Ht. exists ws, sign, d. repeat split; try done; try apply Hd.
    destruct Hsign as [->|[->| ->]]; [by left|by right|].
    apply index_None in Hidx. exfalso. apply Hidx. rewrite Ht.
    apply elem_of_app. right. apply list_elem_of_here.
Qed.

(** The value [+9], which does not make the program exit. *)
Lemma build_cpuset_malformed_witness :
  list_ascii_of_string "+9" = [] \/
  exists ws sign d,
    list_ascii_of_string "+9" = ws ++ sign ++ d /\
    Forall (fun a => isspace a = true) ws /\
    (sign = [] \/ sign = ["+"%char]) /\
    digit_string d.
Proof.
  apply (build_cpuset_malformed 5 4 (list_ascii_of_string "+9") 0).
  - reflexivity.
  - vm_compute. discriminate.
  - vm_compute. discriminate.
Defined.

(** ** AffinitySetupLoadFromConfig *)

Section LoadFromConfig.

Lemma outcome_bind_Done {A B} (f : A -> outcome B) (m : outcome A) b :
  m ≫= f = Done b -> exists a, m = Done a /\ f a = Done b.
Proof. destruct m as [| |a]; [done..|]. intros H. by exists a. Qed.

Lemma setup_prio_fields fuel online nprio taf taf' :
  setup_prio fuel online nprio taf = Done taf' ->
  name taf' = name taf /\ cpu_set taf' = cpu_set taf /\ lcpu taf' = lcpu taf.
Proof.
  unfold setup_prio. destruct nprio as [p|]; [|by intros [= <-]].
  intros H.
  apply outcome_bind_Done in H as (low & _ & H).
  apply outcome_bind_Done in H as (medium & _ & H).
  apply outcome_bind_Done in H as (high & _ & H).
  repeat case_match; try done; by injection H as <-.
Qed.

Lemma setup_mode_fields node taf taf' :
  setup_mode node taf = Done taf' ->
  name taf' = name taf /\ cpu_set taf' = cpu_set taf /\ lcpu taf' = lcpu taf.
Proof.
  unfold setup_mode. intros H. repeat case_match; try done; by injection H as <-.
Qed.

Lemma setup_threads_fields node taf taf' :
  setup_threads node taf = Done taf' ->
  name taf' = name taf /\ cpu_set taf' = cpu_set taf /\ lcpu taf' = lcpu taf.
Proof.
  unfold setup_threads. intros H. repeat case_match; try done; by injection H as <-.
Qed.

(** What a section that has been read has done to the table. *)
Lemma setup_family_Done fuel online affinity tbl tbl' :
  setup_family fuel online affinity tbl = Done tbl' ->
  exists i taf taf',
    GetAffinityTypeFromName tbl (conf_val affinity) = Some (i, taf) /\
    tbl' = <[i := taf']> tbl /\
    name taf' = name taf /\ lcpu taf' = lcpu taf /\
    build_cpuset_opt fuel online (conf_cpu affinity) = Done (cpu_set taf').
Proof.
  unfold setup_family.
  destruct (GetAffinityTypeFromName tbl (conf_val affinity)) as [[i taf]|]; [|done].
  intros H.
  apply outcome_bind_Done in H as (cpu & Hcpu & H).
  apply outcome_bind_Done in H as (taf1 & H1 & H).
  apply outcome_bind_Done in H as (taf2 & H2 & H).
  apply outcome_bind_Done in H as (taf3 & H3 & H).
  injection H as <-.
  apply setup_prio_fields in H1 as (Hn1 & Hc1 & Hl1).
  apply setup_mode_fields in H2 as (Hn2 & Hc2 & Hl2).
  apply setup_threads_fields in H3 as (Hn3 & Hc3 & Hl3).
  exists i, taf, taf3. repeat split; try done.
  - by rewrite Hn3, Hn2, Hn1.
  - by rewrite Hl3, Hl2, Hl1.
  - by rewrite Hc3, Hc2, Hc1.
Qed.

Lemma setup_family_names fuel online affinity tbl tbl' :
  setup_family fuel online affinity tbl = Done tbl' ->
  map name tbl' = map name tbl.
Proof.
  intros H. apply setup_family_Done in H as (i & taf & taf' & Hg & -> & Hn & _).
  apply GetAffinityTypeFromName_Some in Hg as (_ & Hl & _).
  change (map name (<[i:=taf']> tbl)) with (name <$> <[i:=taf']> tbl).
  rewrite list_fmap_insert, Hn. apply list_insert_id.
  by rewrite list_lookup_fmap, Hl.
Qed.

Lemma setup_family_frame fuel online affinity tbl tbl' i taf :
  setup_family fuel online affinity tbl = Done tbl' ->
  tbl !! i = Some taf -> conf_val affinity <> name taf ->
  tbl' !! i = Some taf.
Proof.
  intros H Hl Hne. apply setup_family_Done in H as (j & taf0 & taf' & Hg & -> & _).
  apply GetAffinityTypeFromName_Some in Hg as (_ & Hl0 & Hn0 & _).
  rewrite list_lookup_insert_ne; [done|]. intros ->. congruence.
Qed.

Lemma setup_families_cons fuel online affinity rest tbl tbl' :
  setup_families fuel online (affinity :: rest) tbl = Done tbl' ->
  exists tbl1,
    setup_family fuel online affinity tbl = Done tbl1 /\
    setup_families fuel online rest tbl1 = Done tbl'.
Proof. cbn [setup_families]. apply outcome_bind_Done. Qed.

Lemma setup_families_app fuel online pre post tbl tbl' :
  setup_families fuel online (pre ++ post) tbl = Done tbl' ->
  exists tbl1,
    setup_families fuel online pre tbl = Done tbl1 /\
    setup_families fuel online post tbl1 = Done tbl'.
Proof.
  revert tbl. induction pre as [|c pre IH]; intros tbl; [by exists tbl|].
  rewrite <- app_comm_cons. intros H.
  apply setup_families_cons in H as (tbl1 & H1 & H).
  destruct (IH _ H) as (tbl2 & H2 & H3). exists tbl2. split; [|done].
  cbn [setup_families]. by rewrite H1.
Qed.

Lemma setup_families_names fuel online children tbl tbl' :
  setup_families fuel online children tbl = Done tbl' ->
  map name tbl' = map name tbl.
Proof.
  revert tbl. induction children as [|c children IH]; intros tbl; [by intros [= <-]|].
  intros H. apply setup_families_cons in H as (tbl1 & H1 & H).
  rewrite (IH _ H). by apply setup_family_names in H1.
Qed.

Lemma AffinitySetupInit_names ncpu tbl :
  map name (AffinitySetupInit ncpu tbl) = map name tbl.
Proof.
  unfold AffinitySetupInit. rewrite map_app, map_map. cbn [name set_cpu_set].
  by rewrite <- map_app, take_drop.
Qed.



Lemma setup_families_frame fuel online children tbl tbl' i taf :
  setup_families fuel online children tbl = Done tbl' ->
  tbl !! i = Some taf ->
  (forall c, c ∈ children -> conf_val c <> name taf) ->
  tbl' !! i = Some taf.
Proof.
  revert tbl. induction children as [|c children IH]; intros tbl H Hl Hne.
  - by injection H as <-.
  - apply setup_families_cons in H as (tbl1 & H1 & H).
    apply (IH tbl1); [done| |].
    + apply (setup_family_frame _ _ _ _ _ _ _ H1 Hl). apply Hne. apply list_elem_of_here.
    + intros c' Hc'. apply Hne. by apply list_elem_of_further.
Qed.

(** A section with a setting the function refuses. *)
Lemma setup_family_refused fuel online c tbl tbl' :
  (exists v, conf_mode c = Some v /\ v <> "exclusive"%string /\ v <> "balanced"%string) \/
  (exists p v, conf_prio c = Some p /\ prio_default p = Some v /\
               v <> "low"%string /\ v <> "medium"%string /\ v <> "high"%string) \/
  (exists v, conf_threads c = Some v /\ atoi (list_ascii_of_string v) = 0) ->
  setup_family fuel online c tbl <> Done tbl'.
Proof.
  intros Hbad H. unfold setup_family in H.
  destruct (GetAffinityTypeFromName tbl (conf_val c)) as [[i taf]|]; [|done].
  apply outcome_bind_Done in H as (cpu & Hcpu & H).
  apply outcome_bind_Done in H as (taf1 & H1 & H).
  apply outcome_bind_Done in H as (taf2 & H2 & H).
  apply outcome_bind_Done in H as (taf3 & H3 & H).
  destruct Hbad as [(v & Hm & Hv1 & Hv2)|[(p & v & Hp & Hd & Hv1 & Hv2 & Hv3)|(v & Ht & Hv)]].
  - unfold setup_mode in H2. rewrite Hm in H2.
    destruct (String.eqb_spec v "exclusive"); [done|].
    by destruct (String.eqb_spec v "balanced").
  - unfold setup_prio in H1. rewrite Hp in H1.
    apply outcome_bind_Done in H1 as (low & _ & H1).
    apply outcome_bind_Done in H1 as (medium & _ & H1).
    apply outcome_bind_Done in H1 as (high & _ & H1).
    rewrite Hd in H1.
    destruct (String.eqb_spec v "low"); [done|].
    destruct (String.eqb_spec v "medium"); [done|].
    by destruct (String.eqb_spec v "high").
  - unfold setup_threads in H3. rewrite Ht in H3.
    cbn [nb_threads set_nb_threads] in H3. by rewrite Hv in H3.
Qed.

Lemma setup_families_refused fuel online children tbl tbl' c :
  c ∈ children ->
  (forall tbl0 tbl1, setup_family fuel online c tbl0 <> Done tbl1) ->
  setup_families fuel online children tbl <> Done tbl'.
Proof.
  intros Hin Hbad H. revert tbl H.
  induction Hin as [c children|c c0 children Hin IH]; intros tbl H;
    apply setup_families_cons in H as (tbl1 & H1 & H).
  - by apply Hbad in H1.
  - by apply (IH Hbad tbl1).
Qed.

Lemma AffinitySetupInit_lcpu ncpu tbl (P : Z -> Prop) :
  Forall (fun taf => P (lcpu taf)) tbl ->
  Forall (fun taf => P (lcpu taf)) (AffinitySetupInit ncpu tbl).
Proof.
  intros H. unfold AffinitySetupInit. apply Forall_app. split.
  - apply Forall_map. cbn [lcpu set_cpu_set]. by apply Forall_take.
  - by apply Forall_drop.
Qed.

Lemma setup_families_lcpu fuel online children tbl tbl' (P : Z -> Prop) :
  setup_families fuel online children tbl = Done tbl' ->
  Forall (fun taf => P (lcpu taf)) tbl ->
  Forall (fun taf => P (lcpu taf)) tbl'.
Proof.
  revert tbl. induction children as [|c children IH]; intros tbl H HP.
  - by injection H as <-.
  - apply setup_families_cons in H as (tbl1 & H1 & H). apply (IH _ H).
    apply setup_family_Done in H1 as (i & taf & taf' & Hg & -> & _ & Hl & _).
    apply GetAffinityTypeFromName_Some in Hg as (_ & Hlk & _).
    apply Forall_insert; [done|]. rewrite Hl.
    rewrite Forall_forall in HP. apply HP. by apply (list_elem_of_lookup_2 _ i).
Qed.

End LoadFromConfig.



(** X14: a configuration that is loaded leaves the names of the table
    as they are, and leaves every family it has no section for as
    [AffinitySetupInit] has set it up. *)
Theorem AffinitySetupLoadFromConfig_frame (fuel : nat) (ncpu online : Z)
    (children : list AffinityConf) (tbl tbl' : list ThreadsAffinityType) :
  AffinitySetupLoadFromConfig fuel ncpu online (Some children) tbl = Done tbl' ->
  map name tbl' = map name tbl /\
  forall i taf,
    AffinitySetupInit ncpu tbl !! i = Some taf ->
    (forall c, c ∈ children -> conf_val c <> name taf) ->
    tbl' !! i = Some taf.
Proof.
  unfold AffinitySetupLoadFromConfig. intros H. split.
  - rewrite (setup_families_names _ _ _ _ _ H). apply AffinitySetupInit_names.
  - intros i taf Hl Hne. by apply (setup_families_frame _ _ _ _ _ _ _ H).
Qed.

(** One section, for the detect family, on a machine of four cpus: the
    table keeps its names. *)
Lemma AffinitySetupLoadFromConfig_frame_witness :
  exists tbl',
    AffinitySetupLoadFromConfig 10 4 4
      (Some [mkAffinityConf "detect_cpu_set" (Some ["1-2"%string]) None
               (Some "exclusive"%string) (Some "3"%string)])
      thread_affinity = Done tbl' /\
    map name tbl' = map name thread_affinity.
Proof.
  eexists. split; [reflexivity|].
  apply (AffinitySetupLoadFromConfig_frame 10 4 4
           [mkAffinityConf "detect_cpu_set" (Some ["1-2"%string]) None
              (Some "exclusive"%string) (Some "3"%string)]
           thread_affinity).
  reflexivity.
Defined.

(** X15: a configuration is not loaded when a section of it has a mode
    other than exclusive and balanced, or a default priority other than
    low, medium and high, or a number of threads that [atoi] reads as
    0. *)
Theorem AffinitySetupLoadFromConfig_refused (fuel : nat) (ncpu online : Z)
    (children : list AffinityConf) (tbl tbl' : list ThreadsAffinityType)
    (c : AffinityConf) :
  c ∈ children ->
  (exists v, conf_mode c = Some v /\ v <> "exclusive"%string /\ v <> "balanced"%string) \/
  (exists p v, conf_prio c = Some p /\ prio_default p = Some v /\
               v <> "low"%string /\ v <> "medium"%string /\ v <> "high"%string) \/
  (exists v, conf_threads c = Some v /\ atoi (list_ascii_of_string v) = 0) ->
  AffinitySetupLoadFromConfig fuel ncpu online (Some children) tbl <> Done tbl'.
Proof.
  intros Hin Hbad. unfold AffinitySetupLoadFromConfig.
  apply (setup_families_refused _ _ _ _ _ c Hin).
  intros tbl0 tbl1. by apply setup_family_refused.
Qed.

(** A section with [threads: many]. *)
Lemma AffinitySetupLoadFromConfig_refused_witness :
  AffinitySetupLoadFromConfig 10 4 4
    (Some [mkAffinityConf "detect_cpu_set" (Some ["all"%string]) None None
             (Some "many"%string)])
    thread_affinity <> Done thread_affinity.
Proof.
  apply (AffinitySetupLoadFromConfig_refused 10 4 4 _ thread_affinity thread_affinity
           (mkAffinityConf "detect_cpu_set" (Some ["all"%string]) None None
              (Some "many"%string))).
  - apply list_elem_of_here.
  - right. right. exists "many"%string. split; reflexivity.
Defined.

(** X16: when the last section of a configuration that is loaded has no
    cpu list, the family of that section is left with an empty cpu set,
    and [AffinityGetNextCPU] on that family does not return, whatever
    the number of tests its loop is allowed. *)
Theorem AffinitySetupLoadFromConfig_no_cpu (fuel : nat) (ncpu online : Z)
    (pre : list AffinityConf) (c : AffinityConf)
    (tbl tbl' : list ThreadsAffinityType) :
  AffinitySetupLoadFromConfig fuel ncpu online (Some (pre ++ [c])) tbl = Done tbl' ->
  conf_cpu c = None ->
  online <= CInt.INT_MAX ->
  Forall (fun taf => 0 <= lcpu taf < CInt.INT_MAX) tbl ->
  exists i taf,
    GetAffinityTypeFromName tbl' (conf_val c) = Some (i, taf) /\
    cpu_set taf = CPU_ZERO /\
    forall fuel', AffinityGetNextCPU fuel' online taf = None.
Proof.
  unfold AffinitySetupLoadFromConfig. intros H Hcpu Ho Hl.
  apply setup_families_app in H as (tbl1 & Hpre & H).
  apply setup_families_cons in H as (tbl2 & H & [= <-]).
  assert (Forall (fun taf => 0 <= lcpu taf < CInt.INT_MAX) tbl1) as Hl1.
  { apply (setup_families_lcpu _ _ _ _ _ (fun l => 0 <= l < CInt.INT_MAX) Hpre).
    by apply (AffinitySetupInit_lcpu _ _ (fun l => 0 <= l < CInt.INT_MAX)). }
  apply setup_family_Done in H as (i & taf & taf' & Hg & -> & Hn & Hlc & Hb).
  rewrite Hcpu in Hb. cbn [build_cpuset_opt] in Hb. injection Hb as Hb.
  destruct (GetAffinityTypeFromName_Some _ _ _ _ Hg) as (Hi & Hlk & Hnm & Hfirst).
  exists i, taf'. split; [|split; [done|]].
  - destruct (GetAffinityTypeFromName (<[i:=taf']> tbl1) (conf_val c))
      as [[j taf'']|] eqn:E.
    + destruct (GetAffinityTypeFromName_Some _ _ _ _ E) as (Hj & Hlk' & Hnm' & Hfirst').
      assert (<[i:=taf']> tbl1 !! i = Some taf') as Hii.
      { apply list_lookup_insert_eq. by apply lookup_lt_Some in Hlk. }
      destruct (Nat.lt_trichotomy j i) as [Hlt|[->|Hgt]].
      * rewrite list_lookup_insert_ne in Hlk' by lia.
        by destruct (Hfirst j taf'' Hlt Hlk').
      * congruence.
      * destruct (Hfirst' i taf' Hgt Hii). congruence.
    + rewrite GetAffinityTypeFromName_None in E.
      destruct (E i taf' Hi); [|congruence].
      apply list_lookup_insert_eq. by apply lookup_lt_Some in Hlk.
  - intros fuel'. rewrite Forall_forall in Hl1.
    specialize (Hl1 taf (list_elem_of_lookup_2 _ _ _ Hlk)).
    unfold AffinityGetNextCPU. rewrite next_cpu_loop_spins; [done|done| | |].
    + intros k _. rewrite <- Hb. apply CPU_ISSET_CPU_ZERO.
    + by rewrite Hlc.
    + rewrite <- Hb. apply CPU_ISSET_CPU_ZERO.
Qed.

(** A section that gives the detect family a mode and nothing else. *)
Lemma AffinitySetupLoadFromConfig_no_cpu_witness :
  exists i taf,
    GetAffinityTypeFromName
      (<[3%nat := set_mode_flag (affinity_init "detect_cpu_set" EXCLUSIVE_AFFINITY)
                    BALANCED_AFFINITY]> (AffinitySetupInit 4 thread_affinity))
      "detect_cpu_set" = Some (i, taf) /\
    cpu_set taf = CPU_ZERO /\
    forall fuel', AffinityGetNextCPU fuel' 4 taf = None.
Proof.
  apply (AffinitySetupLoadFromConfig_no_cpu 10 4 4 []
           (mkAffinityConf "detect_cpu_set" None None (Some "balanced"%string) None)
           thread_affinity).
  - reflexivity.
  - reflexivity.
  - unfold CInt.INT_MAX. lia.
  - unfold CInt.INT_MAX. repeat constructor; simpl; lia.
Defined.

(** * More on the fast_pattern directive *)

Section Directive.

(** On success the flags have gained [FAST_PATTERN] and at most one of
    [FAST_PATTERN_ONLY] and [FAST_PATTERN_CHOP], and a second run of the
    same directive on what the first has written writes the same. *)
Lemma fast_pattern_stamp_written s pm cd arg s' :
  fast_pattern_stamp s pm cd arg = (0, s') ->
  exists cd' x,
    s' = store_ctx s pm cd' /\
    (x = 0 \/ x = DETECT_CONTENT_FAST_PATTERN_ONLY \/
     x = DETECT_CONTENT_FAST_PATTERN_CHOP) /\
    flags cd' = Z.lor (Z.lor (flags cd) x) DETECT_CONTENT_FAST_PATTERN /\
    content cd' = content cd /\ content_len cd' = content_len cd.
Proof.
  unfold fast_pattern_stamp.
  destruct (is_negated cd && has_relative_modifier cd); [discriminate|].
  assert (Hbare : (0, store_ctx s pm (or_flags cd DETECT_CONTENT_FAST_PATTERN)) = (0, s') ->
                  exists cd' x,
                    s' = store_ctx s pm cd' /\
                    (x = 0 \/ x = DETECT_CONTENT_FAST_PATTERN_ONLY \/
                     x = DETECT_CONTENT_FAST_PATTERN_CHOP) /\
                    flags cd' = Z.lor (Z.lor (flags cd) x) DETECT_CONTENT_FAST_PATTERN /\
                    content cd' = content cd /\ content_len cd' = content_len cd).
  { intros [= <-]. exists (or_flags cd DETECT_CONTENT_FAST_PATTERN), 0.
    repeat split; [by left|]. simpl. by rewrite Z.lor_0_r. }
  destruct arg as [[|a arg]|]; [exact Hbare | | exact Hbare].
  destruct (pcre_exec _ _ _) as [ret ov].
  destruct (ret =? 2).
  - destruct (is_negated cd || has_relative_modifier cd); [discriminate|].
    intros [= <-]. eexists. exists DETECT_CONTENT_FAST_PATTERN_ONLY.
    repeat split. by right; left.
  - destruct (ret =? 4); [|discriminate].
    unfold fast_pattern_chop.
    repeat match goal with
           | |- context [let '(_, _) := ?p in _] => destruct p
           | |- context [if ?b then _ else _] => destruct b
           end; try discriminate.
    intros [= <-]. eexists. exists DETECT_CONTENT_FAST_PATTERN_CHOP.
    repeat split. by right; right.
Qed.

Lemma lor_lor_again f a b :
  Z.lor (Z.lor (Z.lor (Z.lor f a) b) a) b = Z.lor (Z.lor f a) b.
Proof.
  apply Z.bits_inj'. intros n _. rewrite !Z.lor_spec.
  by destruct (Z.testbit f n), (Z.testbit a n), (Z.testbit b n).
Qed.

Lemma fast_pattern_stamp_again s pm cd arg s' :
  fast_pattern_stamp s pm cd arg = (0, s') ->
  exists cd',
    s' = store_ctx s pm cd' /\
    forall s0, fast_pattern_stamp s0 pm cd' arg = (0, store_ctx s0 pm cd').
Proof.
  destruct cd as [c n f o l]. unfold fast_pattern_stamp.
  destruct (is_negated _ && has_relative_modifier _) eqn:Eguard; [discriminate|].
  assert (Hbare :
    (0, store_ctx s pm (or_flags (mkContent c n f o l) DETECT_CONTENT_FAST_PATTERN))
      = (0, s') ->
    exists cd',
      s' = store_ctx s pm cd' /\
      forall s0,
        (if is_negated cd' && has_relative_modifier cd' then (-1, s0)
         else (0, store_ctx s0 pm (or_flags cd' DETECT_CONTENT_FAST_PATTERN)))
        = (0, store_ctx s0 pm cd')).
  { intros [= <-]. eexists. split; [reflexivity|]. intros s0.
    flags_norm. rewrite Eguard. unfold or_flags, set_flags. cbn.
    by rewrite <- Z.lor_assoc, Z.lor_diag. }
  destruct arg as [[|a arg]|]; [exact Hbare | | exact Hbare].
  destruct (pcre_exec _ _ _) as [ret ov].
  destruct (ret =? 2) eqn:E2.
  - destruct (is_negated _ || has_relative_modifier _) eqn:Eonly; [discriminate|].
    intros [= <-]. eexists. split; [reflexivity|]. intros s0.
    apply orb_false_elim in Eonly as [En Er].
    flags_norm. rewrite En, Er. cbn [andb orb].
    unfold or_flags, set_flags. cbn. by rewrite lor_lor_again.
  - destruct (ret =? 4) eqn:E4; [|discriminate].
    unfold fast_pattern_chop.
    destruct (pcre_get_substring _ ov MAX_SUBSTRINGS 2) as [res2 sub2].
    destruct (res2 <? 0); [discriminate|].
    destruct (atoi sub2 >? 65535) eqn:Eo; [discriminate|].
    destruct (pcre_get_substring _ ov MAX_SUBSTRINGS 3) as [res3 sub3].
    destruct (res3 <? 0); [discriminate|].
    destruct (CInt.int_add (atoi sub2) (atoi sub3) >? 65535) eqn:Es; [discriminate|].
    destruct (CInt.int_add (atoi sub2) (atoi sub3) >? content_len _) eqn:Ec; [discriminate|].
    intros [= <-]. eexists. split; [reflexivity|]. intros s0.
    cbn [content_len or_flags set_flags set_chop] in *.
    rewrite Ec.
    replace (is_negated _ && has_relative_modifier _) with false.
    + unfold or_flags, set_flags, set_chop. cbn. by rewrite lor_lor_again.
    + symmetry. flags_norm. exact Eguard.
Qed.

(** Writing the same data a second time changes nothing. *)
Lemma sm_lists_store_ctx_again s pm cd l :
  sm_lists (store_ctx (store_ctx s pm cd) pm cd) l = sm_lists (store_ctx s pm cd) l.
Proof.
  rewrite !sm_lists_store_ctx. case_decide; [|done].
  rewrite list_alter_alter_eq. apply list_alter_ext; [|done].
  by intros [] _.
Qed.

End Directive.

(** X17: [DetectFastPatternSetup] returns 0 or -1, and when it returns
    -1 it has written nothing: the signature is as it was. *)
Theorem DetectFastPatternSetup_failure_writes_nothing (s : Signature)
    (arg : option string) :
  fst (DetectFastPatternSetup s arg) = 0 \/ DetectFastPatternSetup s arg = (-1, s).
Proof.
  destruct (DetectFastPatternSetup s arg) as [r s'] eqn:E.
  destruct (DetectFastPatternSetup_error _ _ _ _ E) as [->|[-> ->]]; auto.
Qed.

(** X18: a directive that succeeds writes to the keyword the lookup
    returns and to nothing else.  Of that keyword the position, the
    type, the pattern and its length are kept, and so are the flags
    other than the three of fast_pattern: negation, the relative
    modifiers and nocase read as before.  Every other keyword, the
    length of every list and the keyword count are as they were. *)
Theorem DetectFastPatternSetup_frame (s : Signature) (arg : option string)
    (s' : Signature) :
  DetectFastPatternSetup s arg = (0, s') ->
  exists pm sm sm',
    fast_pattern_target s = Some (pm, sm) /\
    deref s' pm = Some sm' /\
    idx sm' = idx sm /\ type sm' = type sm /\
    content (ctx sm') = content (ctx sm) /\
    content_len (ctx sm') = content_len (ctx sm) /\
    is_negated (ctx sm') = is_negated (ctx sm) /\
    has_relative_modifier (ctx sm') = has_relative_modifier (ctx sm) /\
    flag_set (flags (ctx sm')) DETECT_CONTENT_NOCASE =
      flag_set (flags (ctx sm)) DETECT_CONTENT_NOCASE /\
    (forall r, r <> pm -> deref s' r = deref s r) /\
    (forall l, List.length (sm_lists s' l) = List.length (sm_lists s l)) /\
    sm_cnt s' = sm_cnt s.
Proof.
  unfold DetectFastPatternSetup.
  destruct (no_fp_list_tail s); [discriminate|].
  destruct (fast_pattern_target s) as [[pm sm]|] eqn:Ht; [|discriminate].
  intros H. apply fast_pattern_stamp_written in H as (cd' & x & -> & Hx & Hf & Hc & Hl).
  destruct (fast_pattern_target_Some _ _ _ Ht) as (_ & Hd & _).
  exists pm, sm, (set_ctx sm cd'). split; [done|].
  split; [by apply deref_store_ctx_eq|].
  cbn [idx type ctx set_ctx]. repeat split; try done.
  - destruct Hx as [->|[->| ->]]; flags_norm; rewrite Hf;
      rewrite ?Z.lor_0_r; flags_norm; done.
  - destruct Hx as [->|[->| ->]]; flags_norm; rewrite Hf;
      rewrite ?Z.lor_0_r; flags_norm; done.
  - change DETECT_CONTENT_NOCASE with (2 ^ 0).
    destruct Hx as [->|[->| ->]]; flags_norm; rewrite Hf;
      rewrite ?Z.lor_0_r; flags_norm; done.
  - intros r Hr. by apply deref_store_ctx_ne.
  - intros l. rewrite sm_lists_store_ctx. case_decide; [|done].
    apply length_alter.
Qed.

(** The rule of DetectFastPatternTest49, a negated keyword that takes
    [fast_pattern:3,4]. *)
Lemma DetectFastPatternSetup_frame_witness :
  exists pm sm sm',
    fast_pattern_target sig_negated_long = Some (pm, sm) /\
    deref (snd (DetectFastPatternSetup sig_negated_long (Some "3,4"%string))) pm
      = Some sm' /\
    idx sm' = idx sm /\ type sm' = type sm /\
    content (ctx sm') = content (ctx sm) /\
    content_len (ctx sm') = content_len (ctx sm) /\
    is_negated (ctx sm') = is_negated (ctx sm) /\
    has_relative_modifier (ctx sm') = has_relative_modifier (ctx sm) /\
    flag_set (flags (ctx sm')) DETECT_CONTENT_NOCASE =
      flag_set (flags (ctx sm)) DETECT_CONTENT_NOCASE /\
    (forall r, r <> pm ->
       deref (snd (DetectFastPatternSetup sig_negated_long (Some "3,4"%string))) r
       = deref sig_negated_long r) /\
    (forall l,
       List.length
         (sm_lists (snd (DetectFastPatternSetup sig_negated_long (Some "3,4"%string))) l)
       = List.length (sm_lists sig_negated_long l)) /\
    sm_cnt (snd (DetectFastPatternSetup sig_negated_long (Some "3,4"%string)))
      = sm_cnt sig_negated_long.
Proof.
  apply (DetectFastPatternSetup_frame sig_negated_long (Some "3,4"%string)).
  reflexivity.
Defined.

(** X19: a directive that has succeeded succeeds again when it is
    repeated at once with the same argument, and the second run changes
    nothing: every list and the keyword count are as the first run left
    them. *)
Theorem DetectFastPatternSetup_idempotent (s : Signature) (arg : option string)
    (s1 : Signature) :
  DetectFastPatternSetup s arg = (0, s1) ->
  exists s2,
    DetectFastPatternSetup s1 arg = (0, s2) /\
    sm_cnt s2 = sm_cnt s1 /\
    forall l, sm_lists s2 l = sm_lists s1 l.
Proof.
  unfold DetectFastPatternSetup at 1.
  destruct (no_fp_list_tail s); [discriminate|].
  destruct (fast_pattern_target s) as [[pm sm]|] eqn:Ht; [|discriminate].
  intros H. apply fast_pattern_stamp_again in H as (cd' & -> & Hagain).
  exists (store_ctx (store_ctx s pm cd') pm cd').
  split; [|split; [done|]].
  - rewrite (DetectFastPatternSetup_target _ pm (set_ctx sm cd'))
      by (by apply fast_pattern_target_store_ctx).
    apply Hagain.
  - apply sm_lists_store_ctx_again.
Qed.

(** [fast_pattern:only] on [content:"/one/"], twice. *)
Lemma DetectFastPatternSetup_idempotent_witness :
  exists s2,
    DetectFastPatternSetup (snd (DetectFastPatternSetup sig_one (Some "only"%string)))
      (Some "only"%string) = (0, s2) /\
    sm_cnt s2 = sm_cnt (snd (DetectFastPatternSetup sig_one (Some "only"%string))) /\
    forall l,
      sm_lists s2 l =
      sm_lists (snd (DetectFastPatternSetup sig_one (Some "only"%string))) l.
Proof.
  apply (DetectFastPatternSetup_idempotent sig_one (Some "only"%string)).
  reflexivity.
Defined.

(** ** Arguments the regular expression does not match *)

Section NoMatch.

(** A repetition fails when what follows it fails wherever the
    repetition may stop. *)
Lemma star_none c pos s caps k :
  (forall pre s', s = pre ++ s' -> Forall (fun a => in_class c a = true) pre ->
                  k (pos + List.length pre)%nat s' caps = None) ->
  star c pos s caps k = None.
Proof.
  revert pos. induction s as [|a s IH]; intros pos Hk.
  - simpl. specialize (Hk [] [] eq_refl (Forall_nil_2 _)).
    simpl in Hk. by rewrite Nat.add_0_r in Hk.
  - assert (k pos (a :: s) caps = None) as Hhere.
    { specialize (Hk [] (a :: s) eq_refl (Forall_nil_2 _)).
      simpl in Hk. by rewrite Nat.add_0_r in Hk. }
    simpl. destruct (in_class c a) eqn:Ha; [|done].
    rewrite IH; [done|]. intros pre s' -> Hpre.
    specialize (Hk (a :: pre) s' eq_refl (Forall_cons_2 _ _ _ Ha Hpre)).
    simpl in Hk. by rewrite Nat.add_succ_r in Hk.
Qed.




(** The first branch of the expression fails on a subject that does not
    start with white space and then [only]. *)
Lemma only_needed s caps k :
  (forall ws rest, Forall (fun a => is_space a = true) ws ->
                   s <> ws ++ list_ascii_of_string "only" ++ rest) ->
  match_re
    (RGroup 1
       (RSeq (RStar CSpace)
          (RSeq (RChar (CLit "o"))
             (RSeq (RChar (CLit "n"))
                (RSeq (RChar (CLit "l"))
                   (RSeq (RChar (CLit "y")) (RStar CSpace)))))))
    0 s caps k = None.
Proof.
  intros Hs. cbn [match_re]. apply star_none. intros pre s' -> Hpre.
  specialize (Hs pre). cbn [in_class].
  destruct s' as [|a1 s']; [done|].
  destruct (Ascii.eqb_spec a1 "o") as [->|]; [|done].
  destruct s' as [|a2 s']; [done|].
  destruct (Ascii.eqb_spec a2 "n") as [->|]; [|done].
  destruct s' as [|a3 s']; [done|].
  destruct (Ascii.eqb_spec a3 "l") as [->|]; [|done].
  destruct s' as [|a4 s']; [done|].
  destruct (Ascii.eqb_spec a4 "y") as [->|]; [|done].
  by destruct (Hs s' Hpre).
Qed.

Lemma match_re_alt r1 r2 pos s caps k :
  match_re (RAlt r1 r2) pos s caps k =
  match match_re r1 pos s caps k with
  | Some res => Some res
  | None => match_re r2 pos s caps k
  end.
Proof. reflexivity. Qed.

Lemma match_re_bol r pos s caps k :
  match_re (RSeq RBol r) pos s caps k =
  match pos with O => match_re r 0 s caps k | S _ => None end.
Proof. by destruct pos. Qed.

Lemma exec_from_unfold re ngroups pos s :
  exec_from re ngroups pos s =
  match match_re re pos s (replicate (S ngroups) None)
          (fun pos' _ caps => Some (<[0%nat := Some (pos, pos')]> caps)) with
  | Some caps => Some caps
  | None =>
      match s with
      | [] => None
      | _ :: s' => exec_from re ngroups (S pos) s'
      end
  end.
Proof. by destruct s. Qed.


End NoMatch.



(** X21: the chop form does not look at [FAST_PATTERN_ONLY]: on a
    keyword that is not negated and has no relative modifier,
    [fast_pattern:only] and then [fast_pattern:offset,length] with
    numbers within the pattern both succeed, and the keyword ends up
    with [FAST_PATTERN_ONLY] and [FAST_PATTERN_CHOP] at once, the two
    numbers recorded. *)
Theorem fast_pattern_only_then_chop (s : Signature) (pm : SMRef) (sm : SigMatch)
    (d1 d2 : list ascii) :
  fast_pattern_target s = Some (pm, sm) ->
  is_negated (ctx sm) = false -> has_relative_modifier (ctx sm) = false ->
  digit_string d1 -> digit_string d2 ->
  decimal d1 + decimal d2 <= content_len (ctx sm) ->
  content_len (ctx sm) <= 65535 ->
  exists s1 s2 sm',
    DetectFastPatternSetup s (Some "only"%string) = (0, s1) /\
    DetectFastPatternSetup s1 (Some (chop_arg d1 d2)) = (0, s2) /\
    deref s2 pm = Some sm' /\
    flag_set (flags (ctx sm')) DETECT_CONTENT_FAST_PATTERN_ONLY = true /\
    flag_set (flags (ctx sm')) DETECT_CONTENT_FAST_PATTERN_CHOP = true /\
    flag_set (flags (ctx sm')) DETECT_CONTENT_FAST_PATTERN = true /\
    fp_chop_offset (ctx sm') = decimal d1 /\
    fp_chop_len (ctx sm') = decimal d2.
Proof.
  intros Ht Hn Hr Hd1 Hd2 Hlen Hmax.
  pose proof (decimal_nonneg d1 Hd1) as H1. pose proof (decimal_nonneg d2 Hd2) as H2.
  destruct (fast_pattern_target_Some _ _ _ Ht) as (_ & Hd & _).
  set (cd1 := or_flags (or_flags (ctx sm) DETECT_CONTENT_FAST_PATTERN_ONLY)
                DETECT_CONTENT_FAST_PATTERN).
  assert (is_negated cd1 = false /\ has_relative_modifier cd1 = false) as [Hn1 Hr1].
  { unfold cd1. flags_norm. by rewrite Hn, Hr. }
  do 3 eexists. split; [|split; [|split]].
  - rewrite (DetectFastPatternSetup_target _ _ _ _ Ht), fast_pattern_stamp_only.
    by rewrite Hn, Hr.
  - rewrite (DetectFastPatternSetup_target _ pm (set_ctx sm cd1))
      by (by apply fast_pattern_target_store_ctx).
    cbn [ctx set_ctx].
    rewrite fast_pattern_stamp_chop by (try done; unfold CInt.INT_MAX; lia).
    rewrite Hn1, Hr1. cbn [andb].
    change (content_len cd1) with (content_len (ctx sm)).
    rewrite !Z.gtb_ltb, !(proj2 (Z.ltb_ge _ _)) by lia. reflexivity.
  - apply deref_store_ctx_eq. by apply deref_store_ctx_eq.
  - cbn [ctx set_ctx]. unfold cd1. flags_norm. repeat split; done.
Qed.

(** [fast_pattern:only] and then [fast_pattern:1,2] on [content:"/one/"]. *)
Lemma fast_pattern_only_then_chop_witness :
  exists s1 s2 sm',
    DetectFastPatternSetup sig_one (Some "only"%string) = (0, s1) /\
    DetectFastPatternSetup s1 (Some "1,2"%string) = (0, s2) /\
    deref s2 (DETECT_SM_LIST_PMATCH, 0%nat) = Some sm' /\
    flag_set (flags (ctx sm')) DETECT_CONTENT_FAST_PATTERN_ONLY = true /\
    flag_set (flags (ctx sm')) DETECT_CONTENT_FAST_PATTERN_CHOP = true /\
    flag_set (flags (ctx sm')) DETECT_CONTENT_FAST_PATTERN = true /\
    fp_chop_offset (ctx sm') = 1 /\
    fp_chop_len (ctx sm') = 2.
Proof.
  apply (fast_pattern_only_then_chop sig_one (DETECT_SM_LIST_PMATCH, 0%nat)
           (mkSigMatch 0 DETECT_CONTENT (content_data false "/one/"))
           ["1"%char] ["2"%char]).
  - reflexivity.
  - reflexivity.
  - reflexivity.
  - split; [done|repeat constructor].
  - split; [done|repeat constructor].
  - vm_compute. discriminate.
  - vm_compute. discriminate.
Defined.

(** ** Who is registered *)

Section Registered.

Lemma elem_of_SupportFastPatternForSigMatchList list_id g :
  (forall l, l ∈ sm_fp_support_smlist_list (SupportFastPatternForSigMatchList list_id g)
             <-> l = list_id \/ l ∈ sm_fp_support_smlist_list g) /\
  sm_fp_support_smtype_list (SupportFastPatternForSigMatchList list_id g) =
    sm_fp_support_smtype_list g.
Proof.
  unfold SupportFastPatternForSigMatchList.
  destruct (smlist_registered _ _) eqn:E; cbn [sm_fp_support_smlist_list
    sm_fp_support_smtype_list]; (split; [|done]); intros l.
  - apply smlist_registered_spec in E. split; [by right|]. by intros [->|].
  - apply elem_of_cons.
Qed.

Lemma elem_of_SupportFastPatternForSigMatchType sm_type g :
  (forall t, t ∈ sm_fp_support_smtype_list (SupportFastPatternForSigMatchType sm_type g)
             <-> t = sm_type \/ t ∈ sm_fp_support_smtype_list g) /\
  sm_fp_support_smlist_list (SupportFastPatternForSigMatchType sm_type g) =
    sm_fp_support_smlist_list g.
Proof.
  unfold SupportFastPatternForSigMatchType.
  destruct (smtype_registered _ _) eqn:E; cbn [sm_fp_support_smlist_list
    sm_fp_support_smtype_list]; (split; [|done]); intros t.
  - apply smtype_registered_spec in E. split; [by right|]. by intros [->|].
  - apply elem_of_cons.
Qed.

Lemma elem_of_SupportFastPatternForSigMatchTypes g :
  (forall l, l ∈ sm_fp_support_smlist_list (SupportFastPatternForSigMatchTypes g)
             <-> l ∈ map snd fp_lookup_pairs \/ l ∈ sm_fp_support_smlist_list g) /\
  (forall t, t ∈ sm_fp_support_smtype_list (SupportFastPatternForSigMatchTypes g)
             <-> t ∈ map fst fp_lookup_pairs \/ t ∈ sm_fp_support_smtype_list g).
Proof.
  unfold SupportFastPatternForSigMatchTypes. cbv zeta. split.
  - intros l.
    repeat first
      [ rewrite (proj1 (elem_of_SupportFastPatternForSigMatchList _ _))
      | rewrite (proj2 (elem_of_SupportFastPatternForSigMatchType _ _)) ].
    cbn [map snd fp_lookup_pairs]. rewrite !elem_of_cons, elem_of_nil. tauto.
  - intros t.
    repeat first
      [ rewrite (proj1 (elem_of_SupportFastPatternForSigMatchType _ _))
      | rewrite (proj2 (elem_of_SupportFastPatternForSigMatchList _ _)) ].
    cbn [map fst fp_lookup_pairs]. rewrite !elem_of_cons, elem_of_nil. tauto.
Qed.

End Registered.

(** X22: after any run of calls of the registration functions a list
    id is registered exactly when it was registered before the run,
    or [SupportFastPatternForSigMatchList] was called with it, or
    [SupportFastPatternForSigMatchTypes] was called and it is one of the
    seven lists named there; and a sigmatch type likewise. *)
Theorem support_calls_registered (cs : list SupportCall) (g : FPSupport) :
  (forall l,
      l ∈ sm_fp_support_smlist_list (support_calls cs g) <->
      l ∈ sm_fp_support_smlist_list g \/ CallSigMatchList l ∈ cs \/
      (CallSigMatchTypes ∈ cs /\ l ∈ map snd fp_lookup_pairs)) /\
  (forall t,
      t ∈ sm_fp_support_smtype_list (support_calls cs g) <->
      t ∈ sm_fp_support_smtype_list g \/ CallSigMatchType t ∈ cs \/
      (CallSigMatchTypes ∈ cs /\ t ∈ map fst fp_lookup_pairs)).
Proof.
  revert g. induction cs as [|c cs IH]; intros g.
  - cbn [support_calls fold_left]. split; intros x; rewrite !elem_of_nil; tauto.
  - change (support_calls (c :: cs) g) with (support_calls cs (support_call c g)).
    destruct (IH (support_call c g)) as [IHl IHt]. split; intros x.
    + rewrite IHl, !elem_of_cons. destruct c as [l0|t0|]; cbn [support_call].
      * rewrite (proj1 (elem_of_SupportFastPatternForSigMatchList _ _)).
        split; [|intuition congruence]. intros [[->|?]|[?|[? ?]]]; auto.
      * rewrite (proj2 (elem_of_SupportFastPatternForSigMatchType _ _)).
        split; [|intuition congruence]. intros [?|[?|[? ?]]]; auto.
      * rewrite (proj1 (elem_of_SupportFastPatternForSigMatchTypes _)).
        split; [|intuition congruence]. intros [[?|?]|[?|[? ?]]]; auto.
    + rewrite IHt, !elem_of_cons. destruct c as [l0|t0|]; cbn [support_call].
      * rewrite (proj2 (elem_of_SupportFastPatternForSigMatchList _ _)).
        split; [|intuition congruence]. intros [?|[?|[? ?]]]; auto.
      * rewrite (proj1 (elem_of_SupportFastPatternForSigMatchType _ _)).
        split; [|intuition congruence]. intros [[->|?]|[?|[? ?]]]; auto.
      * rewrite (proj2 (elem_of_SupportFastPatternForSigMatchTypes _)).
        split; [|intuition congruence]. intros [[?|?]|[?|[? ?]]]; auto.
Qed.

(** From the empty lists, after [SupportFastPatternForSigMatchTypes] and
    a call for the list of plain keywords: the cookie list is
    registered, the list of the application layer keywords is not. *)
Lemma support_calls_registered_witness :
  DETECT_SM_LIST_HCDMATCH ∈
    sm_fp_support_smlist_list
      (support_calls [CallSigMatchTypes; CallSigMatchList DETECT_SM_LIST_MATCH]
         fp_support_init) /\
  DETECT_SM_LIST_AMATCH ∉
    sm_fp_support_smlist_list
      (support_calls [CallSigMatchTypes; CallSigMatchList DETECT_SM_LIST_MATCH]
         fp_support_init).
Proof.
  split.
  - apply (proj1 (support_calls_registered
                    [CallSigMatchTypes; CallSigMatchList DETECT_SM_LIST_MATCH]
                    fp_support_init)).
    right. right. split; [apply list_elem_of_here|].
    apply (bool_decide_unpack _). vm_compute. exact I.
  - intros Hin.
    apply (proj1 (support_calls_registered
                    [CallSigMatchTypes; CallSigMatchList DETECT_SM_LIST_MATCH]
                    fp_support_init)) in Hin.
    destruct Hin as [Hin|[Hin|[_ Hin]]].
    + by apply elem_of_nil in Hin.
    + not_among Hin.
    + not_among Hin.
Defined.

(** ** White space in the chop form *)

Section ChopSpaces.

Lemma is_space_cases a :
  is_space a = true ->
  is_digit a = false /\ Ascii.eqb a "o" = false /\ Ascii.eqb a "," = false.
Proof.
  destruct a as [[] [] [] [] [] [] [] []]; vm_compute; intros H;
    first [discriminate H | repeat split; congruence].
Qed.

(** Greedy repetition takes the whole run when what follows matches
    from its end. *)
Lemma star_run c run rest pos caps k res :
  Forall (fun a => in_class c a = true) run ->
  k (pos + List.length run)%nat rest caps = Some res ->
  (forall a r, rest = a :: r -> in_class c a = false) ->
  star c pos (run ++ rest) caps k = Some res.
Proof.
  intros Hrun. revert pos. induction Hrun as [|a run Ha Hrun IH]; intros pos Hk Hrest; simpl.
  - rewrite Nat.add_0_r in Hk. destruct rest as [|b rest]; simpl; [exact Hk|].
    by rewrite (Hrest b rest eq_refl).
  - rewrite Ha. rewrite (IH (S pos)); [reflexivity| |exact Hrest].
    simpl in Hk. by rewrite Nat.add_succ_r in Hk.
Qed.

Lemma star_run_end c run pos caps k res :
  Forall (fun a => in_class c a = true) run ->
  k (pos + List.length run)%nat [] caps = Some res ->
  star c pos run caps k = Some res.
Proof.
  intros Hrun Hk. rewrite <- (app_nil_r run) at 1.
  by apply star_run.
Qed.

(** The head of white space followed by a character that is no digit
    is no digit. *)
Lemma head_spaces (P : ascii -> Prop) ws x rest a r :
  Forall (fun a => is_space a = true) ws ->
  (forall w, is_space w = true -> P w) -> P x ->
  ws ++ x :: rest = a :: r -> P a.
Proof.
  intros Hws Hsp Hx E. destruct ws as [|w ws].
  - by injection E as <- _.
  - injection E as <- _. apply Hsp. by inversion Hws.
Qed.

(** White space and then a digit is not white space and then [only]. *)
Lemma spaces_digit_not_only ws1 a rest0 ws rest :
  Forall (fun a => is_space a = true) ws1 -> is_digit a = true ->
  Forall (fun a => is_space a = true) ws ->
  ws1 ++ a :: rest0 <> ws ++ list_ascii_of_string "only" ++ rest.
Proof.
  intros H1 Ha. revert ws. induction H1 as [|w1 ws1 Hw1 H1 IH]; intros ws Hws E.
  - destruct ws as [|w ws].
    + injection E as -> _. discriminate Ha.
    + injection E as -> _. inversion Hws as [|? ? Hw _]; subst.
      destruct (is_space_cases _ Hw) as (Hd & _). congruence.
  - destruct ws as [|w ws].
    + injection E as -> _. discriminate Hw1.
    + injection E as -> E. inversion Hws; subst. by apply (IH ws).
Qed.

Lemma pcre_exec_chop_spaces ws1 d1 ws2 ws3 d2 ws4 :
  Forall (fun a => is_space a = true) ws1 -> Forall (fun a => is_space a = true) ws2 ->
  Forall (fun a => is_space a = true) ws3 -> Forall (fun a => is_space a = true) ws4 ->
  digit_string d1 -> digit_string d2 ->
  let arg := ws1 ++ d1 ++ ws2 ++ ","%char :: ws3 ++ d2 ++ ws4 in
  exists ov,
    pcre_exec parse_regex parse_regex_groups arg = (4, ov) /\
    pcre_get_substring arg ov MAX_SUBSTRINGS 2 = (Z.of_nat (List.length d1), d1) /\
    pcre_get_substring arg ov MAX_SUBSTRINGS 3 = (Z.of_nat (List.length d2), d2).
Proof.
  intros Hw1 Hw2 Hw3 Hw4 [Hne1 Hd1] [Hne2 Hd2] arg.
  destruct d1 as [|a d1]; [done|]. destruct d2 as [|b d2]; [done|].
  inversion Hd1 as [|? ? Ha Hd1']; subst. inversion Hd2 as [|? ? Hb Hd2']; subst.
  destruct (is_digit_cases a Ha) as (Hsa & _).
  destruct (is_digit_cases b Hb) as (Hsb & _).
  assert (E : exists e0 b2 e2 b3 e3,
    exec_from parse_regex 3 0 arg =
      Some [Some (0, e0); None; Some (b2, e2); Some (b3, e3)]%nat /\
    b2 = List.length ws1 /\ (e2 - b2)%nat = List.length (a :: d1) /\
    b3 = List.length (ws1 ++ (a :: d1) ++ ws2 ++ ","%char :: ws3) /\
    (e3 - b3)%nat = List.length (b :: d2)).
  { do 5 eexists. split.
    - rewrite exec_from_unfold. unfold parse_regex.
      rewrite match_re_alt, match_re_bol.
      rewrite only_needed
        by (intros ws rest Hws; unfold arg; rewrite <- app_comm_cons;
            by apply spaces_digit_not_only).
      unfold arg. rewrite <- !app_comm_cons. cbn [match_re].
      erewrite (star_run CSpace ws1); [reflexivity|exact Hw1| |].
      2:{ intros a' r [= <- _]. exact Hsa. }
      cbv beta. cbn [in_class]. rewrite Ha.
      erewrite (star_run CDigit d1); [reflexivity|exact Hd1'| |].
      2:{ intros a' r E.
          eapply (head_spaces (fun x => is_digit x = false) ws2 ","%char);
            [exact Hw2| |done|exact E].
          intros w Hw. by destruct (is_space_cases w Hw). }
      cbv beta.
      erewrite (star_run CSpace ws2); [reflexivity|exact Hw2| |].
      2:{ by intros a' r [= <- _]. }
      cbv beta. cbn [in_class Ascii.eqb Bool.eqb]. cbv iota.
      erewrite (star_run CSpace ws3); [reflexivity|exact Hw3| |].
      2:{ intros a' r [= <- _]. exact Hsb. }
      cbv beta. rewrite Hb.
      erewrite (star_run CDigit d2); [reflexivity|exact Hd2'| |].
      2:{ intros a' r ->. inversion Hw4 as [|? ? Hw _]; subst.
          by destruct (is_space_cases a' Hw). }
      cbv beta.
      erewrite (star_run_end CSpace ws4); [reflexivity|exact Hw4|].
      reflexivity.
    - rewrite ?length_app. cbn [List.length]. rewrite ?length_app. cbn [List.length].
      repeat split; lia. }
  destruct E as (e0 & b2 & e2 & b3 & e3 & E & Hb2 & He2 & Hb3 & He3).
  eexists. unfold pcre_exec, parse_regex_groups. rewrite E. cbn [string_count].
  split; [reflexivity|]. unfold pcre_get_substring.
  change (Z.of_nat 2 <? MAX_SUBSTRINGS) with true.
  change (Z.of_nat 3 <? MAX_SUBSTRINGS) with true.
  cbn [lookup list_lookup]. cbv iota.
  rewrite He2, He3, Hb3, Hb2. split; f_equal.
  - unfold arg. rewrite drop_app_length. by rewrite take_app_length.
  - assert (arg = (ws1 ++ (a :: d1) ++ ws2 ++ ","%char :: ws3) ++ (b :: d2) ++ ws4) as ->.
    { unfold arg. by rewrite <- !app_assoc. }
    rewrite drop_app_length. by rewrite take_app_length.
Qed.

End ChopSpaces.

(** X23: white space before, between and after the two numbers and the
    comma of the chop form makes no difference: the directive does what
    it does on the same numbers written without it. *)
Theorem DetectFastPatternSetup_chop_spaces (s : Signature)
    (ws1 d1 ws2 ws3 d2 ws4 : list ascii) :
  Forall (fun a => is_space a = true) ws1 -> Forall (fun a => is_space a = true) ws2 ->
  Forall (fun a => is_space a = true) ws3 -> Forall (fun a => is_space a = true) ws4 ->
  digit_string d1 -> digit_string d2 ->
  DetectFastPatternSetup s
    (Some (string_of_list_ascii (ws1 ++ d1 ++ ws2 ++ ","%char :: ws3 ++ d2 ++ ws4))) =
  DetectFastPatternSetup s (Some (chop_arg d1 d2)).
Proof.
  intros Hw1 Hw2 Hw3 Hw4 Hd1 Hd2. unfold DetectFastPatternSetup.
  destruct (no_fp_list_tail s); [done|].
  destruct (fast_pattern_target s) as [[pm sm]|]; [|done].
  destruct (pcre_exec_chop_spaces ws1 d1 ws2 ws3 d2 ws4 Hw1 Hw2 Hw3 Hw4 Hd1 Hd2)
    as (ov & Hexec & Hs2 & Hs3).
  destruct (pcre_exec_chop d1 d2 Hd1 Hd2) as (ov' & Hexec' & Hs2' & Hs3').
  unfold fast_pattern_stamp.
  destruct (is_negated (ctx sm) && has_relative_modifier (ctx sm)); [done|].
  unfold chop_arg.
  destruct (string_of_list_ascii (ws1 ++ d1 ++ ws2 ++ ","%char :: ws3 ++ d2 ++ ws4))
    as [|c str] eqn:Estr.
  { apply (f_equal list_ascii_of_string) in Estr.
    rewrite list_ascii_of_string_of_list_ascii in Estr.
    destruct Hd1 as [Hne _]. destruct ws1, d1; done. }
  destruct (string_of_list_ascii (d1 ++ ","%char :: d2)) as [|c' str'] eqn:Estr'.
  { destruct Hd1 as [Hne _]. destruct d1; [done | discriminate Estr']. }
  rewrite <- Estr, <- Estr', !list_ascii_of_string_of_list_ascii, Hexec, Hexec'.
  change (4 =? 2) with false. change (4 =? 4) with true. cbv iota.
  unfold fast_pattern_chop. by rewrite Hs2, Hs3, Hs2', Hs3'.
Qed.

(** [ 3 , 4 ] on the keyword of DetectFastPatternTest49. *)
Lemma DetectFastPatternSetup_chop_spaces_witness :
  DetectFastPatternSetup sig_negated_long (Some " 3 , 4 "%string) =
  DetectFastPatternSetup sig_negated_long (Some "3,4"%string).
Proof.
  apply (DetectFastPatternSetup_chop_spaces sig_negated_long
           [" "%char] ["3"%char] [" "%char] [" "%char] ["4"%char] [" "%char]).
  - repeat constructor.
  - repeat constructor.
  - repeat constructor.
  - repeat constructor.
  - split; [done|repeat constructor].
  - split; [done|repeat constructor].
Defined.
